(** * A unification layer over chat-completion APIs: translation and
      stream decoding

    Shallow embedding of the Go packages [provider], [provider/openai],
    [provider/mistral], [provider/anthropic] and [provider/ollama], and
    the properties of their request mappers, response mappers, stream
    decoders and of the stream reader.

    Conventions of the embedding:
    - Go's [int] is a 64-bit two's complement integer: a [Z] with the
      wrap-around of [+] written out ([Go.int_add]);
    - [string] is Rocq's [string]; a [float64] travels as its IEEE-754
      bit pattern (the mappers only copy it); a pointer [*T] that is only
      tested against [nil] and read is an [option T];
    - a slice is a [list] ([nil] and the empty slice are both [[]]: the
      code only takes [len] and ranges over them);
    - [encoding/json], the HTTP transport and the ollama client are
      collaborators: the functions that use them take them as arguments;
    - the goroutine started by a [Stream] method is the list of events it
      sends on the channel, in order, before it closes the channel, when
      the consumer keeps receiving and the context is not cancelled (a
      cancelled run sends a prefix of that list). *)

From Stdlib Require Import ZArith String Ascii List Bool Lia DecimalString.
From stdpp Require Import base option list gmap strings.
Import ListNotations.

Local Open Scope Z_scope.
Local Open Scope string_scope.
Local Open Scope list_scope.

(** ** Go values used by every package *)

Module Go.

(** [int] on the 64-bit platforms the module targets. *)
Definition int := Z.
Definition int64 := Z.
Definition float64 := Z.

Definition min_int : Z := - 2 ^ 63.
Definition max_int : Z := 2 ^ 63 - 1.

Definition wrap (z : Z) : int := (z + 2 ^ 63) mod 2 ^ 64 - 2 ^ 63.

Definition in_int (z : Z) : Prop := min_int <= z <= max_int.

(** [a + b] and [i++] on [int]. *)
Definition int_add (a b : int) : int := wrap (a + b).
Definition int_incr (a : int) : int := int_add a 1.

(** The loop variable of [for i := range s]. *)
Definition int_of_nat (n : nat) : int := wrap (Z.of_nat n).

(** The [error] interface, by the way a value was made:
    [errors.New] and [fmt.Errorf] without [%w] give a fresh value that
    is equal only to itself, [fmt.Errorf] with [%w] wraps a cause. The
    package variable [provider.ErrStreamClosed] is one such value, with
    an identity of its own. *)
Inductive fmt_arg : Type :=
| arg_int (i : Z)
| arg_string (s : string).

Inductive error : Type :=
| ErrStreamClosed
| errorf (format : string) (args : list fmt_arg)
| errorw (format : string) (cause : error).

(** [(T, error)] results. *)
Inductive result (A : Type) : Type :=
| Ok (a : A)
| Err (e : error).
Arguments Ok {A} a.
Arguments Err {A} e.

(** A statement that either completes or panics. *)
Inductive outcome (A : Type) : Type :=
| Returns (a : A)
| Panics (msg : string).
Arguments Returns {A} a.
Arguments Panics {A} msg.

Definition bind {A B} (m : outcome A) (k : A -> outcome B) : outcome B :=
  match m with
  | Returns a => k a
  | Panics msg => Panics msg
  end.

(** [interface{}] holding a JSON document, as [encoding/json] builds it:
    [nil], [bool], [float64], [string], [[]any], [map[string]any]. *)
#[warnings="-register-all"]
Inductive any : Type :=
| any_nil
| any_bool (b : bool)
| any_float64 (f : float64)
| any_string (s : string)
| any_slice (l : list any)
| any_map (m : list (string * any)).

(** [strings.HasPrefix] and [strings.TrimPrefix]. *)
Definition HasPrefix (s pre : string) : bool := String.prefix pre s.

Fixpoint drop_chars (n : nat) (s : string) : string :=
  match n, s with
  | O, _ => s
  | S n', String _ s' => drop_chars n' s'
  | S _, EmptyString => EmptyString
  end.

Definition TrimPrefix (s pre : string) : string :=
  if HasPrefix s pre then drop_chars (String.length pre) s else s.

(** A channel of [struct{}] used only as a close signal. *)
Inductive signal : Type := sig_open | sig_closed.

(** The builtin [close]: closing a closed channel panics. *)
Definition close_signal (c : signal) : outcome signal :=
  match c with
  | sig_open => Returns sig_closed
  | sig_closed => Panics "close of closed channel"
  end.

End Go.

Import Go.

(** ** The HTTP transport, as the providers use it *)

Module http.

Definition MethodPost := "POST".
Definition StatusOK : int := 200.

(** A request. Its URL is the URL that [url.Parse] made of the text
    given to [NewRequestWithContext], as [String] prints it. Its header
    is a map from keys to the value last set: [Set] and [Get] bring a key
    to the same canonical form, and the model keeps the key as the code
    writes it on both sides. *)
Record Request : Type := {
  Request_Method : string;
  Request_URL : string;
  Request_Header : gmap string string;
  Request_Body : string }.

(** A response: its status, what [io.ReadAll] gives for its body (the
    bytes read and the error, if any), and the lines a scanner yields for
    the same body. *)
Record Response : Type := {
  Response_StatusCode : int;
  Response_ReadAll : string * option error;
  Response_Lines : list string }.

(** [http.NewRequestWithContext] with a non-nil context and a valid
    method: it parses the URL text, fails when that fails, and keeps the
    parsed URL, which need not print as the text it was parsed from (the
    scheme is brought to lower case, for one). [parse] is [url.Parse]
    followed by [String]. *)
Definition NewRequestWithContext (parse : string -> result string)
    (method url body : string) : result Request :=
  match parse url with
  | Err e => Err e
  | Ok u =>
      Ok {| Request_Method := method; Request_URL := u;
            Request_Header := ∅; Request_Body := body |}
  end.

(** [req.Header.Set(key, value)] and [req.Header.Get(key)] with its
    [ok]. *)
Definition Header_Get (key : string) (r : Request) : option string :=
  Request_Header r !! key.

Definition Header_Set (key value : string) (r : Request) : Request :=
  {| Request_Method := Request_Method r; Request_URL := Request_URL r;
     Request_Header := <[key := value]> (Request_Header r);
     Request_Body := Request_Body r |}.

End http.

(** ** Package provider: the unified model and the stream reader *)

Module provider.

Definition Role := string.
Definition RoleSystem : Role := "system".
Definition RoleUser : Role := "user".
Definition RoleAssistant : Role := "assistant".
Definition RoleTool : Role := "tool".

Record FunctionCall : Type := {
  FunctionCall_Name : string;
  FunctionCall_Arguments : string }.

Record ToolCall : Type := {
  ToolCall_ID : string;
  ToolCall_Type : string;
  ToolCall_Function : FunctionCall;
  ToolCall_Index : int }.

Record Message : Type := {
  Message_Role : Role;
  Message_Content : string;
  Message_ToolCalls : list ToolCall;
  Message_ToolCallID : string;
  Message_Name : string }.

Record Function : Type := {
  Function_Name : string;
  Function_Description : string;
  Function_Parameters : list (string * any);
  Function_Strict : bool }.

Record Tool : Type := {
  Tool_Type : string;
  Tool_Function : Function }.

Definition ToolChoice := string.

Record ChatRequest : Type := {
  ChatRequest_Messages : list Message;
  ChatRequest_Model : string;
  ChatRequest_Temperature : option float64;
  ChatRequest_TopP : option float64;
  ChatRequest_MaxTokens : option int;
  ChatRequest_Stream : bool;
  ChatRequest_Stop : list string;
  ChatRequest_Tools : list Tool;
  ChatRequest_ToolChoice : option ToolChoice;
  ChatRequest_PresencePenalty : option float64;
  ChatRequest_FrequencyPenalty : option float64;
  ChatRequest_RandomSeed : option int }.

Record Usage : Type := {
  Usage_PromptTokens : int;
  Usage_CompletionTokens : int;
  Usage_TotalTokens : int }.

Record Choice : Type := {
  Choice_Index : int;
  Choice_Message : Message;
  Choice_FinishReason : string }.

Record ChatResponse : Type := {
  ChatResponse_ID : string;
  ChatResponse_Object : string;
  ChatResponse_Created : int64;
  ChatResponse_Model : string;
  ChatResponse_Choices : list Choice;
  ChatResponse_Usage : Usage }.

Definition FinishReasonStop := "stop".
Definition FinishReasonLength := "length".
Definition FinishReasonToolCalls := "tool_calls".
Definition FinishReasonModelLength := "model_length".
Definition FinishReasonError := "error".

Record Delta : Type := {
  Delta_Content : string;
  Delta_ToolCalls : list ToolCall }.

Record StreamEvent : Type := {
  StreamEvent_Delta : Delta;
  StreamEvent_FinishReason : string;
  StreamEvent_Err : option error }.

(** The zero values [Delta{}] and [StreamEvent{}]. *)
Definition Delta_zero : Delta :=
  {| Delta_Content := ""; Delta_ToolCalls := [] |}.
Definition StreamEvent_zero : StreamEvent :=
  {| StreamEvent_Delta := Delta_zero;
     StreamEvent_FinishReason := "";
     StreamEvent_Err := None |}.

(** What a reader's close hook can reach: the HTTP response body of the
    stream and, for the callback transport, the [done] channel. Closing
    a response body a second time returns an error value and has no
    other effect. *)
Record resources : Type := {
  body_closed : bool;
  done_chan : signal }.

Definition resources_init : resources :=
  {| body_closed := false; done_chan := sig_open |}.

Definition Body_Close (w : resources) : resources :=
  {| body_closed := true; done_chan := done_chan w |}.

(** The events channel as the reader sees it: the events the producer
    still sends, after which the channel is closed. *)
Definition channel := list StreamEvent.

Record StreamReader : Type := {
  err : option error;
  done : bool;
  close : option (resources -> outcome resources) }.

Definition NewStreamReader (close : option (resources -> outcome resources))
  : StreamReader :=
  {| err := None; done := false; close := close |}.

(** [Recv]: the returned pair, the reader after the call and what is
    left of the channel. *)
Definition Recv (s : StreamReader) (events : channel)
  : (StreamEvent * option error) * StreamReader * channel :=
  if done s then ((StreamEvent_zero, Some ErrStreamClosed), s, events)
  else
    match events with
    | [] =>
        ((StreamEvent_zero, Some ErrStreamClosed),
         {| err := err s; done := true; close := close s |}, [])
    | event :: rest =>
        match StreamEvent_Err event with
        | Some e =>
            ((event, Some e),
             {| err := Some e; done := done s; close := close s |}, rest)
        | None => ((event, None), s, rest)
        end
    end.

Definition Close (s : StreamReader) (w : resources) : outcome resources :=
  match close s with
  | Some hook => hook w
  | None => Returns w
  end.

(** [n] calls of [Recv] in sequence: the pairs they return. *)
Fixpoint Recv_n (n : nat) (s : StreamReader) (events : channel)
  : list (StreamEvent * option error) :=
  match n with
  | O => []
  | S n' =>
      let '(r, s', events') := Recv s events in
      r :: Recv_n n' s' events'
  end.

(** Which of the three parts of an event are populated. *)
Definition has_delta (ev : StreamEvent) : bool :=
  negb (Delta_Content (StreamEvent_Delta ev) =? "")
  || negb (Nat.eqb (length (Delta_ToolCalls (StreamEvent_Delta ev))) 0).
Definition has_finish (ev : StreamEvent) : bool :=
  negb (StreamEvent_FinishReason ev =? "").
Definition has_error (ev : StreamEvent) : bool :=
  match StreamEvent_Err ev with Some _ => true | None => false end.

Definition populated (ev : StreamEvent) : nat :=
  (if has_delta ev then 1 else 0) + (if has_finish ev then 1 else 0)
  + (if has_error ev then 1 else 0).

End provider.

(** ** Package openai *)

Module openai.

Record openaiFunctionCall : Type := {
  openaiFunctionCall_Name : string;
  openaiFunctionCall_Arguments : string }.

Record openaiToolCall : Type := {
  openaiToolCall_ID : string;
  openaiToolCall_Type : string;
  openaiToolCall_Function : openaiFunctionCall;
  openaiToolCall_Index : int }.

Record openaiMessage : Type := {
  openaiMessage_Role : string;
  openaiMessage_Content : option string;
  openaiMessage_ToolCalls : list openaiToolCall;
  openaiMessage_ToolCallID : string;
  openaiMessage_Name : string }.

Record openaiToolResultMessage : Type := {
  openaiToolResultMessage_Role : string;
  openaiToolResultMessage_Content : string;
  openaiToolResultMessage_ToolCallID : string }.

(** An element of [Messages []any]: one of the two structs the mapper
    stores there. *)
Inductive wireMessage : Type :=
| of_openaiMessage (m : openaiMessage)
| of_openaiToolResultMessage (m : openaiToolResultMessage).

Record openaiFunction : Type := {
  openaiFunction_Name : string;
  openaiFunction_Description : string;
  openaiFunction_Parameters : list (string * any);
  openaiFunction_Strict : bool }.

Record openaiTool : Type := {
  openaiTool_Type : string;
  openaiTool_Function : openaiFunction }.

Record openaiChatCompletionRequest : Type := {
  Request_Model : string;
  Request_Messages : list wireMessage;
  Request_Temperature : option float64;
  Request_TopP : option float64;
  Request_MaxTokens : option int;
  Request_Stream : bool;
  Request_Stop : list string;
  Request_Tools : list openaiTool;
  Request_ToolChoice : option string;
  Request_PresencePenalty : option float64;
  Request_FrequencyPenalty : option float64 }.

Record openaiUsage : Type := {
  openaiUsage_PromptTokens : int;
  openaiUsage_CompletionTokens : int;
  openaiUsage_TotalTokens : int }.

Record openaiChoice : Type := {
  openaiChoice_Index : int;
  openaiChoice_Message : openaiMessage;
  openaiChoice_FinishReason : string }.

Record openaiChatCompletionResponse : Type := {
  Response_ID : string;
  Response_Object : string;
  Response_Created : int64;
  Response_Model : string;
  Response_Choices : list openaiChoice;
  Response_Usage : openaiUsage }.

Record openaiDeltaMessage : Type := {
  openaiDeltaMessage_Role : string;
  openaiDeltaMessage_Content : string;
  openaiDeltaMessage_ToolCalls : list openaiToolCall }.

Record openaiStreamChoice : Type := {
  openaiStreamChoice_Index : int;
  openaiStreamChoice_Delta : openaiDeltaMessage;
  openaiStreamChoice_FinishReason : string }.

Record openaiStreamChunk : Type := {
  openaiStreamChunk_ID : string;
  openaiStreamChunk_Object : string;
  openaiStreamChunk_Created : int64;
  openaiStreamChunk_Model : string;
  openaiStreamChunk_Choices : list openaiStreamChoice }.

Import provider.

Definition default_type (t : string) : string :=
  if t =? "" then "function" else t.

Definition to_openaiToolCall (tc : ToolCall) : openaiToolCall :=
  {| openaiToolCall_ID := ToolCall_ID tc;
     openaiToolCall_Type := default_type (ToolCall_Type tc);
     openaiToolCall_Function :=
       {| openaiFunctionCall_Name := FunctionCall_Name (ToolCall_Function tc);
          openaiFunctionCall_Arguments :=
            FunctionCall_Arguments (ToolCall_Function tc) |};
     openaiToolCall_Index := ToolCall_Index tc |}.

Definition to_wireMessage (msg : Message) : wireMessage :=
  if Message_Role msg =? RoleTool then
    of_openaiToolResultMessage
      {| openaiToolResultMessage_Role := Message_Role msg;
         openaiToolResultMessage_Content := Message_Content msg;
         openaiToolResultMessage_ToolCallID := Message_ToolCallID msg |}
  else
    of_openaiMessage
      {| openaiMessage_Role := Message_Role msg;
         openaiMessage_Content :=
           if Message_Content msg =? "" then None
           else Some (Message_Content msg);
         openaiMessage_ToolCalls :=
           map to_openaiToolCall (Message_ToolCalls msg);
         openaiMessage_ToolCallID := Message_ToolCallID msg;
         openaiMessage_Name := Message_Name msg |}.

Definition to_openaiTool (t : Tool) : openaiTool :=
  {| openaiTool_Type := Tool_Type t;
     openaiTool_Function :=
       {| openaiFunction_Name := Function_Name (Tool_Function t);
          openaiFunction_Description := Function_Description (Tool_Function t);
          openaiFunction_Parameters := Function_Parameters (Tool_Function t);
          openaiFunction_Strict := Function_Strict (Tool_Function t) |} |}.

Definition toOpenAIRequest (req : ChatRequest) (model : string)
  : openaiChatCompletionRequest :=
  {| Request_Model := model;
     Request_Messages := map to_wireMessage (ChatRequest_Messages req);
     Request_Temperature := ChatRequest_Temperature req;
     Request_TopP := ChatRequest_TopP req;
     Request_MaxTokens := ChatRequest_MaxTokens req;
     Request_Stream := ChatRequest_Stream req;
     Request_Stop := ChatRequest_Stop req;
     Request_Tools := map to_openaiTool (ChatRequest_Tools req);
     Request_ToolChoice := ChatRequest_ToolChoice req;
     Request_PresencePenalty := ChatRequest_PresencePenalty req;
     Request_FrequencyPenalty := ChatRequest_FrequencyPenalty req |}.

Definition of_openaiToolCall (tc : openaiToolCall) : ToolCall :=
  {| ToolCall_ID := openaiToolCall_ID tc;
     ToolCall_Type := default_type (openaiToolCall_Type tc);
     ToolCall_Function :=
       {| FunctionCall_Name := openaiFunctionCall_Name (openaiToolCall_Function tc);
          FunctionCall_Arguments :=
            openaiFunctionCall_Arguments (openaiToolCall_Function tc) |};
     ToolCall_Index := openaiToolCall_Index tc |}.

Definition of_openaiChoice (c : openaiChoice) : Choice :=
  {| Choice_Index := openaiChoice_Index c;
     Choice_Message :=
       {| Message_Role := openaiMessage_Role (openaiChoice_Message c);
          Message_Content :=
            match openaiMessage_Content (openaiChoice_Message c) with
            | Some s => s
            | None => ""
            end;
          Message_ToolCalls :=
            map of_openaiToolCall (openaiMessage_ToolCalls (openaiChoice_Message c));
          Message_ToolCallID := openaiMessage_ToolCallID (openaiChoice_Message c);
          Message_Name := openaiMessage_Name (openaiChoice_Message c) |};
     Choice_FinishReason := openaiChoice_FinishReason c |}.

Definition toProviderResponse (resp : openaiChatCompletionResponse)
  : ChatResponse :=
  {| ChatResponse_ID := Response_ID resp;
     ChatResponse_Object := Response_Object resp;
     ChatResponse_Created := Response_Created resp;
     ChatResponse_Model := Response_Model resp;
     ChatResponse_Choices := map of_openaiChoice (Response_Choices resp);
     ChatResponse_Usage :=
       {| Usage_PromptTokens := openaiUsage_PromptTokens (Response_Usage resp);
          Usage_CompletionTokens :=
            openaiUsage_CompletionTokens (Response_Usage resp);
          Usage_TotalTokens := openaiUsage_TotalTokens (Response_Usage resp) |} |}.

(** The tool calls of a streamed delta: the wire type is copied as it
    is, with no default. *)
Definition delta_ToolCall (tc : openaiToolCall) : ToolCall :=
  {| ToolCall_ID := openaiToolCall_ID tc;
     ToolCall_Type := openaiToolCall_Type tc;
     ToolCall_Function :=
       {| FunctionCall_Name := openaiFunctionCall_Name (openaiToolCall_Function tc);
          FunctionCall_Arguments :=
            openaiFunctionCall_Arguments (openaiToolCall_Function tc) |};
     ToolCall_Index := openaiToolCall_Index tc |}.

Definition event_of_choice (choice : openaiStreamChoice) : StreamEvent :=
  {| StreamEvent_Delta :=
       {| Delta_Content :=
            openaiDeltaMessage_Content (openaiStreamChoice_Delta choice);
          Delta_ToolCalls :=
            map delta_ToolCall
              (openaiDeltaMessage_ToolCalls (openaiStreamChoice_Delta choice)) |};
     StreamEvent_FinishReason := openaiStreamChoice_FinishReason choice;
     StreamEvent_Err := None |}.

Definition parse_error (e : error) : StreamEvent :=
  {| StreamEvent_Delta := Delta_zero;
     StreamEvent_FinishReason := "";
     StreamEvent_Err := Some (errorw "failed to parse chunk: %w" e) |}.

Section Stream.

(** [json.Unmarshal] into an [openaiStreamChunk]. *)
Variable Unmarshal : string -> result openaiStreamChunk.

(** The goroutine of [Stream] over the lines the scanner yields. *)
Fixpoint Stream_goroutine (lines : list string) : list StreamEvent :=
  match lines with
  | [] => []
  | line :: rest =>
      if negb (HasPrefix line "data: ") then Stream_goroutine rest
      else
        let data := TrimPrefix line "data: " in
        if data =? "[DONE]" then []
        else
          match Unmarshal data with
          | Err e => [parse_error e]
          | Ok chunk =>
              match openaiStreamChunk_Choices chunk with
              | [] => Stream_goroutine rest
              | choice :: _ => event_of_choice choice :: Stream_goroutine rest
              end
          end
  end.

(** [Stream] once the transport has answered: a non-200 status is an
    error carrying the status and the body, otherwise the reader over
    the goroutine's channel, whose close hook closes the body. *)
Definition Stream (status : int) (raw : string) (lines : list string)
  : result (StreamReader * channel) :=
  if negb (status =? 200)%Z then
    Err (errorf "API error (status %d): %s" [arg_int status; arg_string raw])
  else
    Ok (NewStreamReader (Some (fun w => Returns (Body_Close w))),
        Stream_goroutine lines).

End Stream.

(** *** The provider and its two calls *)

Definition defaultBaseURL := "https://api.openai.com".
Definition defaultModel := "gpt-4o".

(** The provider struct; [httpClient] is a pointer the package only
    passes on. A configuration method writes one field of its receiver
    and returns the receiver: it is given here as the provider after the
    call. *)
Record openai : Type := {
  apiKey : string;
  baseURL : string;
  model : string;
  httpClient : positive }.

Definition New (DefaultClient : positive) : openai :=
  {| apiKey := ""; baseURL := defaultBaseURL; model := defaultModel;
     httpClient := DefaultClient |}.

Definition WithAPIKey (o : openai) (key : string) : openai :=
  {| apiKey := key; baseURL := baseURL o; model := model o;
     httpClient := httpClient o |}.

Definition WithBaseURL (o : openai) (url : string) : openai :=
  {| apiKey := apiKey o; baseURL := url; model := model o;
     httpClient := httpClient o |}.

Definition WithModel (o : openai) (m : string) : openai :=
  {| apiKey := apiKey o; baseURL := baseURL o; model := m;
     httpClient := httpClient o |}.

(** [openaiReq.Stream = true]. *)
Definition set_Stream (r : openaiChatCompletionRequest) : openaiChatCompletionRequest :=
  {| Request_Model := Request_Model r;
     Request_Messages := Request_Messages r;
     Request_Temperature := Request_Temperature r;
     Request_TopP := Request_TopP r;
     Request_MaxTokens := Request_MaxTokens r;
     Request_Stream := true;
     Request_Stop := Request_Stop r;
     Request_Tools := Request_Tools r;
     Request_ToolChoice := Request_ToolChoice r;
     Request_PresencePenalty := Request_PresencePenalty r;
     Request_FrequencyPenalty := Request_FrequencyPenalty r |}.

(** The wire request of [Chat], and that of [Stream]. *)
Definition Chat_wire (o : openai) (req : ChatRequest) : openaiChatCompletionRequest :=
  toOpenAIRequest req
    (if ChatRequest_Model req =? "" then model o else ChatRequest_Model req).

Definition Stream_wire (o : openai) (req : ChatRequest) : openaiChatCompletionRequest :=
  set_Stream (Chat_wire o req).

Section Calls.

(** [json.Marshal] of the wire request, [url.Parse], [httpClient.Do],
    and [json.Unmarshal] into the wire response and into a chunk. *)
Variable Marshal_request : openaiChatCompletionRequest -> result string.
Variable parse_url : string -> result string.
Variable Do : positive -> http.Request -> result http.Response.
Variable Unmarshal_response : string -> result openaiChatCompletionResponse.
Variable Unmarshal_chunk : string -> result openaiStreamChunk.

(** The HTTP request both calls build from a wire request; [Stream] also
    sets the [Accept] header. *)
Definition new_request (o : openai) (openaiReq : openaiChatCompletionRequest)
    (streaming : bool) : result http.Request :=
  match Marshal_request openaiReq with
  | Err e => Err (errorw "failed to marshal request: %w" e)
  | Ok body =>
      match http.NewRequestWithContext parse_url http.MethodPost
              (baseURL o +:+ "/v1/chat/completions") body with
      | Err e => Err (errorw "failed to create request: %w" e)
      | Ok httpReq =>
          let httpReq := http.Header_Set "Content-Type" "application/json" httpReq in
          let httpReq :=
            http.Header_Set "Authorization" ("Bearer " +:+ apiKey o) httpReq in
          Ok (if streaming
              then http.Header_Set "Accept" "text/event-stream" httpReq
              else httpReq)
      end
  end.

Definition Chat (o : openai) (req : ChatRequest) : result ChatResponse :=
  match new_request o (Chat_wire o req) false with
  | Err e => Err e
  | Ok httpReq =>
      match Do (httpClient o) httpReq with
      | Err e => Err (errorw "failed to send request: %w" e)
      | Ok resp =>
          let '(respBody, err) := http.Response_ReadAll resp in
          match err with
          | Some e => Err (errorw "failed to read response: %w" e)
          | None =>
              if negb (http.Response_StatusCode resp =? http.StatusOK)%Z then
                Err (errorf "API error (status %d): %s"
                       [arg_int (http.Response_StatusCode resp); arg_string respBody])
              else
                match Unmarshal_response respBody with
                | Err e => Err (errorw "failed to unmarshal response: %w" e)
                | Ok openaiResp => Ok (toProviderResponse openaiResp)
                end
          end
      end
  end.

(** The whole of [Stream]: the request, the transport, and then [Stream]
    above on the answer. *)
Definition Stream_call (o : openai) (req : ChatRequest)
  : result (StreamReader * channel) :=
  match new_request o (Stream_wire o req) true with
  | Err e => Err e
  | Ok httpReq =>
      match Do (httpClient o) httpReq with
      | Err e => Err (errorw "failed to send request: %w" e)
      | Ok resp =>
          Stream Unmarshal_chunk (http.Response_StatusCode resp)
            (fst (http.Response_ReadAll resp)) (http.Response_Lines resp)
      end
  end.

End Calls.

End openai.
(** ** Package mistral *)

Module mistral.

Record mistralFunctionCall : Type := {
  mistralFunctionCall_Name : string;
  mistralFunctionCall_Arguments : string }.

Record mistralToolCall : Type := {
  mistralToolCall_ID : string;
  mistralToolCall_Type : string;
  mistralToolCall_Function : mistralFunctionCall;
  mistralToolCall_Index : int }.

Record mistralMessage : Type := {
  mistralMessage_Role : string;
  mistralMessage_Content : option string;
  mistralMessage_ToolCalls : list mistralToolCall;
  mistralMessage_ToolCallID : string;
  mistralMessage_Name : string }.

Record mistralToolResultMessage : Type := {
  mistralToolResultMessage_Role : string;
  mistralToolResultMessage_Content : string;
  mistralToolResultMessage_ToolCallID : string;
  mistralToolResultMessage_Name : string }.

(** An element of [Messages []any]: one of the two structs the mapper
    stores there. *)
Inductive wireMessage : Type :=
| of_mistralMessage (m : mistralMessage)
| of_mistralToolResultMessage (m : mistralToolResultMessage).

Record mistralFunction : Type := {
  mistralFunction_Name : string;
  mistralFunction_Description : string;
  mistralFunction_Parameters : list (string * any);
  mistralFunction_Strict : bool }.

Record mistralTool : Type := {
  mistralTool_Type : string;
  mistralTool_Function : mistralFunction }.

Record mistralChatCompletionRequest : Type := {
  Request_Model : string;
  Request_Messages : list wireMessage;
  Request_Temperature : option float64;
  Request_TopP : option float64;
  Request_MaxTokens : option int;
  Request_Stream : bool;
  Request_Stop : list string;
  Request_RandomSeed : option int;
  Request_Tools : list mistralTool;
  Request_ToolChoice : option string;
  Request_PresencePenalty : option float64;
  Request_FrequencyPenalty : option float64 }.

Record mistralUsage : Type := {
  mistralUsage_PromptTokens : int;
  mistralUsage_CompletionTokens : int;
  mistralUsage_TotalTokens : int }.

Record mistralChoice : Type := {
  mistralChoice_Index : int;
  mistralChoice_Message : mistralMessage;
  mistralChoice_FinishReason : string }.

Record mistralChatCompletionResponse : Type := {
  Response_ID : string;
  Response_Object : string;
  Response_Created : int64;
  Response_Model : string;
  Response_Choices : list mistralChoice;
  Response_Usage : mistralUsage }.

Record mistralDeltaMessage : Type := {
  mistralDeltaMessage_Role : string;
  mistralDeltaMessage_Content : string;
  mistralDeltaMessage_ToolCalls : list mistralToolCall }.

Record mistralStreamChoice : Type := {
  mistralStreamChoice_Index : int;
  mistralStreamChoice_Delta : mistralDeltaMessage;
  mistralStreamChoice_FinishReason : string }.

Record mistralStreamChunk : Type := {
  mistralStreamChunk_ID : string;
  mistralStreamChunk_Object : string;
  mistralStreamChunk_Created : int64;
  mistralStreamChunk_Model : string;
  mistralStreamChunk_Choices : list mistralStreamChoice }.

Import provider.

Definition default_type (t : string) : string :=
  if t =? "" then "function" else t.

Definition to_mistralToolCall (tc : ToolCall) : mistralToolCall :=
  {| mistralToolCall_ID := ToolCall_ID tc;
     mistralToolCall_Type := default_type (ToolCall_Type tc);
     mistralToolCall_Function :=
       {| mistralFunctionCall_Name := FunctionCall_Name (ToolCall_Function tc);
          mistralFunctionCall_Arguments :=
            FunctionCall_Arguments (ToolCall_Function tc) |};
     mistralToolCall_Index := ToolCall_Index tc |}.

Definition to_wireMessage (msg : Message) : wireMessage :=
  if Message_Role msg =? RoleTool then
    of_mistralToolResultMessage
      {| mistralToolResultMessage_Role := Message_Role msg;
         mistralToolResultMessage_Content := Message_Content msg;
         mistralToolResultMessage_ToolCallID := Message_ToolCallID msg;
         mistralToolResultMessage_Name := Message_Name msg |}
  else
    of_mistralMessage
      {| mistralMessage_Role := Message_Role msg;
         mistralMessage_Content :=
           if Message_Content msg =? "" then None
           else Some (Message_Content msg);
         mistralMessage_ToolCalls :=
           map to_mistralToolCall (Message_ToolCalls msg);
         mistralMessage_ToolCallID := Message_ToolCallID msg;
         mistralMessage_Name := Message_Name msg |}.

Definition to_mistralTool (t : Tool) : mistralTool :=
  {| mistralTool_Type := Tool_Type t;
     mistralTool_Function :=
       {| mistralFunction_Name := Function_Name (Tool_Function t);
          mistralFunction_Description := Function_Description (Tool_Function t);
          mistralFunction_Parameters := Function_Parameters (Tool_Function t);
          mistralFunction_Strict := Function_Strict (Tool_Function t) |} |}.

Definition toMistralRequest (req : ChatRequest) (model : string)
  : mistralChatCompletionRequest :=
  {| Request_Model := model;
     Request_Messages := map to_wireMessage (ChatRequest_Messages req);
     Request_Temperature := ChatRequest_Temperature req;
     Request_TopP := ChatRequest_TopP req;
     Request_MaxTokens := ChatRequest_MaxTokens req;
     Request_Stream := ChatRequest_Stream req;
     Request_Stop := ChatRequest_Stop req;
     Request_RandomSeed := ChatRequest_RandomSeed req;
     Request_Tools := map to_mistralTool (ChatRequest_Tools req);
     Request_ToolChoice := ChatRequest_ToolChoice req;
     Request_PresencePenalty := ChatRequest_PresencePenalty req;
     Request_FrequencyPenalty := ChatRequest_FrequencyPenalty req |}.

Definition of_mistralToolCall (tc : mistralToolCall) : ToolCall :=
  {| ToolCall_ID := mistralToolCall_ID tc;
     ToolCall_Type := default_type (mistralToolCall_Type tc);
     ToolCall_Function :=
       {| FunctionCall_Name := mistralFunctionCall_Name (mistralToolCall_Function tc);
          FunctionCall_Arguments :=
            mistralFunctionCall_Arguments (mistralToolCall_Function tc) |};
     ToolCall_Index := mistralToolCall_Index tc |}.

Definition of_mistralChoice (c : mistralChoice) : Choice :=
  {| Choice_Index := mistralChoice_Index c;
     Choice_Message :=
       {| Message_Role := mistralMessage_Role (mistralChoice_Message c);
          Message_Content :=
            match mistralMessage_Content (mistralChoice_Message c) with
            | Some s => s
            | None => ""
            end;
          Message_ToolCalls :=
            map of_mistralToolCall (mistralMessage_ToolCalls (mistralChoice_Message c));
          Message_ToolCallID := mistralMessage_ToolCallID (mistralChoice_Message c);
          Message_Name := mistralMessage_Name (mistralChoice_Message c) |};
     Choice_FinishReason := mistralChoice_FinishReason c |}.

Definition toProviderResponse (resp : mistralChatCompletionResponse)
  : ChatResponse :=
  {| ChatResponse_ID := Response_ID resp;
     ChatResponse_Object := Response_Object resp;
     ChatResponse_Created := Response_Created resp;
     ChatResponse_Model := Response_Model resp;
     ChatResponse_Choices := map of_mistralChoice (Response_Choices resp);
     ChatResponse_Usage :=
       {| Usage_PromptTokens := mistralUsage_PromptTokens (Response_Usage resp);
          Usage_CompletionTokens :=
            mistralUsage_CompletionTokens (Response_Usage resp);
          Usage_TotalTokens := mistralUsage_TotalTokens (Response_Usage resp) |} |}.

(** The tool calls of a streamed delta: the wire type is copied as it
    is, with no default. *)
Definition delta_ToolCall (tc : mistralToolCall) : ToolCall :=
  {| ToolCall_ID := mistralToolCall_ID tc;
     ToolCall_Type := mistralToolCall_Type tc;
     ToolCall_Function :=
       {| FunctionCall_Name := mistralFunctionCall_Name (mistralToolCall_Function tc);
          FunctionCall_Arguments :=
            mistralFunctionCall_Arguments (mistralToolCall_Function tc) |};
     ToolCall_Index := mistralToolCall_Index tc |}.

Definition event_of_choice (choice : mistralStreamChoice) : StreamEvent :=
  {| StreamEvent_Delta :=
       {| Delta_Content :=
            mistralDeltaMessage_Content (mistralStreamChoice_Delta choice);
          Delta_ToolCalls :=
            map delta_ToolCall
              (mistralDeltaMessage_ToolCalls (mistralStreamChoice_Delta choice)) |};
     StreamEvent_FinishReason := mistralStreamChoice_FinishReason choice;
     StreamEvent_Err := None |}.

Definition parse_error (e : error) : StreamEvent :=
  {| StreamEvent_Delta := Delta_zero;
     StreamEvent_FinishReason := "";
     StreamEvent_Err := Some (errorw "failed to parse chunk: %w" e) |}.

Section Stream.

(** [json.Unmarshal] into an [mistralStreamChunk]. *)
Variable Unmarshal : string -> result mistralStreamChunk.

(** The goroutine of [Stream] over the lines the scanner yields. *)
Fixpoint Stream_goroutine (lines : list string) : list StreamEvent :=
  match lines with
  | [] => []
  | line :: rest =>
      if negb (HasPrefix line "data: ") then Stream_goroutine rest
      else
        let data := TrimPrefix line "data: " in
        if data =? "[DONE]" then []
        else
          match Unmarshal data with
          | Err e => [parse_error e]
          | Ok chunk =>
              match mistralStreamChunk_Choices chunk with
              | [] => Stream_goroutine rest
              | choice :: _ => event_of_choice choice :: Stream_goroutine rest
              end
          end
  end.

(** [Stream] once the transport has answered: a non-200 status is an
    error carrying the status and the body, otherwise the reader over
    the goroutine's channel, whose close hook closes the body. *)
Definition Stream (status : int) (raw : string) (lines : list string)
  : result (StreamReader * channel) :=
  if negb (status =? 200)%Z then
    Err (errorf "API error (status %d): %s" [arg_int status; arg_string raw])
  else
    Ok (NewStreamReader (Some (fun w => Returns (Body_Close w))),
        Stream_goroutine lines).

End Stream.

(** *** The provider and its two calls *)

Definition defaultBaseURL := "https://api.mistral.ai".
Definition defaultModel := "mistral-large-latest".

(** The provider struct; [httpClient] is a pointer the package only
    passes on. A configuration method writes one field of its receiver
    and returns the receiver: it is given here as the provider after the
    call. *)
Record mistral : Type := {
  apiKey : string;
  baseURL : string;
  model : string;
  httpClient : positive }.

Definition New (DefaultClient : positive) : mistral :=
  {| apiKey := ""; baseURL := defaultBaseURL; model := defaultModel;
     httpClient := DefaultClient |}.

Definition WithAPIKey (o : mistral) (key : string) : mistral :=
  {| apiKey := key; baseURL := baseURL o; model := model o;
     httpClient := httpClient o |}.

Definition WithBaseURL (o : mistral) (url : string) : mistral :=
  {| apiKey := apiKey o; baseURL := url; model := model o;
     httpClient := httpClient o |}.

Definition WithModel (o : mistral) (m : string) : mistral :=
  {| apiKey := apiKey o; baseURL := baseURL o; model := m;
     httpClient := httpClient o |}.

(** [mistralReq.Stream = true]. *)
Definition set_Stream (r : mistralChatCompletionRequest) : mistralChatCompletionRequest :=
  {| Request_Model := Request_Model r;
     Request_Messages := Request_Messages r;
     Request_Temperature := Request_Temperature r;
     Request_TopP := Request_TopP r;
     Request_MaxTokens := Request_MaxTokens r;
     Request_Stream := true;
     Request_Stop := Request_Stop r;
     Request_RandomSeed := Request_RandomSeed r;
     Request_Tools := Request_Tools r;
     Request_ToolChoice := Request_ToolChoice r;
     Request_PresencePenalty := Request_PresencePenalty r;
     Request_FrequencyPenalty := Request_FrequencyPenalty r |}.

(** The wire request of [Chat], and that of [Stream]. *)
Definition Chat_wire (o : mistral) (req : ChatRequest) : mistralChatCompletionRequest :=
  toMistralRequest req
    (if ChatRequest_Model req =? "" then model o else ChatRequest_Model req).

Definition Stream_wire (o : mistral) (req : ChatRequest) : mistralChatCompletionRequest :=
  set_Stream (Chat_wire o req).

Section Calls.

(** [json.Marshal] of the wire request, [url.Parse], [httpClient.Do],
    and [json.Unmarshal] into the wire response and into a chunk. *)
Variable Marshal_request : mistralChatCompletionRequest -> result string.
Variable parse_url : string -> result string.
Variable Do : positive -> http.Request -> result http.Response.
Variable Unmarshal_response : string -> result mistralChatCompletionResponse.
Variable Unmarshal_chunk : string -> result mistralStreamChunk.

(** The HTTP request both calls build from a wire request; [Stream] also
    sets the [Accept] header. *)
Definition new_request (o : mistral) (mistralReq : mistralChatCompletionRequest)
    (streaming : bool) : result http.Request :=
  match Marshal_request mistralReq with
  | Err e => Err (errorw "failed to marshal request: %w" e)
  | Ok body =>
      match http.NewRequestWithContext parse_url http.MethodPost
              (baseURL o +:+ "/v1/chat/completions") body with
      | Err e => Err (errorw "failed to create request: %w" e)
      | Ok httpReq =>
          let httpReq := http.Header_Set "Content-Type" "application/json" httpReq in
          let httpReq :=
            http.Header_Set "Authorization" ("Bearer " +:+ apiKey o) httpReq in
          Ok (if streaming
              then http.Header_Set "Accept" "text/event-stream" httpReq
              else httpReq)
      end
  end.

Definition Chat (o : mistral) (req : ChatRequest) : result ChatResponse :=
  match new_request o (Chat_wire o req) false with
  | Err e => Err e
  | Ok httpReq =>
      match Do (httpClient o) httpReq with
      | Err e => Err (errorw "failed to send request: %w" e)
      | Ok resp =>
          let '(respBody, err) := http.Response_ReadAll resp in
          match err with
          | Some e => Err (errorw "failed to read response: %w" e)
          | None =>
              if negb (http.Response_StatusCode resp =? http.StatusOK)%Z then
                Err (errorf "API error (status %d): %s"
                       [arg_int (http.Response_StatusCode resp); arg_string respBody])
              else
                match Unmarshal_response respBody with
                | Err e => Err (errorw "failed to unmarshal response: %w" e)
                | Ok mistralResp => Ok (toProviderResponse mistralResp)
                end
          end
      end
  end.

(** The whole of [Stream]: the request, the transport, and then [Stream]
    above on the answer. *)
Definition Stream_call (o : mistral) (req : ChatRequest)
  : result (StreamReader * channel) :=
  match new_request o (Stream_wire o req) true with
  | Err e => Err e
  | Ok httpReq =>
      match Do (httpClient o) httpReq with
      | Err e => Err (errorw "failed to send request: %w" e)
      | Ok resp =>
          Stream Unmarshal_chunk (http.Response_StatusCode resp)
            (fst (http.Response_ReadAll resp)) (http.Response_Lines resp)
      end
  end.

End Calls.

End mistral.

(** ** Package anthropic *)

Module anthropic.

Definition defaultBaseURL := "https://api.anthropic.com".
Definition defaultModel := "claude-sonnet-4-20250514".
Definition apiVersion := "2023-06-01".
Definition defaultMaxTokens : int := 8192.

Record anthropicContent : Type := {
  anthropicContent_Type : string;
  anthropicContent_Text : string;
  anthropicContent_ID : string;
  anthropicContent_Name : string;
  anthropicContent_Input : any;
  anthropicContent_ToolUseID : string;
  anthropicContent_Content : string }.

Record anthropicMessage : Type := {
  anthropicMessage_Role : string;
  anthropicMessage_Content : list anthropicContent }.

Record anthropicTool : Type := {
  anthropicTool_Name : string;
  anthropicTool_Description : string;
  anthropicTool_InputSchema : list (string * any) }.

Record anthropicMessageRequest : Type := {
  Request_Model : string;
  Request_Messages : list anthropicMessage;
  Request_System : string;
  Request_MaxTokens : int;
  Request_Stream : bool;
  Request_Tools : list anthropicTool }.

Record anthropicUsage : Type := {
  anthropicUsage_InputTokens : int;
  anthropicUsage_OutputTokens : int }.

Record anthropicMessageResponse : Type := {
  Response_ID : string;
  Response_Type : string;
  Response_Role : string;
  Response_Content : list anthropicContent;
  Response_Model : string;
  Response_StopReason : string;
  Response_StopSequence : string;
  Response_Usage : anthropicUsage }.

Record anthropicDelta : Type := {
  anthropicDelta_Type : string;
  anthropicDelta_Text : string;
  anthropicDelta_PartialJSON : string;
  anthropicDelta_StopReason : string }.

Record anthropicContentBlock : Type := {
  anthropicContentBlock_Type : string;
  anthropicContentBlock_ID : string;
  anthropicContentBlock_Name : string;
  anthropicContentBlock_Input : any;
  anthropicContentBlock_Text : string }.

Record anthropicStreamEvent : Type := {
  anthropicStreamEvent_Type : string;
  anthropicStreamEvent_Index : option int;
  anthropicStreamEvent_Delta : option anthropicDelta;
  anthropicStreamEvent_ContentBlock : option anthropicContentBlock;
  anthropicStreamEvent_Message : option anthropicMessageResponse }.

Import provider.

(** The zero value of [anthropicContent], with the fields a literal
    sets. *)
Definition content_text (text : string) : anthropicContent :=
  {| anthropicContent_Type := "text"; anthropicContent_Text := text;
     anthropicContent_ID := ""; anthropicContent_Name := "";
     anthropicContent_Input := any_nil; anthropicContent_ToolUseID := "";
     anthropicContent_Content := "" |}.

Definition content_tool_use (id name : string) (input : any)
  : anthropicContent :=
  {| anthropicContent_Type := "tool_use"; anthropicContent_Text := "";
     anthropicContent_ID := id; anthropicContent_Name := name;
     anthropicContent_Input := input; anthropicContent_ToolUseID := "";
     anthropicContent_Content := "" |}.

Definition content_tool_result (tool_use_id content : string)
  : anthropicContent :=
  {| anthropicContent_Type := "tool_result"; anthropicContent_Text := "";
     anthropicContent_ID := ""; anthropicContent_Name := "";
     anthropicContent_Input := any_nil;
     anthropicContent_ToolUseID := tool_use_id;
     anthropicContent_Content := content |}.

Section Mappers.

(** [json.Unmarshal] into an [any] and [json.Marshal] of an [any]. *)
Variable Unmarshal_any : string -> result any.
Variable Marshal : any -> result string.

(** The [input] of a tool-use block: [nil] when the arguments are
    empty or do not parse (the error of [Unmarshal] is dropped). *)
Definition tool_input (tc : ToolCall) : any :=
  if FunctionCall_Arguments (ToolCall_Function tc) =? "" then any_nil
  else
    match Unmarshal_any (FunctionCall_Arguments (ToolCall_Function tc)) with
    | Ok v => v
    | Err _ => any_nil
    end.

Definition assistant_content (msg : Message) : list anthropicContent :=
  (if Message_Content msg =? "" then []
   else [content_text (Message_Content msg)])
  ++ map (fun tc =>
            content_tool_use (ToolCall_ID tc)
              (FunctionCall_Name (ToolCall_Function tc)) (tool_input tc))
         (Message_ToolCalls msg).

(** One iteration of the loop over [req.Messages], on the two
    variables [systemPrompt] and [messages]. *)
Definition add_message (acc : string * list anthropicMessage) (msg : Message)
  : string * list anthropicMessage :=
  let '(systemPrompt, messages) := acc in
  if Message_Role msg =? RoleSystem then (Message_Content msg, messages)
  else if Message_Role msg =? RoleUser then
    (systemPrompt,
     messages ++ [{| anthropicMessage_Role := "user";
                     anthropicMessage_Content :=
                       [content_text (Message_Content msg)] |}])
  else if Message_Role msg =? RoleAssistant then
    match assistant_content msg with
    | [] => (systemPrompt, messages)
    | content =>
        (systemPrompt,
         messages ++ [{| anthropicMessage_Role := "assistant";
                         anthropicMessage_Content := content |}])
    end
  else if Message_Role msg =? RoleTool then
    (systemPrompt,
     messages ++ [{| anthropicMessage_Role := "user";
                     anthropicMessage_Content :=
                       [content_tool_result (Message_ToolCallID msg)
                          (Message_Content msg)] |}])
  else (systemPrompt, messages).

Definition to_anthropicTool (t : Tool) : anthropicTool :=
  {| anthropicTool_Name := Function_Name (Tool_Function t);
     anthropicTool_Description := Function_Description (Tool_Function t);
     anthropicTool_InputSchema := Function_Parameters (Tool_Function t) |}.

Definition toAnthropicRequest (req : ChatRequest) (model : string)
  : anthropicMessageRequest :=
  let '(systemPrompt, messages) :=
    fold_left add_message (ChatRequest_Messages req) ("", []) in
  let tools := map to_anthropicTool (ChatRequest_Tools req) in
  let maxTokens :=
    match ChatRequest_MaxTokens req with
    | Some n => n
    | None => defaultMaxTokens
    end in
  {| Request_Model := model;
     Request_Messages := messages;
     Request_System := systemPrompt;
     Request_MaxTokens := maxTokens;
     Request_Stream := false;
     Request_Tools := tools |}.

(** The loop over [resp.Content] from position [i] on, on the two
    variables [content] and [toolCalls]. *)
Fixpoint add_content (i : nat) (cs : list anthropicContent)
    (content : string) (toolCalls : list ToolCall)
  : string * list ToolCall :=
  match cs with
  | [] => (content, toolCalls)
  | c :: rest =>
      if anthropicContent_Type c =? "text" then
        add_content (S i) rest (content +:+ anthropicContent_Text c) toolCalls
      else if anthropicContent_Type c =? "tool_use" then
        let inputJSON :=
          match Marshal (anthropicContent_Input c) with
          | Ok s => s
          | Err _ => ""
          end in
        add_content (S i) rest content
          (toolCalls ++
             [{| ToolCall_ID := anthropicContent_ID c;
                 ToolCall_Type := "function";
                 ToolCall_Function :=
                   {| FunctionCall_Name := anthropicContent_Name c;
                      FunctionCall_Arguments := inputJSON |};
                 ToolCall_Index := int_of_nat i |}])
      else add_content (S i) rest content toolCalls
  end.

(** The finish reason of [toProviderResponse]. *)
Definition response_finishReason (stop_reason : string) : string :=
  if stop_reason =? "tool_use" then "tool_calls"
  else if stop_reason =? "end_turn" then "stop"
  else stop_reason.

Definition toProviderResponse (resp : anthropicMessageResponse)
  : ChatResponse :=
  let '(content, toolCalls) := add_content 0 (Response_Content resp) "" [] in
  let finishReason := response_finishReason (Response_StopReason resp) in
  {| ChatResponse_ID := Response_ID resp;
     ChatResponse_Object := "chat.completion";
     ChatResponse_Created := 0;
     ChatResponse_Model := Response_Model resp;
     ChatResponse_Choices :=
       [{| Choice_Index := 0;
           Choice_Message :=
             {| Message_Role := RoleAssistant;
                Message_Content := content;
                Message_ToolCalls := toolCalls;
                Message_ToolCallID := "";
                Message_Name := "" |};
           Choice_FinishReason := finishReason |}];
     ChatResponse_Usage :=
       {| Usage_PromptTokens := anthropicUsage_InputTokens (Response_Usage resp);
          Usage_CompletionTokens :=
            anthropicUsage_OutputTokens (Response_Usage resp);
          Usage_TotalTokens :=
            int_add (anthropicUsage_InputTokens (Response_Usage resp))
                    (anthropicUsage_OutputTokens (Response_Usage resp)) |} |}.

End Mappers.

(** *** The stream decoder *)

(** The two variables the goroutine keeps across lines. *)
Record decoder : Type := {
  currentToolCallIndex : int;
  toolCallIndices : gmap string int }.

Definition decoder_init : decoder :=
  {| currentToolCallIndex := 0; toolCallIndices := ∅ |}.

(** What one iteration of the scanner loop does after decoding a frame:
    send events and go on with the next line, or send and return. *)
Inductive action : Type :=
| Continue (sent : list StreamEvent) (st : decoder)
| Return (sent : list StreamEvent).

Definition text_event (text : string) : StreamEvent :=
  {| StreamEvent_Delta := {| Delta_Content := text; Delta_ToolCalls := [] |};
     StreamEvent_FinishReason := "";
     StreamEvent_Err := None |}.

Definition arguments_event (index : int) (partial_json : string) : StreamEvent :=
  {| StreamEvent_Delta :=
       {| Delta_Content := "";
          Delta_ToolCalls :=
            [{| ToolCall_ID := "";
                ToolCall_Type := "";
                ToolCall_Function :=
                  {| FunctionCall_Name := "";
                     FunctionCall_Arguments := partial_json |};
                ToolCall_Index := index |}] |};
     StreamEvent_FinishReason := "";
     StreamEvent_Err := None |}.

Definition tool_start_event (id name : string) (idx : int) : StreamEvent :=
  {| StreamEvent_Delta :=
       {| Delta_Content := "";
          Delta_ToolCalls :=
            [{| ToolCall_ID := id;
                ToolCall_Type := "function";
                ToolCall_Function :=
                  {| FunctionCall_Name := name;
                     FunctionCall_Arguments := "" |};
                ToolCall_Index := idx |}] |};
     StreamEvent_FinishReason := "";
     StreamEvent_Err := None |}.

Definition finish_event (reason : string) : StreamEvent :=
  {| StreamEvent_Delta := Delta_zero;
     StreamEvent_FinishReason := reason;
     StreamEvent_Err := None |}.

(** The finish reason of a [message_delta] frame. *)
Definition stream_finishReason (stop_reason : string) : string :=
  if stop_reason =? "tool_use" then "tool_calls" else stop_reason.

(** The [switch streamEvent.Type] of the loop body. *)
Definition on_event (st : decoder) (streamEvent : anthropicStreamEvent)
  : action :=
  let type := anthropicStreamEvent_Type streamEvent in
  if type =? "content_block_delta" then
    match anthropicStreamEvent_Delta streamEvent with
    | Some delta =>
        if anthropicDelta_Type delta =? "text_delta" then
          Continue [text_event (anthropicDelta_Text delta)] st
        else if anthropicDelta_Type delta =? "input_json_delta" then
          match anthropicStreamEvent_Index streamEvent with
          | Some index =>
              Continue [arguments_event index (anthropicDelta_PartialJSON delta)] st
          | None => Continue [] st
          end
        else Continue [] st
    | None => Continue [] st
    end
  else if type =? "content_block_start" then
    match anthropicStreamEvent_ContentBlock streamEvent with
    | Some block =>
        if anthropicContentBlock_Type block =? "tool_use" then
          let idx :=
            match anthropicStreamEvent_Index streamEvent with
            | Some index => index
            | None => currentToolCallIndex st
            end in
          Continue
            [tool_start_event (anthropicContentBlock_ID block)
               (anthropicContentBlock_Name block) idx]
            {| currentToolCallIndex := int_incr (currentToolCallIndex st);
               toolCallIndices :=
                 <[anthropicContentBlock_ID block := idx]> (toolCallIndices st) |}
        else Continue [] st
    | None => Continue [] st
    end
  else if type =? "message_stop" then Return [finish_event "stop"]
  else if type =? "message_delta" then
    match anthropicStreamEvent_Delta streamEvent with
    | Some delta =>
        if negb (anthropicDelta_StopReason delta =? "") then
          Continue
            [finish_event (stream_finishReason (anthropicDelta_StopReason delta))]
            st
        else Continue [] st
    | None => Continue [] st
    end
  else Continue [] st.

Section Stream.

(** [json.Unmarshal] into an [anthropicStreamEvent]. *)
Variable Unmarshal : string -> result anthropicStreamEvent.

(** The scanner loop of the goroutine, from decoder state [st]. *)
Fixpoint Stream_loop (lines : list string) (st : decoder)
  : list StreamEvent :=
  match lines with
  | [] => []
  | line :: rest =>
      if negb (HasPrefix line "data: ") then Stream_loop rest st
      else
        match Unmarshal (TrimPrefix line "data: ") with
        | Err _ => Stream_loop rest st
        | Ok streamEvent =>
            match on_event st streamEvent with
            | Continue sent st' => sent ++ Stream_loop rest st'
            | Return sent => sent
            end
        end
  end.

Definition Stream_goroutine (lines : list string) : list StreamEvent :=
  Stream_loop lines decoder_init.

Definition Stream (status : int) (raw : string) (lines : list string)
  : result (StreamReader * channel) :=
  if negb (status =? 200)%Z then
    Err (errorf "API error (status %d): %s" [arg_int status; arg_string raw])
  else
    Ok (NewStreamReader (Some (fun w => Returns (Body_Close w))),
        Stream_goroutine lines).

(** The frames the loop decodes: the payloads of the data lines that
    [Unmarshal] accepts, in order. *)
Fixpoint frames (lines : list string) : list anthropicStreamEvent :=
  match lines with
  | [] => []
  | line :: rest =>
      if negb (HasPrefix line "data: ") then frames rest
      else
        match Unmarshal (TrimPrefix line "data: ") with
        | Err _ => frames rest
        | Ok streamEvent => streamEvent :: frames rest
        end
  end.

End Stream.

(** The loop body over decoded frames. *)
Fixpoint run (fs : list anthropicStreamEvent) (st : decoder)
  : list StreamEvent :=
  match fs with
  | [] => []
  | f :: rest =>
      match on_event st f with
      | Continue sent st' => sent ++ run rest st'
      | Return sent => sent
      end
  end.

(** *** The provider and its two calls *)

(** The provider struct; [httpClient] is a pointer the package only
    passes on. A configuration method writes one field of its receiver
    and returns the receiver: it is given here as the provider after the
    call. *)
Record anthropic : Type := {
  apiKey : string;
  baseURL : string;
  model : string;
  httpClient : positive }.

Definition New (DefaultClient : positive) : anthropic :=
  {| apiKey := ""; baseURL := defaultBaseURL; model := defaultModel;
     httpClient := DefaultClient |}.

Definition WithAPIKey (a : anthropic) (key : string) : anthropic :=
  {| apiKey := key; baseURL := baseURL a; model := model a;
     httpClient := httpClient a |}.

Definition WithBaseURL (a : anthropic) (url : string) : anthropic :=
  {| apiKey := apiKey a; baseURL := url; model := model a;
     httpClient := httpClient a |}.

Definition WithModel (a : anthropic) (m : string) : anthropic :=
  {| apiKey := apiKey a; baseURL := baseURL a; model := m;
     httpClient := httpClient a |}.

(** [anthropicReq.Stream = true]. *)
Definition set_Stream (r : anthropicMessageRequest) : anthropicMessageRequest :=
  {| Request_Model := Request_Model r;
     Request_Messages := Request_Messages r;
     Request_System := Request_System r;
     Request_MaxTokens := Request_MaxTokens r;
     Request_Stream := true;
     Request_Tools := Request_Tools r |}.

Section Calls.

(** [json.Unmarshal] of tool arguments, [json.Marshal] of the wire
    request and of a tool input, [url.Parse], [httpClient.Do], and
    [json.Unmarshal] into the wire response and into a stream event. *)
Variable Unmarshal_any : string -> result any.
Variable Marshal_request : anthropicMessageRequest -> result string.
Variable Marshal : any -> result string.
Variable parse_url : string -> result string.
Variable Do : positive -> http.Request -> result http.Response.
Variable Unmarshal_response : string -> result anthropicMessageResponse.
Variable Unmarshal_event : string -> result anthropicStreamEvent.

(** The wire request of [Chat], and that of [Stream]. *)
Definition Chat_wire (a : anthropic) (req : ChatRequest) : anthropicMessageRequest :=
  toAnthropicRequest Unmarshal_any req
    (if ChatRequest_Model req =? "" then model a else ChatRequest_Model req).

Definition Stream_wire (a : anthropic) (req : ChatRequest) : anthropicMessageRequest :=
  set_Stream (Chat_wire a req).

(** The HTTP request both calls build from a wire request; [Stream] also
    sets the [Accept] header. *)
Definition new_request (a : anthropic) (anthropicReq : anthropicMessageRequest)
    (streaming : bool) : result http.Request :=
  match Marshal_request anthropicReq with
  | Err e => Err (errorw "failed to marshal request: %w" e)
  | Ok body =>
      match http.NewRequestWithContext parse_url http.MethodPost
              (baseURL a +:+ "/v1/messages") body with
      | Err e => Err (errorw "failed to create request: %w" e)
      | Ok httpReq =>
          let httpReq := http.Header_Set "Content-Type" "application/json" httpReq in
          let httpReq := http.Header_Set "x-api-key" (apiKey a) httpReq in
          let httpReq := http.Header_Set "anthropic-version" apiVersion httpReq in
          Ok (if streaming
              then http.Header_Set "Accept" "text/event-stream" httpReq
              else httpReq)
      end
  end.

Definition Chat (a : anthropic) (req : ChatRequest) : result ChatResponse :=
  match new_request a (Chat_wire a req) false with
  | Err e => Err e
  | Ok httpReq =>
      match Do (httpClient a) httpReq with
      | Err e => Err (errorw "failed to send request: %w" e)
      | Ok resp =>
          let '(respBody, err) := http.Response_ReadAll resp in
          match err with
          | Some e => Err (errorw "failed to read response: %w" e)
          | None =>
              if negb (http.Response_StatusCode resp =? http.StatusOK)%Z then
                Err (errorf "API error (status %d): %s"
                       [arg_int (http.Response_StatusCode resp); arg_string respBody])
              else
                match Unmarshal_response respBody with
                | Err e => Err (errorw "failed to unmarshal response: %w" e)
                | Ok anthropicResp => Ok (toProviderResponse Marshal anthropicResp)
                end
          end
      end
  end.

(** The whole of [Stream]: the request, the transport, and then [Stream]
    above on the answer. *)
Definition Stream_call (a : anthropic) (req : ChatRequest)
  : result (StreamReader * channel) :=
  match new_request a (Stream_wire a req) true with
  | Err e => Err e
  | Ok httpReq =>
      match Do (httpClient a) httpReq with
      | Err e => Err (errorw "failed to send request: %w" e)
      | Ok resp =>
          Stream Unmarshal_event (http.Response_StatusCode resp)
            (fst (http.Response_ReadAll resp)) (http.Response_Lines resp)
      end
  end.

End Calls.

End anthropic.

(** ** Package ollama *)

Module ollama.

Import provider.

Definition defaultBaseURL := "http://localhost:11434".
Definition defaultModel := "llama3.2".

(** The fields of the client library's types ([ollama/api]) that the
    package reads or writes. The [Options] map of a request holds at
    most the five keys the package sets. *)
Record api_ToolCallFunction : Type := {
  api_ToolCallFunction_Name : string;
  api_ToolCallFunction_Arguments : any }.

Record api_ToolCall : Type := {
  api_ToolCall_Function : api_ToolCallFunction }.

Record api_Message : Type := {
  api_Message_Role : string;
  api_Message_Content : string;
  api_Message_ToolCalls : list api_ToolCall }.

Record api_ToolProperty : Type := {
  api_ToolProperty_Type : list string;
  api_ToolProperty_Description : string }.

Record api_ToolFunctionParameters : Type := {
  api_Parameters_Type : string;
  api_Parameters_Required : list string;
  api_Parameters_Properties : gmap string api_ToolProperty }.

Record api_ToolFunction : Type := {
  api_ToolFunction_Name : string;
  api_ToolFunction_Description : string;
  api_ToolFunction_Parameters : api_ToolFunctionParameters }.

Record api_Tool : Type := {
  api_Tool_Type : string;
  api_Tool_Function : api_ToolFunction }.

Record api_Options : Type := {
  opt_temperature : option float64;
  opt_top_p : option float64;
  opt_num_predict : option int;
  opt_stop : option (list string);
  opt_seed : option int }.

Record api_ChatRequest : Type := {
  api_ChatRequest_Model : string;
  api_ChatRequest_Messages : list api_Message;
  api_ChatRequest_Stream : option bool;
  api_ChatRequest_Tools : list api_Tool;
  api_ChatRequest_Options : api_Options }.

Record api_ChatResponse : Type := {
  api_ChatResponse_CreatedAt : int64;
  api_ChatResponse_Message : api_Message;
  api_ChatResponse_DoneReason : string;
  api_ChatResponse_Done : bool;
  api_ChatResponse_PromptEvalCount : int;
  api_ChatResponse_EvalCount : int }.

(** The provider struct. [httpClient] is a pointer the package only
    passes on. Providers live in a heap: the methods have pointer
    receivers and return the receiver. *)
Record ollama : Type := {
  baseURL : string;
  model : string;
  httpClient : positive }.

Definition ref := positive.
Abbreviation heap := (gmap ref ollama).

Definition New (fresh : ref) (DefaultClient : positive) (h : heap)
  : ref * heap :=
  (fresh,
   <[fresh := {| baseURL := defaultBaseURL; model := defaultModel;
                 httpClient := DefaultClient |}]> h).

Definition WithAPIKey (o : ref) (key : string) (h : heap)
  : outcome (ref * heap) :=
  Returns (o, h).

Definition WithBaseURL (o : ref) (url : string) (h : heap)
  : outcome (ref * heap) :=
  match h !! o with
  | Some v =>
      Returns (o, <[o := {| baseURL := url; model := model v;
                            httpClient := httpClient v |}]> h)
  | None => Panics "nil pointer dereference"
  end.

Definition WithModel (o : ref) (m : string) (h : heap)
  : outcome (ref * heap) :=
  match h !! o with
  | Some v =>
      Returns (o, <[o := {| baseURL := baseURL v; model := m;
                            httpClient := httpClient v |}]> h)
  | None => Panics "nil pointer dereference"
  end.

(** [fmt.Sprintf] with one [%d]. *)
Definition Sprintf_d (pre : string) (i : Z) : string :=
  pre +:+ DecimalString.NilEmpty.string_of_int (Z.to_int i).

Fixpoint lookup_key (k : string) (m : list (string * any)) : option any :=
  match m with
  | [] => None
  | (k', v) :: rest => if k' =? k then Some v else lookup_key k rest
  end.

(** [v, _ := m[k].(string)]. *)
Definition string_at (k : string) (m : list (string * any)) : string :=
  match lookup_key k m with
  | Some (any_string s) => s
  | _ => ""
  end.

Section Mappers.

(** [json.Unmarshal] into a [map[string]any], [json.Marshal] of tool
    arguments, and [fmt.Sprint] of a JSON value. *)
Variable Unmarshal_map : string -> result any.
Variable Marshal : any -> result string.
Variable Sprint : any -> string.

Definition convertMessages (messages : list Message) : list api_Message :=
  map (fun msg =>
         {| api_Message_Role := Message_Role msg;
            api_Message_Content := Message_Content msg;
            api_Message_ToolCalls :=
              map (fun tc =>
                     {| api_ToolCall_Function :=
                          {| api_ToolCallFunction_Name :=
                               FunctionCall_Name (ToolCall_Function tc);
                             api_ToolCallFunction_Arguments :=
                               match Unmarshal_map
                                       (FunctionCall_Arguments (ToolCall_Function tc)) with
                               | Ok args => args
                               | Err _ => any_nil
                               end |} |})
                  (Message_ToolCalls msg) |})
      messages.

Definition convert_properties (parameters : list (string * any))
  : gmap string api_ToolProperty :=
  match lookup_key "properties" parameters with
  | Some (any_map props) =>
      fold_right
        (fun '(name, prop) properties =>
           match prop with
           | any_map p =>
               <[name := {| api_ToolProperty_Type := [string_at "type" p];
                            api_ToolProperty_Description :=
                              string_at "description" p |}]> properties
           | _ => properties
           end)
        ∅ props
  | _ => ∅
  end.

Definition convert_required (parameters : list (string * any)) : list string :=
  match lookup_key "required" parameters with
  | Some (any_slice req) => map Sprint req
  | _ => []
  end.

Definition convertTools (tools : list Tool) : list api_Tool :=
  map (fun t =>
         {| api_Tool_Type := "function";
            api_Tool_Function :=
              {| api_ToolFunction_Name := Function_Name (Tool_Function t);
                 api_ToolFunction_Description :=
                   Function_Description (Tool_Function t);
                 api_ToolFunction_Parameters :=
                   {| api_Parameters_Type := "object";
                      api_Parameters_Required :=
                        convert_required (Function_Parameters (Tool_Function t));
                      api_Parameters_Properties :=
                        convert_properties
                          (Function_Parameters (Tool_Function t)) |} |} |})
      tools.

(** The request [Chat] ([stream = false]) and [Stream]
    ([stream = true]) build from the provider at [o] and [req]. *)
Definition chatReq (o : ref) (h : heap) (req : ChatRequest) (stream : bool)
  : outcome api_ChatRequest :=
  match h !! o with
  | None => Panics "nil pointer dereference"
  | Some v =>
      Returns
        {| api_ChatRequest_Model :=
             if ChatRequest_Model req =? "" then model v
             else ChatRequest_Model req;
           api_ChatRequest_Messages :=
             convertMessages (ChatRequest_Messages req);
           api_ChatRequest_Stream := Some stream;
           api_ChatRequest_Tools := convertTools (ChatRequest_Tools req);
           api_ChatRequest_Options :=
             {| opt_temperature := ChatRequest_Temperature req;
                opt_top_p := ChatRequest_TopP req;
                opt_num_predict := ChatRequest_MaxTokens req;
                opt_stop :=
                  match ChatRequest_Stop req with
                  | [] => None
                  | stop => Some stop
                  end;
                opt_seed := ChatRequest_RandomSeed req |} |}
  end.

(** The loop over [resp.Message.ToolCalls], from position [i] on. *)
Fixpoint convert_calls (i : nat) (tcs : list api_ToolCall) : list ToolCall :=
  match tcs with
  | [] => []
  | tc :: rest =>
      {| ToolCall_ID := Sprintf_d "call_" (int_of_nat i);
         ToolCall_Type := "function";
         ToolCall_Function :=
           {| FunctionCall_Name :=
                api_ToolCallFunction_Name (api_ToolCall_Function tc);
              FunctionCall_Arguments :=
                match Marshal (api_ToolCallFunction_Arguments
                                 (api_ToolCall_Function tc)) with
                | Ok s => s
                | Err _ => ""
                end |};
         ToolCall_Index := int_of_nat i |}
      :: convert_calls (S i) rest
  end.

(** [now] is [time.Now().UnixNano()]. *)
Definition toProviderResponse (now : int64) (resp : api_ChatResponse)
    (model : string) : ChatResponse :=
  let toolCalls :=
    convert_calls 0 (api_Message_ToolCalls (api_ChatResponse_Message resp)) in
  let finishReason :=
    if api_ChatResponse_DoneReason resp =? "length" then FinishReasonLength
    else match toolCalls with
         | [] => FinishReasonStop
         | _ => FinishReasonToolCalls
         end in
  {| ChatResponse_ID := Sprintf_d "ollama-" now;
     ChatResponse_Object := "chat.completion";
     ChatResponse_Created := api_ChatResponse_CreatedAt resp;
     ChatResponse_Model := model;
     ChatResponse_Choices :=
       [{| Choice_Index := 0;
           Choice_Message :=
             {| Message_Role := RoleAssistant;
                Message_Content :=
                  api_Message_Content (api_ChatResponse_Message resp);
                Message_ToolCalls := toolCalls;
                Message_ToolCallID := "";
                Message_Name := "" |};
           Choice_FinishReason := finishReason |}];
     ChatResponse_Usage :=
       {| Usage_PromptTokens := api_ChatResponse_PromptEvalCount resp;
          Usage_CompletionTokens := api_ChatResponse_EvalCount resp;
          Usage_TotalTokens :=
            int_add (api_ChatResponse_PromptEvalCount resp)
                    (api_ChatResponse_EvalCount resp) |} |}.

(** The event the streaming callback sends for one response. *)
Definition callback_event (resp : api_ChatResponse) : StreamEvent :=
  let toolCalls :=
    convert_calls 0 (api_Message_ToolCalls (api_ChatResponse_Message resp)) in
  let finishReason :=
    if api_ChatResponse_Done resp then
      if api_ChatResponse_DoneReason resp =? "length" then FinishReasonLength
      else match toolCalls with
           | [] => FinishReasonStop
           | _ => FinishReasonToolCalls
           end
    else "" in
  {| StreamEvent_Delta :=
       {| Delta_Content := api_Message_Content (api_ChatResponse_Message resp);
          Delta_ToolCalls := toolCalls |};
     StreamEvent_FinishReason := finishReason;
     StreamEvent_Err := None |}.

(** The goroutine of [Stream]: the client calls the callback on each
    response in turn, and may end with an error. *)
Definition Stream_goroutine (resps : list api_ChatResponse)
    (chat_err : option error) : list StreamEvent :=
  map callback_event resps
  ++ match chat_err with
     | Some e =>
         [{| StreamEvent_Delta := Delta_zero;
             StreamEvent_FinishReason := "";
             StreamEvent_Err := Some e |}]
     | None => []
     end.

(** The close hook of the reader: [func() { close(done) }]. *)
Definition close_done (w : resources) : outcome resources :=
  bind (close_signal (done_chan w))
       (fun c => Returns {| body_closed := body_closed w; done_chan := c |}).

(** [Stream] once the base URL has been parsed ([url_ok] is the
    result of [getClient]). *)
Definition Stream (url_ok : result unit) (resps : list api_ChatResponse)
    (chat_err : option error) : result (StreamReader * channel) :=
  match url_ok with
  | Err e => Err (errorw "invalid base URL: %w" e)
  | Ok _ =>
      Ok (NewStreamReader (Some close_done), Stream_goroutine resps chat_err)
  end.

End Mappers.

End ollama.

(** ** Package tool *)

Module tool.

(** [Args], a [map[string]any], as the members of the decoded JSON
    object; [a[key]] is the first member with that key, and a nil map has
    none. *)
Definition Args := list (string * any).

(** A handler, without its context argument. *)
Definition Handler := Args -> result string.

Record ParamBuilder : Type := {
  ParamBuilder_name : string;
  ParamBuilder_typ : string;
  ParamBuilder_description : string;
  ParamBuilder_required : bool;
  ParamBuilder_enum : list string;
  ParamBuilder_items : string }.

Record Tool : Type := {
  name : string;
  description : string;
  params : list ParamBuilder;
  handler : option Handler }.

Definition New (name : string) : Tool :=
  {| name := name; description := ""; params := []; handler := None |}.

Definition Description (t : Tool) (desc : string) : Tool :=
  {| name := name t; description := desc; params := params t;
     handler := handler t |}.

Definition Input (t : Tool) (ps : list ParamBuilder) : Tool :=
  {| name := name t; description := description t; params := ps;
     handler := handler t |}.

Definition Execute (t : Tool) (h : Handler) : Tool :=
  {| name := name t; description := description t; params := params t;
     handler := Some h |}.

Definition Name (t : Tool) : string := name t.

Section Run.

(** [json.Unmarshal] into a [map[string]any]. *)
Variable Unmarshal_map : string -> result Args.

Definition Run (t : Tool) (argsJSON : string) : result string :=
  match handler t with
  | None => Err (errorf "no handler defined for tool %q" [arg_string (name t)])
  | Some h =>
      match Unmarshal_map argsJSON with
      | Err e => Err (errorw "failed to parse arguments: %w" e)
      | Ok raw => h raw
      end
  end.

End Run.

(** [a[key]] with its [ok]. *)
Fixpoint index (a : Args) (key : string) : option any :=
  match a with
  | [] => None
  | (k, v) :: rest => if k =? key then Some v else index rest key
  end.

Definition String (a : Args) (key : string) : string :=
  match index a key with
  | Some (any_string v) => v
  | _ => ""
  end.

Definition Float (a : Args) (key : string) : float64 :=
  match index a key with
  | Some (any_float64 v) => v
  | _ => 0
  end.

Definition Bool (a : Args) (key : string) : bool :=
  match index a key with
  | Some (any_bool v) => v
  | _ => false
  end.

Definition Strings (a : Args) (key : string) : list string :=
  match index a key with
  | Some (any_slice v) =>
      map (fun item => match item with any_string s => s | _ => "" end) v
  | _ => []
  end.

Definition Object (a : Args) (key : string) : Args :=
  match index a key with
  | Some (any_map v) => v
  | _ => []
  end.

Definition Has (a : Args) (key : string) : bool :=
  match index a key with
  | Some _ => true
  | None => false
  end.

Definition Raw (a : Args) (key : string) : any :=
  match index a key with
  | Some v => v
  | None => any_nil
  end.

End tool.

(** * Definitions used to state the properties *)

Import provider.

(** What [Recv] returns on a closed stream. *)
Definition closed_result : StreamEvent * option error :=
  (StreamEvent_zero, Some ErrStreamClosed).

(** [req] with its messages replaced. *)
Definition with_Messages (req : ChatRequest) (messages : list Message)
  : ChatRequest :=
  {| ChatRequest_Messages := messages;
     ChatRequest_Model := ChatRequest_Model req;
     ChatRequest_Temperature := ChatRequest_Temperature req;
     ChatRequest_TopP := ChatRequest_TopP req;
     ChatRequest_MaxTokens := ChatRequest_MaxTokens req;
     ChatRequest_Stream := ChatRequest_Stream req;
     ChatRequest_Stop := ChatRequest_Stop req;
     ChatRequest_Tools := ChatRequest_Tools req;
     ChatRequest_ToolChoice := ChatRequest_ToolChoice req;
     ChatRequest_PresencePenalty := ChatRequest_PresencePenalty req;
     ChatRequest_FrequencyPenalty := ChatRequest_FrequencyPenalty req;
     ChatRequest_RandomSeed := ChatRequest_RandomSeed req |}.

Definition is_system (m : Message) : bool := Message_Role m =? RoleSystem.
Definition not_system (m : Message) : bool := negb (is_system m).

(** The finish reasons of the choices of a response. *)
Definition finish_reasons (r : ChatResponse) : list string :=
  map Choice_FinishReason (ChatResponse_Choices r).

(** ** Concrete inputs *)

Module Sample.

Definition message (role : Role) (content : string) : Message :=
  {| Message_Role := role; Message_Content := content;
     Message_ToolCalls := []; Message_ToolCallID := ""; Message_Name := "" |}.

(** A request with the given messages and nothing else set. *)
Definition request (messages : list Message) : ChatRequest :=
  {| ChatRequest_Messages := messages;
     ChatRequest_Model := "";
     ChatRequest_Temperature := None;
     ChatRequest_TopP := None;
     ChatRequest_MaxTokens := None;
     ChatRequest_Stream := false;
     ChatRequest_Stop := [];
     ChatRequest_Tools := [];
     ChatRequest_ToolChoice := None;
     ChatRequest_PresencePenalty := None;
     ChatRequest_FrequencyPenalty := None;
     ChatRequest_RandomSeed := None |}.

Definition two_systems : ChatRequest :=
  request [message RoleSystem "be terse"; message RoleSystem "be kind";
           message RoleUser "2+2?"].

(** JSON text: [q s] is [s] between double quotes. *)
Definition q (s : string) : string := String "034" (s +:+ String "034" "").
Definition field (k v : string) : string := q k +:+ ":" +:+ v.
Definition obj (fields : list string) : string :=
  "{" +:+ String.concat "," fields +:+ "}".
Definition data (payload : string) : string := "data: " +:+ payload.

(** An array where an object is expected: [encoding/json] reports that
    it cannot unmarshal an array into a struct. *)
Definition doc_array : string := "[1]".
Definition array_error : error :=
  errorf "json: cannot unmarshal array into Go value" [].

Fixpoint lookup_doc {A} (table : list (string * A)) (text : string) : result A :=
  match table with
  | [] => Err (errorf "json: document outside the table" [])
  | (doc, v) :: rest => if doc =? text then Ok v else lookup_doc rest text
  end.

(** A decoder of wire documents given by a table: on each document of
    the table it returns what [json.Unmarshal] builds from it, and on
    [doc_array] the error above. Texts outside the table are not used. *)
Definition decode {A} (table : list (string * A)) (text : string) : result A :=
  if text =? doc_array then Err array_error else lookup_doc table text.

(** A [json.Marshal] and a [json.Unmarshal] into [any] for inputs that
    carry no tool arguments. *)
Definition marshal_null (v : any) : result string := Ok "null".
Definition unmarshal_none (text : string) : result any :=
  Err (errorf "unexpected end of JSON input" []).

(** An openai response whose usage does not add up. *)
Definition openai_response : openai.openaiChatCompletionResponse :=
  {| openai.Response_ID := "chatcmpl-1";
     openai.Response_Object := "chat.completion";
     openai.Response_Created := 0;
     openai.Response_Model := "gpt-4o";
     openai.Response_Choices := [];
     openai.Response_Usage :=
       {| openai.openaiUsage_PromptTokens := 1;
          openai.openaiUsage_CompletionTokens := 1;
          openai.openaiUsage_TotalTokens := 5 |} |}.

(** An anthropic response that stopped at the token cap. *)
Definition anthropic_capped : anthropic.anthropicMessageResponse :=
  {| anthropic.Response_ID := "msg_1";
     anthropic.Response_Type := "message";
     anthropic.Response_Role := "assistant";
     anthropic.Response_Content := [anthropic.content_text "4"];
     anthropic.Response_Model := "claude";
     anthropic.Response_StopReason := "max_tokens";
     anthropic.Response_StopSequence := "";
     anthropic.Response_Usage :=
       {| anthropic.anthropicUsage_InputTokens := 10;
          anthropic.anthropicUsage_OutputTokens := 1 |} |}.

(** The anthropic stream frames used below, with their JSON text. *)
Definition frame (type : string) : anthropic.anthropicStreamEvent :=
  {| anthropic.anthropicStreamEvent_Type := type;
     anthropic.anthropicStreamEvent_Index := None;
     anthropic.anthropicStreamEvent_Delta := None;
     anthropic.anthropicStreamEvent_ContentBlock := None;
     anthropic.anthropicStreamEvent_Message := None |}.

Definition doc_message_stop : string := obj [field "type" (q "message_stop")].
Definition message_stop : anthropic.anthropicStreamEvent := frame "message_stop".

Definition doc_capped : string :=
  obj [field "type" (q "message_delta");
       field "delta" (obj [field "stop_reason" (q "max_tokens")])].
Definition capped : anthropic.anthropicStreamEvent :=
  {| anthropic.anthropicStreamEvent_Type := "message_delta";
     anthropic.anthropicStreamEvent_Index := None;
     anthropic.anthropicStreamEvent_Delta :=
       Some {| anthropic.anthropicDelta_Type := "";
               anthropic.anthropicDelta_Text := "";
               anthropic.anthropicDelta_PartialJSON := "";
               anthropic.anthropicDelta_StopReason := "max_tokens" |};
     anthropic.anthropicStreamEvent_ContentBlock := None;
     anthropic.anthropicStreamEvent_Message := None |}.

Definition doc_tool_start (index : option string) (id name : string) : string :=
  obj ([field "type" (q "content_block_start")]
       ++ match index with Some i => [field "index" i] | None => [] end
       ++ [field "content_block"
             (obj [field "type" (q "tool_use"); field "id" (q id);
                   field "name" (q name)])]).
Definition tool_start (index : option int) (id name : string)
  : anthropic.anthropicStreamEvent :=
  {| anthropic.anthropicStreamEvent_Type := "content_block_start";
     anthropic.anthropicStreamEvent_Index := index;
     anthropic.anthropicStreamEvent_Delta := None;
     anthropic.anthropicStreamEvent_ContentBlock :=
       Some {| anthropic.anthropicContentBlock_Type := "tool_use";
               anthropic.anthropicContentBlock_ID := id;
               anthropic.anthropicContentBlock_Name := name;
               anthropic.anthropicContentBlock_Input := any_nil;
               anthropic.anthropicContentBlock_Text := "" |};
     anthropic.anthropicStreamEvent_Message := None |}.

Definition anthropic_Unmarshal : string -> result anthropic.anthropicStreamEvent :=
  decode [(doc_message_stop, message_stop);
          (doc_capped, capped);
          (doc_tool_start None "toolu_a" "lookup", tool_start None "toolu_a" "lookup");
          (doc_tool_start None "toolu_b" "lookup", tool_start None "toolu_b" "lookup");
          (doc_tool_start (Some "0") "toolu_b" "lookup",
           tool_start (Some 0) "toolu_b" "lookup")].

(** An openai chunk whose only choice has content and a finish reason. *)
Definition doc_content_and_finish : string :=
  obj [field "choices"
         ("[" +:+ obj [field "delta" (obj [field "content" (q "4")]);
                       field "finish_reason" (q "stop")] +:+ "]")].
Definition doc_content (text : string) : string :=
  obj [field "choices"
         ("[" +:+ obj [field "delta" (obj [field "content" (q text)])] +:+ "]")].

Definition openai_chunk (content finish : string) : openai.openaiStreamChunk :=
  {| openai.openaiStreamChunk_ID := "";
     openai.openaiStreamChunk_Object := "";
     openai.openaiStreamChunk_Created := 0;
     openai.openaiStreamChunk_Model := "";
     openai.openaiStreamChunk_Choices :=
       [{| openai.openaiStreamChoice_Index := 0;
           openai.openaiStreamChoice_Delta :=
             {| openai.openaiDeltaMessage_Role := "";
                openai.openaiDeltaMessage_Content := content;
                openai.openaiDeltaMessage_ToolCalls := [] |};
           openai.openaiStreamChoice_FinishReason := finish |}] |}.

Definition openai_Unmarshal : string -> result openai.openaiStreamChunk :=
  decode [(doc_content_and_finish, openai_chunk "4" "stop");
          (doc_content "Hel", openai_chunk "Hel" "")].

Definition mistral_chunk (content finish : string) : mistral.mistralStreamChunk :=
  {| mistral.mistralStreamChunk_ID := "";
     mistral.mistralStreamChunk_Object := "";
     mistral.mistralStreamChunk_Created := 0;
     mistral.mistralStreamChunk_Model := "";
     mistral.mistralStreamChunk_Choices :=
       [{| mistral.mistralStreamChoice_Index := 0;
           mistral.mistralStreamChoice_Delta :=
             {| mistral.mistralDeltaMessage_Role := "";
                mistral.mistralDeltaMessage_Content := content;
                mistral.mistralDeltaMessage_ToolCalls := [] |};
           mistral.mistralStreamChoice_FinishReason := finish |}] |}.

Definition mistral_Unmarshal : string -> result mistral.mistralStreamChunk :=
  decode [(doc_content_and_finish, mistral_chunk "4" "stop");
          (doc_content "Hel", mistral_chunk "Hel" "")].

End Sample.

(** ** Lines and frames of a stream *)

Definition is_data (line : string) : bool := HasPrefix line "data: ".
Definition payload (line : string) : string := TrimPrefix line "data: ".

(** A line after which a decoder with the [DONE] sentinel reads the next
    one: a line that is not a data line, or a data line that is not the
    sentinel and that [Unmarshal] accepts. *)
Definition goes_on {A} (Unmarshal : string -> result A) (line : string) : bool :=
  negb (is_data line)
  || (negb (payload line =? "[DONE]")
      && match Unmarshal (payload line) with Ok _ => true | Err _ => false end).

(** A line the anthropic loop passes over: not a data line, or a data
    line that [Unmarshal] rejects. *)
Definition skipped {A} (Unmarshal : string -> result A) (line : string) : Prop :=
  is_data line = false \/ exists e, Unmarshal (payload line) = Err e.

(** An event with an error and nothing else. *)
Definition error_only (ev : StreamEvent) : Prop :=
  has_delta ev = false /\ has_finish ev = false.

(** An event with at most one of delta and finish reason, and no error. *)
Definition at_most_one (ev : StreamEvent) : Prop :=
  (populated ev <= 1)%nat /\ has_error ev = false.

(** The tool-call fragments of a sequence of events, in order, and the
    identifier and index each one carries. *)
Definition calls (evs : list StreamEvent) : list ToolCall :=
  concat (map (fun ev => Delta_ToolCalls (StreamEvent_Delta ev)) evs).

Definition id_index (tc : ToolCall) : string * int :=
  (ToolCall_ID tc, ToolCall_Index tc).

Definition is_stop (f : anthropic.anthropicStreamEvent) : bool :=
  anthropic.anthropicStreamEvent_Type f =? "message_stop".

Definition tool_start_block (f : anthropic.anthropicStreamEvent)
  : option anthropic.anthropicContentBlock :=
  if anthropic.anthropicStreamEvent_Type f =? "content_block_start" then
    match anthropic.anthropicStreamEvent_ContentBlock f with
    | Some block =>
        if anthropic.anthropicContentBlock_Type block =? "tool_use"
        then Some block else None
    | None => None
    end
  else None.

Definition arguments_index (f : anthropic.anthropicStreamEvent) : option int :=
  if anthropic.anthropicStreamEvent_Type f =? "content_block_delta" then
    match anthropic.anthropicStreamEvent_Delta f with
    | Some delta =>
        if anthropic.anthropicDelta_Type delta =? "input_json_delta"
        then anthropic.anthropicStreamEvent_Index f else None
    | None => None
    end
  else None.

(** The identifier and index of the tool-call fragments a sequence of
    anthropic frames stands for, when [k] tool calls have started before:
    up to the first [message_stop], a tool-use start gives its block's
    identifier with the frame's wire index, or with [k] when the frame
    has none, and an argument delta with a wire index gives that index
    with no identifier. *)
Fixpoint fragments (k : nat) (fs : list anthropic.anthropicStreamEvent)
  : list (string * int) :=
  match fs with
  | [] => []
  | f :: rest =>
      if is_stop f then []
      else
        match tool_start_block f with
        | Some block =>
            (anthropic.anthropicContentBlock_ID block,
             match anthropic.anthropicStreamEvent_Index f with
             | Some index => index
             | None => int_of_nat k
             end)
            :: fragments (S k) rest
        | None =>
            match arguments_index f with
            | Some index => ("", index) :: fragments k rest
            | None => fragments k rest
            end
        end
  end.

Definition no_wire_index (f : anthropic.anthropicStreamEvent) : bool :=
  match anthropic.anthropicStreamEvent_Index f with
  | Some _ => false
  | None => true
  end.

(** ** Further definitions: the reader and the line decoders *)

(** What [Recv] returns for an event it takes from the channel. *)
Definition delivered (ev : StreamEvent) : StreamEvent * option error :=
  (ev, StreamEvent_Err ev).

Definition without_error (ev : StreamEvent) : Prop := has_error ev = false.

(** The sentinel line of the openai and mistral transports. *)
Definition done_line : string := "data: [DONE]".

(** ** Further definitions: the anthropic stream *)

(** The text a frame adds to the content: the text of a text delta. *)
Definition frame_text (f : anthropic.anthropicStreamEvent) : string :=
  if anthropic.anthropicStreamEvent_Type f =? "content_block_delta" then
    match anthropic.anthropicStreamEvent_Delta f with
    | Some delta =>
        if anthropic.anthropicDelta_Type delta =? "text_delta"
        then anthropic.anthropicDelta_Text delta else ""
    | None => ""
    end
  else "".

(** The frames before the first [message_stop]. *)
Fixpoint until_stop (fs : list anthropic.anthropicStreamEvent)
  : list anthropic.anthropicStreamEvent :=
  match fs with
  | [] => []
  | f :: rest => if is_stop f then [] else f :: until_stop rest
  end.

Definition join (parts : list string) : string :=
  fold_right String.append "" parts.

(** The content a consumer assembles from a sequence of events. *)
Definition content_of (evs : list StreamEvent) : string :=
  join (map (fun ev => Delta_Content (StreamEvent_Delta ev)) evs).

Definition not_stop (f : anthropic.anthropicStreamEvent) : bool :=
  negb (is_stop f).

(** ** Further definitions: the anthropic mappers *)

(** An inline message of an anthropic request as the mapper builds them:
    from the user or the assistant, with at least one content block. *)
Definition inline_ok (m : anthropic.anthropicMessage) : Prop :=
  (anthropic.anthropicMessage_Role m = "user"
   \/ anthropic.anthropicMessage_Role m = "assistant")
  /\ anthropic.anthropicMessage_Content m <> [].

Definition is_text (c : anthropic.anthropicContent) : bool :=
  anthropic.anthropicContent_Type c =? "text".
Definition is_tool_use (c : anthropic.anthropicContent) : bool :=
  anthropic.anthropicContent_Type c =? "tool_use".

(** The positions of the tool-use blocks of a content list whose first
    block has position [i]. *)
Fixpoint tool_use_positions (i : nat) (cs : list anthropic.anthropicContent)
  : list nat :=
  match cs with
  | [] => []
  | c :: rest =>
      if is_tool_use c then i :: tool_use_positions (S i) rest
      else tool_use_positions (S i) rest
  end.

(** The first choice's message of a response. *)
Definition first_message (r : ChatResponse) : option Message :=
  match ChatResponse_Choices r with
  | c :: _ => Some (Choice_Message c)
  | [] => None
  end.

(** The JSON text of a tool call's arguments after the anthropic request
    mapper has decoded them and the response mapper has encoded them
    again. *)
Definition reencoded (Unmarshal_any : string -> result any)
    (Marshal : any -> result string) (tc : ToolCall) : string :=
  match Marshal (anthropic.tool_input Unmarshal_any tc) with
  | Ok s => s
  | Err _ => ""
  end.

(** Arguments that survive decoding and encoding as they are. *)
Definition stable_arguments (Unmarshal_any : string -> result any)
    (Marshal : any -> result string) (tc : ToolCall) : Prop :=
  FunctionCall_Arguments (ToolCall_Function tc) <> ""
  /\ exists v,
       Unmarshal_any (FunctionCall_Arguments (ToolCall_Function tc)) = Ok v
       /\ Marshal v = Ok (FunctionCall_Arguments (ToolCall_Function tc)).

(** An anthropic response whose content is the given blocks. *)
Definition response_with (content : list anthropic.anthropicContent)
  : anthropic.anthropicMessageResponse :=
  {| anthropic.Response_ID := "";
     anthropic.Response_Type := "message";
     anthropic.Response_Role := "assistant";
     anthropic.Response_Content := content;
     anthropic.Response_Model := "";
     anthropic.Response_StopReason := "";
     anthropic.Response_StopSequence := "";
     anthropic.Response_Usage :=
       {| anthropic.anthropicUsage_InputTokens := 0;
          anthropic.anthropicUsage_OutputTokens := 0 |} |}.

(** ** Further definitions: round trips and the ollama provider *)

Module Sample2.

(** Tool arguments with one string member, their decoded value, and a
    [json.Unmarshal] and a [json.Marshal] that agree with [encoding/json]
    on them. *)
Definition doc_arguments : string :=
  Sample.obj [Sample.field "q" (Sample.q "x")].
Definition arguments_value : any := any_map [("q", any_string "x")].

Definition unmarshal_arguments : string -> result any :=
  Sample.decode [(doc_arguments, arguments_value)].

Definition marshal_arguments (v : any) : result string :=
  match v with
  | any_map [(k, any_string s)] =>
      Ok (Sample.obj [Sample.field k (Sample.q s)])
  | _ => Ok "null"
  end.

Definition lookup_call : ToolCall :=
  {| ToolCall_ID := "c1";
     ToolCall_Type := "function";
     ToolCall_Function :=
       {| FunctionCall_Name := "lookup";
          FunctionCall_Arguments := doc_arguments |};
     ToolCall_Index := 7 |}.

Definition assistant_call : Message :=
  {| Message_Role := RoleAssistant;
     Message_Content := "";
     Message_ToolCalls := [lookup_call];
     Message_ToolCallID := "";
     Message_Name := "" |}.

End Sample2.

(** A tool call with the type "function" when it has none: what the
    openai and mistral mappers send and return. *)
Definition with_function_type (tc : ToolCall) : ToolCall :=
  {| ToolCall_ID := ToolCall_ID tc;
     ToolCall_Type := if ToolCall_Type tc =? "" then "function" else ToolCall_Type tc;
     ToolCall_Function := ToolCall_Function tc;
     ToolCall_Index := ToolCall_Index tc |}.

Definition with_function_types (msg : Message) : Message :=
  {| Message_Role := Message_Role msg;
     Message_Content := Message_Content msg;
     Message_ToolCalls := map with_function_type (Message_ToolCalls msg);
     Message_ToolCallID := Message_ToolCallID msg;
     Message_Name := Message_Name msg |}.

Definition typed (tc : ToolCall) : Prop := ToolCall_Type tc <> "".

(** The message the openai response mapper returns for a wire message. *)
Definition openai_read (m : openai.openaiMessage) : Message :=
  Choice_Message
    (openai.of_openaiChoice
       {| openai.openaiChoice_Index := 0;
          openai.openaiChoice_Message := m;
          openai.openaiChoice_FinishReason := "" |}).

Definition mistral_read (m : mistral.mistralMessage) : Message :=
  Choice_Message
    (mistral.of_mistralChoice
       {| mistral.mistralChoice_Index := 0;
          mistral.mistralChoice_Message := m;
          mistral.mistralChoice_FinishReason := "" |}).

(** Role, content and tool-call identifier of a wire message. *)
Definition openai_wire (w : openai.wireMessage) : string * string * string :=
  match w with
  | openai.of_openaiMessage m =>
      (openai.openaiMessage_Role m,
       match openai.openaiMessage_Content m with Some s => s | None => "" end,
       openai.openaiMessage_ToolCallID m)
  | openai.of_openaiToolResultMessage m =>
      (openai.openaiToolResultMessage_Role m,
       openai.openaiToolResultMessage_Content m,
       openai.openaiToolResultMessage_ToolCallID m)
  end.

Definition mistral_wire (w : mistral.wireMessage) : string * string * string :=
  match w with
  | mistral.of_mistralMessage m =>
      (mistral.mistralMessage_Role m,
       match mistral.mistralMessage_Content m with Some s => s | None => "" end,
       mistral.mistralMessage_ToolCallID m)
  | mistral.of_mistralToolResultMessage m =>
      (mistral.mistralToolResultMessage_Role m,
       mistral.mistralToolResultMessage_Content m,
       mistral.mistralToolResultMessage_ToolCallID m)
  end.

Definition message_wire (msg : Message) : string * string * string :=
  (Message_Role msg, Message_Content msg, Message_ToolCallID msg).

(** The identifier the ollama mappers give the tool call at position [j]. *)
Definition call_id (j : nat) : string := ollama.Sprintf_d "call_" (int_of_nat j).

Definition ollama_calls (resp : ollama.api_ChatResponse) : list ollama.api_ToolCall :=
  ollama.api_Message_ToolCalls (ollama.api_ChatResponse_Message resp).

(** The finish reasons the ollama mappers produce. *)
Definition unified_reason (r : string) : Prop :=
  r = FinishReasonStop \/ r = FinishReasonLength \/ r = FinishReasonToolCalls.

(** Tool calls numbered from 0 in order, with the identifiers the ollama
    mappers make up. *)
Definition numbered_from_zero (tcs : list ToolCall) : Prop :=
  map ToolCall_Index tcs = map int_of_nat (seq 0 (length tcs))
  /\ map ToolCall_ID tcs = map call_id (seq 0 (length tcs)).

(** One call of a configuration method after another, on the provider
    the first one returns. *)
Definition and_then (first : outcome (ollama.ref * ollama.heap))
    (next : ollama.ref -> ollama.heap -> outcome (ollama.ref * ollama.heap))
  : outcome (ollama.ref * ollama.heap) :=
  bind first (fun '(o, h) => next o h).

(** ** Further definitions: calls and tools *)

(** The error of a call that got an answer with another status than 200. *)
Definition api_error (status : int) (body : string) : error :=
  errorf "API error (status %d): %s" [arg_int status; arg_string body].

(** A reader [s] over a channel [events] gives every event and then the
    closed result, for any number [k] of further calls. *)
Definition delivers_all (s : StreamReader) (events : channel) : Prop :=
  forall k,
    Recv_n (length events + k) s events
    = map delivered events ++ repeat closed_result k.

(** The zero values the accessors [String], [Float], [Bool], [Strings]
    and [Object] of [tool.Args] fall back to. *)
Definition zero_values (a : tool.Args) (key : string) : Prop :=
  tool.String a key = "" /\ tool.Float a key = 0 /\ tool.Bool a key = false
  /\ tool.Strings a key = [] /\ tool.Object a key = [].

Definition string_or_empty (item : any) : string :=
  match item with
  | any_string s => s
  | _ => ""
  end.

Definition no_handler (name : string) : error :=
  errorf "no handler defined for tool %q" [arg_string name].

(** The property the ollama tool converter makes from the schema of one
    parameter. *)
Definition property_of (p : list (string * any)) : ollama.api_ToolProperty :=
  {| ollama.api_ToolProperty_Type := [ollama.string_at "type" p];
     ollama.api_ToolProperty_Description := ollama.string_at "description" p |}.

(** Name, description and the two fixed types of a converted tool. *)
Definition tool_head (t : ollama.api_Tool) : string * string * string * string :=
  (ollama.api_ToolFunction_Name (ollama.api_Tool_Function t),
   ollama.api_ToolFunction_Description (ollama.api_Tool_Function t),
   ollama.api_Tool_Type t,
   ollama.api_Parameters_Type
     (ollama.api_ToolFunction_Parameters (ollama.api_Tool_Function t))).

Definition declared_head (t : Tool) : string * string * string * string :=
  (Function_Name (Tool_Function t), Function_Description (Tool_Function t),
   "function", "object").

(** ** Further definitions: what a call over HTTP returns *)

Definition send_error (e : error) : error := errorw "failed to send request: %w" e.
Definition read_error (e : error) : error := errorw "failed to read response: %w" e.
Definition decode_error (e : error) : error :=
  errorw "failed to unmarshal response: %w" e.

(** The result [out] of a [Chat] whose request was built as [built], sent
    with [send], and whose answer is decoded by [Unmarshal] and mapped by
    [to_response]: a response exactly when every step succeeded on an
    answer with status 200, and otherwise the error of the first step
    that failed, in the order build, send, read, status, decode. *)
Definition chat_outcome {W : Type} (built : result http.Request)
    (send : http.Request -> result http.Response)
    (Unmarshal : string -> result W) (to_response : W -> ChatResponse)
    (out : result ChatResponse) : Prop :=
  (forall r,
     out = Ok r <->
     exists httpReq resp body wire,
       built = Ok httpReq /\ send httpReq = Ok resp
       /\ http.Response_ReadAll resp = (body, None)
       /\ http.Response_StatusCode resp = 200
       /\ Unmarshal body = Ok wire /\ r = to_response wire)
  /\ (forall e, built = Err e -> out = Err e)
  /\ (forall httpReq e,
        built = Ok httpReq -> send httpReq = Err e -> out = Err (send_error e))
  /\ (forall httpReq resp body e,
        built = Ok httpReq -> send httpReq = Ok resp ->
        http.Response_ReadAll resp = (body, Some e) ->
        out = Err (read_error e))
  /\ (forall httpReq resp body,
        built = Ok httpReq -> send httpReq = Ok resp ->
        http.Response_ReadAll resp = (body, None) ->
        http.Response_StatusCode resp <> 200 ->
        out = Err (api_error (http.Response_StatusCode resp) body))
  /\ (forall httpReq resp body e,
        built = Ok httpReq -> send httpReq = Ok resp ->
        http.Response_ReadAll resp = (body, None) ->
        http.Response_StatusCode resp = 200 ->
        Unmarshal body = Err e ->
        out = Err (decode_error e)).

(** The steps of [Chat] after the request is built. *)
Definition chat_steps {W : Type} (built : result http.Request)
    (send : http.Request -> result http.Response)
    (Unmarshal : string -> result W) (to_response : W -> ChatResponse)
  : result ChatResponse :=
  match built with
  | Err e => Err e
  | Ok httpReq =>
      match send httpReq with
      | Err e => Err (send_error e)
      | Ok resp =>
          let '(respBody, err) := http.Response_ReadAll resp in
          match err with
          | Some e => Err (read_error e)
          | None =>
              if negb (http.Response_StatusCode resp =? http.StatusOK)%Z then
                Err (api_error (http.Response_StatusCode resp) respBody)
              else
                match Unmarshal respBody with
                | Err e => Err (decode_error e)
                | Ok wire => Ok (to_response wire)
                end
          end
      end
  end.

Module Transport.

(** A transport that answers every request with the given status, body
    and lines, and a [url.Parse] that prints every URL as it is
    written. *)
Definition answers (status : int) (body : string) (lines : list string)
    (client : positive) (r : http.Request) : result http.Response :=
  Ok {| http.Response_StatusCode := status;
        http.Response_ReadAll := (body, None);
        http.Response_Lines := lines |}.

Definition parse_as_written (url : string) : result string := Ok url.

Definition marshal_braces {A : Type} (r : A) : result string := Ok "{}".

Definition two_chunks : list string :=
  [Sample.data (Sample.doc_content "Hel");
   "";
   Sample.data Sample.doc_content_and_finish;
   "data: [DONE]"].

(** A streamed ollama response with the given content, not done. *)
Definition ollama_part (content : string) : ollama.api_ChatResponse :=
  {| ollama.api_ChatResponse_CreatedAt := 0;
     ollama.api_ChatResponse_Message :=
       {| ollama.api_Message_Role := "assistant";
          ollama.api_Message_Content := content;
          ollama.api_Message_ToolCalls := [] |};
     ollama.api_ChatResponse_DoneReason := "";
     ollama.api_ChatResponse_Done := false;
     ollama.api_ChatResponse_PromptEvalCount := 0;
     ollama.api_ChatResponse_EvalCount := 0 |}.

End Transport.

(** ** Further definitions: where a streamed event comes from *)

(** [ev] is the event the openai decoder builds from the first choice of
    the chunk that one data line of [lines] decodes to. *)
Definition openai_first_choice
    (Unmarshal : string -> result openai.openaiStreamChunk)
    (lines : list string) (ev : StreamEvent) : Prop :=
  exists line chunk choice others,
    In line lines /\ is_data line = true /\ payload line <> "[DONE]"
    /\ Unmarshal (payload line) = Ok chunk
    /\ openai.openaiStreamChunk_Choices chunk = choice :: others
    /\ ev = openai.event_of_choice choice.

(** [ev] is the error event for a data line of [lines] whose payload
    does not decode. *)
Definition openai_parse_failure
    (Unmarshal : string -> result openai.openaiStreamChunk)
    (lines : list string) (ev : StreamEvent) : Prop :=
  exists line e,
    In line lines /\ is_data line = true /\ payload line <> "[DONE]"
    /\ Unmarshal (payload line) = Err e /\ ev = openai.parse_error e.

Definition mistral_first_choice
    (Unmarshal : string -> result mistral.mistralStreamChunk)
    (lines : list string) (ev : StreamEvent) : Prop :=
  exists line chunk choice others,
    In line lines /\ is_data line = true /\ payload line <> "[DONE]"
    /\ Unmarshal (payload line) = Ok chunk
    /\ mistral.mistralStreamChunk_Choices chunk = choice :: others
    /\ ev = mistral.event_of_choice choice.

Definition mistral_parse_failure
    (Unmarshal : string -> result mistral.mistralStreamChunk)
    (lines : list string) (ev : StreamEvent) : Prop :=
  exists line e,
    In line lines /\ is_data line = true /\ payload line <> "[DONE]"
    /\ Unmarshal (payload line) = Err e /\ ev = mistral.parse_error e.

(** [ev] is the event the ollama callback builds from one of the
    responses, and [ev] is the event for the error of the client call. *)
Definition ollama_response_event (Marshal : any -> result string)
    (resps : list ollama.api_ChatResponse) (ev : StreamEvent) : Prop :=
  exists resp, In resp resps /\ ev = ollama.callback_event Marshal resp.

Definition ollama_failure (chat_err : option error) (ev : StreamEvent) : Prop :=
  exists e,
    chat_err = Some e
    /\ ev = {| StreamEvent_Delta := Delta_zero;
               StreamEvent_FinishReason := "";
               StreamEvent_Err := Some e |}.

(** ** Further definitions: the inline messages of an anthropic request *)

(** What the anthropic request mapper makes of one message: nothing of a
    system message (it goes to the system field) or of a message with
    another role than the four; a user message with one text block of a
    user message; a user message with one tool-result block of a tool
    message; of an assistant message, nothing when it has neither content
    nor tool calls, and otherwise an assistant message with its text
    block, if the content is not empty, followed by one tool-use block
    per tool call. *)
Definition inline_of (Unmarshal_any : string -> result any) (msg : Message)
  : list anthropic.anthropicMessage :=
  if Message_Role msg =? "user" then
    [{| anthropic.anthropicMessage_Role := "user";
        anthropic.anthropicMessage_Content :=
          [anthropic.content_text (Message_Content msg)] |}]
  else if Message_Role msg =? "tool" then
    [{| anthropic.anthropicMessage_Role := "user";
        anthropic.anthropicMessage_Content :=
          [anthropic.content_tool_result (Message_ToolCallID msg)
             (Message_Content msg)] |}]
  else if Message_Role msg =? "assistant" then
    match Message_Content msg =? "", Message_ToolCalls msg with
    | true, [] => []
    | _, _ =>
        [{| anthropic.anthropicMessage_Role := "assistant";
            anthropic.anthropicMessage_Content :=
              (if Message_Content msg =? "" then []
               else [anthropic.content_text (Message_Content msg)])
              ++ map (fun tc =>
                        anthropic.content_tool_use (ToolCall_ID tc)
                          (FunctionCall_Name (ToolCall_Function tc))
                          (anthropic.tool_input Unmarshal_any tc))
                     (Message_ToolCalls msg) |}]
    end
  else [].

(** * Properties *)

(** ** Integers *)

Lemma wrap_exact (z : Z) : in_int z -> wrap z = z.
Proof.
  unfold in_int, min_int, max_int, wrap. intros Hz.
  rewrite Z.mod_small; lia.
Qed.

Lemma wrap_succ (z : Z) : int_incr (wrap z) = wrap (z + 1).
Proof.
  unfold int_incr, int_add, wrap.
  replace ((z + 2 ^ 63) mod 2 ^ 64 - 2 ^ 63 + 1 + 2 ^ 63)
    with ((z + 2 ^ 63) mod 2 ^ 64 + 1) by lia.
  replace (z + 1 + 2 ^ 63) with ((z + 2 ^ 63) + 1) by lia.
  rewrite Zplus_mod_idemp_l. reflexivity.
Qed.

Lemma int_of_nat_succ (n : nat) : int_incr (int_of_nat n) = int_of_nat (S n).
Proof.
  unfold int_of_nat. rewrite wrap_succ. f_equal. lia.
Qed.

Lemma int_of_nat_exact (n : nat) :
  Z.of_nat n < 2 ^ 63 -> int_of_nat n = Z.of_nat n.
Proof.
  intros Hn. apply wrap_exact. unfold in_int, min_int, max_int. lia.
Qed.

Lemma int_add_exact (a b : int) : in_int (a + b) -> int_add a b = a + b.
Proof. apply wrap_exact. Qed.

(** ** The stream reader *)

Lemma Recv_done (s : StreamReader) (events : channel) :
  done s = true -> Recv s events = (closed_result, s, events).
Proof. intros Hd. unfold Recv. rewrite Hd. reflexivity. Qed.

Lemma Recv_n_done (n : nat) (s : StreamReader) (events : channel) :
  done s = true -> Forall (eq closed_result) (Recv_n n s events).
Proof.
  intros Hd. induction n as [|n IH]; simpl.
  - constructor.
  - rewrite (Recv_done s events Hd). constructor; [reflexivity | exact IH].
Qed.

Lemma Recv_exhausted (s : StreamReader) :
  fst (fst (Recv s [])) = closed_result /\ done (snd (fst (Recv s []))) = true.
Proof.
  unfold Recv. destruct (done s) eqn:Hd; simpl; auto.
Qed.

(** C9: a [Recv] that finds the events channel closed and drained returns
    the stream-closed error, and so does each of any number of later
    [Recv] calls on the reader it leaves, whatever the channel holds. *)
Theorem Recv_closed_is_sticky (s : StreamReader) (n : nat) (later : channel) :
  fst (fst (Recv s [])) = closed_result
  /\ Forall (eq closed_result) (Recv_n n (snd (fst (Recv s []))) later).
Proof.
  destruct (Recv_exhausted s) as [Hr Hd]. split.
  - exact Hr.
  - apply Recv_n_done. exact Hd.
Qed.

(** Closing a response body twice completes and leaves the resources as
    one close does. *)
Lemma Close_body_twice (w : resources) :
  let s := NewStreamReader (Some (fun w => Returns (Body_Close w))) in
  bind (Close s w) (Close s) = Close s w.
Proof. reflexivity. Qed.

Lemma Close_nil_hook (w : resources) :
  let s := NewStreamReader None in
  bind (Close s w) (Close s) = Returns w.
Proof. reflexivity. Qed.

(** C2: on the reader the ollama [Stream] returns, the first [Close] closes
    the [done] channel and the second one closes it again, which panics;
    the hook is not released idempotently. *)
Theorem ollama_Close_twice_panics
    (Marshal : any -> result string) (resps : list ollama.api_ChatResponse)
    (chat_err : option error) :
  match ollama.Stream Marshal (Ok tt) resps chat_err with
  | Ok (s, _) =>
      Close s resources_init
      = Returns {| body_closed := false; done_chan := sig_closed |}
      /\ bind (Close s resources_init) (Close s)
         = Panics "close of closed channel"
  | Err _ => False
  end.
Proof. simpl. split; reflexivity. Qed.

(** ** The ollama provider's configuration *)

(** C10: [WithAPIKey] on the ollama provider returns its receiver and
    leaves the heap, hence every field of the provider, as it was, for
    every key; whatever runs next runs as if the call had not been made. *)
Theorem ollama_WithAPIKey_discards_key
    (key : string) (o : ollama.ref) (h : ollama.heap) :
  ollama.WithAPIKey o key h = Returns (o, h)
  /\ (forall (A : Type) (next : ollama.ref * ollama.heap -> outcome A),
        bind (ollama.WithAPIKey o key h) next = next (o, h))
  /\ (forall Unmarshal_map Sprint req stream,
        bind (ollama.WithAPIKey o key h)
             (fun '(o', h') => ollama.chatReq Unmarshal_map Sprint o' h' req stream)
        = ollama.chatReq Unmarshal_map Sprint o h req stream).
Proof. repeat split. Qed.

(** ** Token limits *)

(** C8: the anthropic request carries the caller's [MaxTokens] when it is
    set and 8192 when it is not; the openai and mistral requests carry the
    caller's optional value as it is, absent when unset. *)
Theorem maxTokens_default_only_for_anthropic
    (Unmarshal_any : string -> result any) (req : ChatRequest) (model : string) :
  anthropic.Request_MaxTokens (anthropic.toAnthropicRequest Unmarshal_any req model)
  = match ChatRequest_MaxTokens req with
    | Some n => n
    | None => 8192
    end
  /\ openai.Request_MaxTokens (openai.toOpenAIRequest req model)
     = ChatRequest_MaxTokens req
  /\ mistral.Request_MaxTokens (mistral.toMistralRequest req model)
     = ChatRequest_MaxTokens req.
Proof.
  repeat split.
  unfold anthropic.toAnthropicRequest.
  destruct (fold_left _ _ _) as [systemPrompt messages]. reflexivity.
Qed.

(** ** Usage *)

(** C6, counterexample: the openai mapper returns the wire total, here 5
    for 1 prompt token and 1 completion token. *)
Lemma openai_total_is_not_the_sum :
  let u := ChatResponse_Usage (openai.toProviderResponse Sample.openai_response) in
  Usage_PromptTokens u = 1 /\ Usage_CompletionTokens u = 1
  /\ Usage_TotalTokens u = 5
  /\ Usage_TotalTokens u <> int_add (Usage_PromptTokens u) (Usage_CompletionTokens u)
  /\ Usage_TotalTokens u <> Usage_PromptTokens u + Usage_CompletionTokens u.
Proof. vm_compute. repeat split; discriminate. Qed.

(** C6, amended: the anthropic and ollama mappers compute the total as
    prompt plus completion tokens with Go's [+] on [int], which is the
    sum of the two integers whenever that sum is an [int]; the openai and
    mistral mappers copy the three usage fields of the wire response. *)
Theorem usage_total_tokens :
  (forall Marshal resp,
     let u := ChatResponse_Usage (anthropic.toProviderResponse Marshal resp) in
     Usage_TotalTokens u = int_add (Usage_PromptTokens u) (Usage_CompletionTokens u)
     /\ (in_int (Usage_PromptTokens u + Usage_CompletionTokens u) ->
         Usage_TotalTokens u = Usage_PromptTokens u + Usage_CompletionTokens u))
  /\ (forall Marshal now resp model,
        let u := ChatResponse_Usage (ollama.toProviderResponse Marshal now resp model) in
        Usage_TotalTokens u
        = int_add (Usage_PromptTokens u) (Usage_CompletionTokens u)
        /\ (in_int (Usage_PromptTokens u + Usage_CompletionTokens u) ->
            Usage_TotalTokens u = Usage_PromptTokens u + Usage_CompletionTokens u))
  /\ (forall resp,
        let u := ChatResponse_Usage (openai.toProviderResponse resp) in
        let w := openai.Response_Usage resp in
        Usage_PromptTokens u = openai.openaiUsage_PromptTokens w
        /\ Usage_CompletionTokens u = openai.openaiUsage_CompletionTokens w
        /\ Usage_TotalTokens u = openai.openaiUsage_TotalTokens w)
  /\ (forall resp,
        let u := ChatResponse_Usage (mistral.toProviderResponse resp) in
        let w := mistral.Response_Usage resp in
        Usage_PromptTokens u = mistral.mistralUsage_PromptTokens w
        /\ Usage_CompletionTokens u = mistral.mistralUsage_CompletionTokens w
        /\ Usage_TotalTokens u = mistral.mistralUsage_TotalTokens w).
Proof.
  split; [|split; [|split]].
  - intros Marshal resp. unfold anthropic.toProviderResponse.
    destruct (anthropic.add_content _ _ _ _ _) as [content toolCalls].
    cbn. split; [reflexivity | apply int_add_exact].
  - intros Marshal now resp model. cbn.
    split; [reflexivity | apply int_add_exact].
  - intros resp. cbn. auto.
  - intros resp. cbn. auto.
Qed.

Lemma usage_total_tokens_witness :
  Usage_TotalTokens
    (ChatResponse_Usage
       (anthropic.toProviderResponse Sample.marshal_null Sample.anthropic_capped))
  = 10 + 1.
Proof.
  apply (proj1 usage_total_tokens Sample.marshal_null Sample.anthropic_capped).
  unfold in_int, min_int, max_int. cbn. lia.
Defined.

(** ** The system prompt of the anthropic request *)

Section AnthropicSystem.

Variable Unmarshal_any : string -> result any.

Let add := anthropic.add_message Unmarshal_any.

Lemma add_message_system (acc : string * list anthropic.anthropicMessage)
    (m : Message) :
  is_system m = true -> add acc m = (Message_Content m, snd acc).
Proof.
  unfold is_system, add, anthropic.add_message. intros Hm.
  destruct acc as [s ms]. rewrite Hm. reflexivity.
Qed.

Lemma add_message_not_system (acc : string * list anthropic.anthropicMessage)
    (m : Message) :
  is_system m = false -> fst (add acc m) = fst acc.
Proof.
  unfold is_system, add, anthropic.add_message. intros Hm.
  destruct acc as [s ms]. rewrite Hm.
  destruct (Message_Role m =? RoleUser); [reflexivity|].
  destruct (Message_Role m =? RoleAssistant).
  - destruct (anthropic.assistant_content Unmarshal_any m); reflexivity.
  - destruct (Message_Role m =? RoleTool); reflexivity.
Qed.

(** The inline messages do not depend on the system prompt so far. *)
Lemma add_message_snd (s s' : string) (ms : list anthropic.anthropicMessage)
    (m : Message) :
  snd (add (s, ms) m) = snd (add (s', ms) m).
Proof.
  unfold add, anthropic.add_message.
  destruct (Message_Role m =? RoleSystem); [reflexivity|].
  destruct (Message_Role m =? RoleUser); [reflexivity|].
  destruct (Message_Role m =? RoleAssistant).
  - destruct (anthropic.assistant_content Unmarshal_any m); reflexivity.
  - destruct (Message_Role m =? RoleTool); reflexivity.
Qed.

Lemma fold_no_system (post : list Message) :
  forallb not_system post = true ->
  forall acc, fst (fold_left add post acc) = fst acc.
Proof.
  induction post as [|m post IH]; simpl; intros Hpost acc.
  - reflexivity.
  - apply andb_prop in Hpost as [Hm Hpost].
    rewrite (IH Hpost). apply add_message_not_system.
    unfold not_system in Hm. now apply negb_true_iff in Hm.
Qed.

Lemma fold_skips_system (msgs : list Message) :
  forall s s' ms,
    snd (fold_left add msgs (s, ms))
    = snd (fold_left add (List.filter not_system msgs) (s', ms)).
Proof.
  induction msgs as [|m msgs IH]; cbn [fold_left List.filter]; intros s s' ms.
  - reflexivity.
  - unfold not_system at 1. destruct (is_system m) eqn:Hm; cbn [negb fold_left List.filter].
    + rewrite (add_message_system (s, ms) m Hm). cbn [snd]. apply IH.
    + pose proof (add_message_snd s s' ms m) as Hsnd.
      destruct (add (s, ms) m) as [s1 ms1], (add (s', ms) m) as [s2 ms2].
      simpl in Hsnd. subst ms2. apply IH.
Qed.

Lemma system_of_request (req : ChatRequest) (model : string) :
  anthropic.Request_System (anthropic.toAnthropicRequest Unmarshal_any req model)
  = fst (fold_left add (ChatRequest_Messages req) ("", [])).
Proof.
  unfold anthropic.toAnthropicRequest, add.
  destruct (fold_left _ _ _) as [s ms]. reflexivity.
Qed.

Lemma messages_of_request (req : ChatRequest) (model : string) :
  anthropic.Request_Messages (anthropic.toAnthropicRequest Unmarshal_any req model)
  = snd (fold_left add (ChatRequest_Messages req) ("", [])).
Proof.
  unfold anthropic.toAnthropicRequest, add.
  destruct (fold_left _ _ _) as [s ms]. reflexivity.
Qed.

End AnthropicSystem.

(** C3, counterexample: with the system messages "be terse" and then
    "be kind", the system field holds "be kind", not the first one. *)
Lemma anthropic_first_system_does_not_win :
  map Message_Content (List.filter is_system (ChatRequest_Messages Sample.two_systems))
  = ["be terse"; "be kind"]
  /\ anthropic.Request_System
       (anthropic.toAnthropicRequest Sample.unmarshal_none Sample.two_systems "m")
     = "be kind"
  /\ anthropic.Request_System
       (anthropic.toAnthropicRequest Sample.unmarshal_none Sample.two_systems "m")
     <> "be terse".
Proof. vm_compute. repeat split; discriminate. Qed.

(** C3, amended: the anthropic mapper places the content of the last
    system message in the system field: each system message overwrites
    the one before it. No system message becomes an inline message: the
    inline messages are those of the request without its system
    messages. *)
Theorem anthropic_last_system_wins
    (Unmarshal_any : string -> result any) (req : ChatRequest) (model : string)
    (pre post : list Message) (m : Message) :
  ChatRequest_Messages req = pre ++ m :: post ->
  is_system m = true ->
  forallb not_system post = true ->
  anthropic.Request_System (anthropic.toAnthropicRequest Unmarshal_any req model)
  = Message_Content m
  /\ anthropic.Request_Messages (anthropic.toAnthropicRequest Unmarshal_any req model)
     = anthropic.Request_Messages
         (anthropic.toAnthropicRequest Unmarshal_any
            (with_Messages req (List.filter not_system (ChatRequest_Messages req)))
            model).
Proof.
  intros Hmsgs Hm Hpost. split.
  - rewrite system_of_request, Hmsgs, fold_left_app. simpl.
    rewrite (fold_no_system Unmarshal_any post Hpost).
    now rewrite add_message_system.
  - rewrite !messages_of_request. simpl. apply fold_skips_system.
Qed.

Lemma anthropic_last_system_wins_witness :
  anthropic.Request_System
    (anthropic.toAnthropicRequest Sample.unmarshal_none Sample.two_systems "m")
  = "be kind".
Proof.
  apply (anthropic_last_system_wins Sample.unmarshal_none Sample.two_systems "m"
           [Sample.message RoleSystem "be terse"]
           [Sample.message RoleUser "2+2?"]
           (Sample.message RoleSystem "be kind")); reflexivity.
Defined.

(** ** Finish reasons of the anthropic vendor *)

Lemma response_finishReason_other (r : string) :
  r <> "tool_use" -> r <> "end_turn" -> anthropic.response_finishReason r = r.
Proof.
  intros Htool Hend. unfold anthropic.response_finishReason.
  apply String.eqb_neq in Htool, Hend. now rewrite Htool, Hend.
Qed.

Lemma finish_reasons_anthropic (Marshal : any -> result string)
    (resp : anthropic.anthropicMessageResponse) :
  finish_reasons (anthropic.toProviderResponse Marshal resp)
  = [anthropic.response_finishReason (anthropic.Response_StopReason resp)].
Proof.
  unfold anthropic.toProviderResponse.
  destruct (anthropic.add_content _ _ _ _ _) as [content toolCalls]. reflexivity.
Qed.

Lemma on_message_delta (st : anthropic.decoder)
    (f : anthropic.anthropicStreamEvent) (delta : anthropic.anthropicDelta) :
  anthropic.anthropicStreamEvent_Type f = "message_delta" ->
  anthropic.anthropicStreamEvent_Delta f = Some delta ->
  anthropic.anthropicDelta_StopReason delta <> "" ->
  anthropic.on_event st f
  = anthropic.Continue
      [anthropic.finish_event
         (anthropic.stream_finishReason (anthropic.anthropicDelta_StopReason delta))]
      st.
Proof.
  intros Htype Hdelta Hstop. unfold anthropic.on_event.
  rewrite Htype, Hdelta. simpl.
  apply String.eqb_neq in Hstop. now rewrite Hstop.
Qed.

(** C4: for the anthropic stop reason "max_tokens", which says that the
    token cap was hit, the response mapper and the stream decoder both
    report "max_tokens", not the unified reason "length". *)
Theorem anthropic_max_tokens_is_not_length :
  finish_reasons (anthropic.toProviderResponse Sample.marshal_null Sample.anthropic_capped)
  = ["max_tokens"]
  /\ map StreamEvent_FinishReason
       (anthropic.Stream_goroutine Sample.anthropic_Unmarshal
          [Sample.data Sample.doc_capped])
     = ["max_tokens"]
  /\ "max_tokens" <> "length".
Proof. vm_compute. repeat split; discriminate. Qed.

(** What the two anthropic paths do with a stop reason: the response
    mapper maps "end_turn" to "stop" and "tool_use" to "tool_calls" and
    passes every other stop reason through as it is; for a
    [message_delta] frame with a non-empty stop reason other than
    "end_turn" the stream decoder sends one finish event with the reason
    the mapper gives, and goes on. *)
Lemma anthropic_finish_reason_mapping
    (Marshal : any -> result string) (resp : anthropic.anthropicMessageResponse)
    (Unmarshal : string -> result anthropic.anthropicStreamEvent)
    (line : string) (rest : list string) (st : anthropic.decoder)
    (f : anthropic.anthropicStreamEvent) (delta : anthropic.anthropicDelta) :
  HasPrefix line "data: " = true ->
  Unmarshal (TrimPrefix line "data: ") = Ok f ->
  anthropic.anthropicStreamEvent_Type f = "message_delta" ->
  anthropic.anthropicStreamEvent_Delta f = Some delta ->
  anthropic.anthropicDelta_StopReason delta <> "" ->
  anthropic.anthropicDelta_StopReason delta <> "end_turn" ->
  finish_reasons (anthropic.toProviderResponse Marshal resp)
  = [anthropic.response_finishReason (anthropic.Response_StopReason resp)]
  /\ anthropic.response_finishReason "end_turn" = "stop"
  /\ anthropic.response_finishReason "tool_use" = "tool_calls"
  /\ anthropic.response_finishReason "max_tokens" = "max_tokens"
  /\ (forall r, r <> "tool_use" -> r <> "end_turn" ->
        anthropic.response_finishReason r = r)
  /\ anthropic.Stream_loop Unmarshal (line :: rest) st
     = anthropic.finish_event
         (anthropic.response_finishReason (anthropic.anthropicDelta_StopReason delta))
       :: anthropic.Stream_loop Unmarshal rest st.
Proof.
  intros Hdata Hf Htype Hdelta Hstop Hend.
  split; [apply finish_reasons_anthropic|].
  do 3 (split; [reflexivity|]).
  split; [exact response_finishReason_other|].
  cbn [anthropic.Stream_loop]. rewrite Hdata, Hf. cbn [negb].
  rewrite (on_message_delta st f delta Htype Hdelta Hstop). cbn [app].
  do 2 f_equal.
  unfold anthropic.stream_finishReason, anthropic.response_finishReason.
  apply String.eqb_neq in Hend. rewrite Hend.
  reflexivity.
Qed.

Lemma anthropic_finish_reason_mapping_example :
  anthropic.Stream_loop Sample.anthropic_Unmarshal
    [Sample.data Sample.doc_capped; Sample.data Sample.doc_message_stop]
    anthropic.decoder_init
  = anthropic.finish_event (anthropic.response_finishReason "max_tokens")
    :: anthropic.Stream_loop Sample.anthropic_Unmarshal
         [Sample.data Sample.doc_message_stop] anthropic.decoder_init.
Proof.
  apply (anthropic_finish_reason_mapping Sample.marshal_null Sample.anthropic_capped
           Sample.anthropic_Unmarshal (Sample.data Sample.doc_capped)
           [Sample.data Sample.doc_message_stop] anthropic.decoder_init
           Sample.capped
           {| anthropic.anthropicDelta_Type := "";
              anthropic.anthropicDelta_Text := "";
              anthropic.anthropicDelta_PartialJSON := "";
              anthropic.anthropicDelta_StopReason := "max_tokens" |});
    try reflexivity; discriminate.
Qed.

(** ** What a stream event carries *)

Lemma text_event_at_most_one (text : string) :
  at_most_one (anthropic.text_event text).
Proof.
  unfold at_most_one, populated, has_delta, has_finish, has_error. simpl.
  destruct (text =? ""); simpl; split; auto.
Qed.

Lemma finish_event_at_most_one (reason : string) :
  at_most_one (anthropic.finish_event reason).
Proof.
  unfold at_most_one, populated, has_delta, has_finish, has_error. simpl.
  destruct (reason =? ""); simpl; split; auto.
Qed.

Lemma on_event_at_most_one (st : anthropic.decoder)
    (f : anthropic.anthropicStreamEvent) :
  match anthropic.on_event st f with
  | anthropic.Continue sent _ => Forall at_most_one sent
  | anthropic.Return sent => Forall at_most_one sent
  end.
Proof.
  unfold anthropic.on_event.
  repeat match goal with
         | |- context [if ?b then _ else _] => destruct b
         | |- context [match ?o with Some _ => _ | None => _ end] => destruct o
         end;
    repeat first [apply List.Forall_nil | apply List.Forall_cons];
    auto using text_event_at_most_one, finish_event_at_most_one;
    (split; [cbv; lia | reflexivity]).
Qed.

Lemma anthropic_events_at_most_one
    (Unmarshal : string -> result anthropic.anthropicStreamEvent)
    (lines : list string) :
  forall st, Forall at_most_one (anthropic.Stream_loop Unmarshal lines st).
Proof.
  induction lines as [|line rest IH]; intros st; cbn [anthropic.Stream_loop].
  - constructor.
  - destruct (negb (HasPrefix line "data: ")); [apply IH|].
    destruct (Unmarshal _) as [f|e]; [|apply IH].
    pose proof (on_event_at_most_one st f) as Hsent.
    destruct (anthropic.on_event st f) as [sent st'|sent].
    + apply Forall_app. split; [exact Hsent | apply IH].
    + exact Hsent.
Qed.

Lemma openai_event_sources
    (Unmarshal : string -> result openai.openaiStreamChunk) (lines : list string) :
  Forall (fun ev =>
            (has_error ev = true ->
             error_only ev /\ openai_parse_failure Unmarshal lines ev)
            /\ (has_error ev = false -> openai_first_choice Unmarshal lines ev))
         (openai.Stream_goroutine Unmarshal lines).
Proof.
  induction lines as [|line rest IH]; cbn [openai.Stream_goroutine].
  - constructor.
  - assert (Hrest :
      Forall (fun ev =>
                (has_error ev = true ->
                 error_only ev /\ openai_parse_failure Unmarshal (line :: rest) ev)
                /\ (has_error ev = false ->
                    openai_first_choice Unmarshal (line :: rest) ev))
             (openai.Stream_goroutine Unmarshal rest)).
    { revert IH. apply List.Forall_impl. intros ev [Herr Hok]. split.
      - intros H. destruct (Herr H) as [Hal (l & e & Hin & Hrest)].
        split; [exact Hal|]. exists l, e. split; [now right | exact Hrest].
      - intros H. destruct (Hok H) as (l & c & ch & o & Hin & Hrest).
        exists l, c, ch, o. split; [now right | exact Hrest]. }
    destruct (HasPrefix line "data: ") eqn:Hdata; cbn [negb]; [|exact Hrest].
    cbn zeta.
    destruct (String.eqb_spec (TrimPrefix line "data: ") "[DONE]") as [|Hdone];
      [constructor|].
    destruct (Unmarshal _) as [chunk|e] eqn:Hchunk.
    + destruct (openai.openaiStreamChunk_Choices chunk) as [|choice others] eqn:Hc;
        [exact Hrest|].
      constructor; [|exact Hrest].
      split; [discriminate|]. intros _.
      exists line, chunk, choice, others. repeat split; auto. now left.
    + constructor; [|constructor].
      split; [|discriminate]. intros _. split; [split; reflexivity|].
      exists line, e. repeat split; auto. now left.
Qed.

Lemma mistral_event_sources
    (Unmarshal : string -> result mistral.mistralStreamChunk) (lines : list string) :
  Forall (fun ev =>
            (has_error ev = true ->
             error_only ev /\ mistral_parse_failure Unmarshal lines ev)
            /\ (has_error ev = false -> mistral_first_choice Unmarshal lines ev))
         (mistral.Stream_goroutine Unmarshal lines).
Proof.
  induction lines as [|line rest IH]; cbn [mistral.Stream_goroutine].
  - constructor.
  - assert (Hrest :
      Forall (fun ev =>
                (has_error ev = true ->
                 error_only ev /\ mistral_parse_failure Unmarshal (line :: rest) ev)
                /\ (has_error ev = false ->
                    mistral_first_choice Unmarshal (line :: rest) ev))
             (mistral.Stream_goroutine Unmarshal rest)).
    { revert IH. apply List.Forall_impl. intros ev [Herr Hok]. split.
      - intros H. destruct (Herr H) as [Hal (l & e & Hin & Hrest)].
        split; [exact Hal|]. exists l, e. split; [now right | exact Hrest].
      - intros H. destruct (Hok H) as (l & c & ch & o & Hin & Hrest).
        exists l, c, ch, o. split; [now right | exact Hrest]. }
    destruct (HasPrefix line "data: ") eqn:Hdata; cbn [negb]; [|exact Hrest].
    cbn zeta.
    destruct (String.eqb_spec (TrimPrefix line "data: ") "[DONE]") as [|Hdone];
      [constructor|].
    destruct (Unmarshal _) as [chunk|e] eqn:Hchunk.
    + destruct (mistral.mistralStreamChunk_Choices chunk) as [|choice others] eqn:Hc;
        [exact Hrest|].
      constructor; [|exact Hrest].
      split; [discriminate|]. intros _.
      exists line, chunk, choice, others. repeat split; auto. now left.
    + constructor; [|constructor].
      split; [|discriminate]. intros _. split; [split; reflexivity|].
      exists line, e. repeat split; auto. now left.
Qed.

Lemma ollama_event_sources (Marshal : any -> result string)
    (resps : list ollama.api_ChatResponse) (chat_err : option error) :
  Forall (fun ev =>
            (has_error ev = true -> error_only ev /\ ollama_failure chat_err ev)
            /\ (has_error ev = false -> ollama_response_event Marshal resps ev))
         (ollama.Stream_goroutine Marshal resps chat_err).
Proof.
  unfold ollama.Stream_goroutine. apply Forall_app. split.
  - apply List.Forall_forall. intros ev Hev.
    apply List.in_map_iff in Hev as [resp [<- Hin]].
    split; [discriminate | intros _; now exists resp].
  - destruct chat_err as [e|]; [|constructor].
    constructor; [|constructor].
    split; [|discriminate]. intros _. split; [split; reflexivity|].
    now exists e.
Qed.

(** C1, counterexample: the openai and mistral decoders copy content and
    finish reason from the same chunk; on a chunk that has both, the
    event has both. *)
Lemma openai_event_with_delta_and_finish :
  openai.Stream_goroutine Sample.openai_Unmarshal
    [Sample.data Sample.doc_content_and_finish]
  = [{| StreamEvent_Delta := {| Delta_Content := "4"; Delta_ToolCalls := [] |};
        StreamEvent_FinishReason := "stop";
        StreamEvent_Err := None |}]
  /\ Forall (fun ev => has_delta ev = true /\ has_finish ev = true
                       /\ populated ev = 2%nat)
       (openai.Stream_goroutine Sample.openai_Unmarshal
          [Sample.data Sample.doc_content_and_finish])
  /\ Forall (fun ev => populated ev = 2%nat)
       (mistral.Stream_goroutine Sample.mistral_Unmarshal
          [Sample.data Sample.doc_content_and_finish]).
Proof. vm_compute. repeat constructor. Qed.

(** C1, amended: every event of the anthropic decoder has at most one of
    delta and finish reason populated and no error. In the openai,
    mistral and ollama decoders an event with an error has neither a
    delta nor a finish reason, and is the error event of a data line of
    the stream whose payload does not decode (of the failed client call
    for ollama); an event without an error is the one built from the
    first choice of the chunk that a data line of the stream decodes to
    (from one of the callback's responses for ollama), whose content,
    tool calls and finish reason it carries together. *)
Theorem stream_event_fields :
  (forall Unmarshal lines,
     Forall at_most_one (anthropic.Stream_goroutine Unmarshal lines))
  /\ (forall Unmarshal lines,
        Forall (fun ev =>
                  (has_error ev = true ->
                   error_only ev /\ openai_parse_failure Unmarshal lines ev)
                  /\ (has_error ev = false ->
                      openai_first_choice Unmarshal lines ev))
               (openai.Stream_goroutine Unmarshal lines))
  /\ (forall Unmarshal lines,
        Forall (fun ev =>
                  (has_error ev = true ->
                   error_only ev /\ mistral_parse_failure Unmarshal lines ev)
                  /\ (has_error ev = false ->
                      mistral_first_choice Unmarshal lines ev))
               (mistral.Stream_goroutine Unmarshal lines))
  /\ (forall Marshal resps chat_err,
        Forall (fun ev =>
                  (has_error ev = true ->
                   error_only ev /\ ollama_failure chat_err ev)
                  /\ (has_error ev = false ->
                      ollama_response_event Marshal resps ev))
               (ollama.Stream_goroutine Marshal resps chat_err)).
Proof.
  split; [|split; [|split]].
  - intros Unmarshal lines. apply anthropic_events_at_most_one.
  - exact openai_event_sources.
  - exact mistral_event_sources.
  - exact ollama_event_sources.
Qed.

Lemma stream_event_fields_witness :
  Forall at_most_one
    (anthropic.Stream_goroutine Sample.anthropic_Unmarshal
       [Sample.data (Sample.doc_tool_start None "toolu_a" "lookup");
        Sample.data Sample.doc_capped; Sample.data Sample.doc_message_stop])
  /\ length
       (anthropic.Stream_goroutine Sample.anthropic_Unmarshal
          [Sample.data (Sample.doc_tool_start None "toolu_a" "lookup");
           Sample.data Sample.doc_capped; Sample.data Sample.doc_message_stop])
     = 3%nat
  /\ openai_first_choice Sample.openai_Unmarshal
       [Sample.data (Sample.doc_content "Hel"); Sample.data Sample.doc_array]
       (openai.event_of_choice
          {| openai.openaiStreamChoice_Index := 0;
             openai.openaiStreamChoice_Delta :=
               {| openai.openaiDeltaMessage_Role := "";
                  openai.openaiDeltaMessage_Content := "Hel";
                  openai.openaiDeltaMessage_ToolCalls := [] |};
             openai.openaiStreamChoice_FinishReason := "" |})
  /\ openai_parse_failure Sample.openai_Unmarshal
       [Sample.data (Sample.doc_content "Hel"); Sample.data Sample.doc_array]
       (openai.parse_error Sample.array_error).
Proof.
  split; [apply (proj1 stream_event_fields)|]. split; [reflexivity|].
  pose proof (proj1 (proj2 stream_event_fields) Sample.openai_Unmarshal
                [Sample.data (Sample.doc_content "Hel");
                 Sample.data Sample.doc_array]) as Hopenai.
  inversion Hopenai as [|ev1 evs1 [_ Hdata] Htail]; subst.
  inversion Htail as [|ev2 evs2 [Herror _] _]; subst.
  split; [now apply Hdata | now apply Herror].
Defined.

(** ** Undecodable frames and framing noise *)

Section OpenAIFraming.

Variable Unmarshal : string -> result openai.openaiStreamChunk.

Let Stream := openai.Stream_goroutine Unmarshal.

Lemma openai_non_data (line : string) (rest : list string) :
  is_data line = false -> Stream (line :: rest) = Stream rest.
Proof.
  unfold is_data, Stream. intros Hline. cbn [openai.Stream_goroutine].
  now rewrite Hline.
Qed.

Lemma openai_undecodable (line : string) (rest : list string) (e : error) :
  is_data line = true -> payload line <> "[DONE]" ->
  Unmarshal (payload line) = Err e ->
  Stream (line :: rest) = [openai.parse_error e].
Proof.
  unfold is_data, payload, Stream. intros Hline Hdone He.
  cbn [openai.Stream_goroutine]. rewrite Hline. cbn [negb].
  apply String.eqb_neq in Hdone. now rewrite Hdone, He.
Qed.

(** A line stands for the same events whatever follows it. *)
Lemma openai_cons_congr (line : string) (xs ys : list string) :
  Stream xs = Stream ys -> Stream (line :: xs) = Stream (line :: ys).
Proof.
  unfold Stream. intros Heq. cbn [openai.Stream_goroutine].
  now rewrite Heq.
Qed.

Lemma openai_goes_on_app (pre rest : list string) :
  forallb (goes_on Unmarshal) pre = true ->
  Stream (pre ++ rest) = Stream pre ++ Stream rest
  /\ Forall (fun ev => has_error ev = false) (Stream pre).
Proof.
  unfold Stream.
  induction pre as [|line pre IH]; cbn [forallb app openai.Stream_goroutine].
  - intros _. split; [reflexivity | constructor].
  - intros Hpre. apply andb_prop in Hpre as [Hline Hpre].
    specialize (IH Hpre) as [IHapp IHerr]. revert Hline.
    unfold goes_on, is_data, payload.
    destruct (HasPrefix line "data: "); cbn [negb orb]; [|now split].
    cbn zeta. destruct (_ =? "[DONE]"); cbn [negb andb]; [discriminate|].
    destruct (Unmarshal _) as [chunk|e]; [intros _|discriminate].
    destruct (openai.openaiStreamChunk_Choices chunk) as [|choice ?];
      [now split|].
    split; [now rewrite IHapp | constructor; [reflexivity | exact IHerr]].
Qed.

Lemma openai_skip_anywhere (pre rest : list string) (line : string) :
  is_data line = false -> Stream (pre ++ line :: rest) = Stream (pre ++ rest).
Proof.
  intros Hline. induction pre as [|l pre IH]; cbn [app].
  - now apply openai_non_data.
  - now apply openai_cons_congr.
Qed.

End OpenAIFraming.

Section MistralFraming.

Variable Unmarshal : string -> result mistral.mistralStreamChunk.

Let Stream := mistral.Stream_goroutine Unmarshal.

Lemma mistral_non_data (line : string) (rest : list string) :
  is_data line = false -> Stream (line :: rest) = Stream rest.
Proof.
  unfold is_data, Stream. intros Hline. cbn [mistral.Stream_goroutine].
  now rewrite Hline.
Qed.

Lemma mistral_undecodable (line : string) (rest : list string) (e : error) :
  is_data line = true -> payload line <> "[DONE]" ->
  Unmarshal (payload line) = Err e ->
  Stream (line :: rest) = [mistral.parse_error e].
Proof.
  unfold is_data, payload, Stream. intros Hline Hdone He.
  cbn [mistral.Stream_goroutine]. rewrite Hline. cbn [negb].
  apply String.eqb_neq in Hdone. now rewrite Hdone, He.
Qed.

Lemma mistral_cons_congr (line : string) (xs ys : list string) :
  Stream xs = Stream ys -> Stream (line :: xs) = Stream (line :: ys).
Proof.
  unfold Stream. intros Heq. cbn [mistral.Stream_goroutine].
  now rewrite Heq.
Qed.

Lemma mistral_goes_on_app (pre rest : list string) :
  forallb (goes_on Unmarshal) pre = true ->
  Stream (pre ++ rest) = Stream pre ++ Stream rest
  /\ Forall (fun ev => has_error ev = false) (Stream pre).
Proof.
  unfold Stream.
  induction pre as [|line pre IH]; cbn [forallb app mistral.Stream_goroutine].
  - intros _. split; [reflexivity | constructor].
  - intros Hpre. apply andb_prop in Hpre as [Hline Hpre].
    specialize (IH Hpre) as [IHapp IHerr]. revert Hline.
    unfold goes_on, is_data, payload.
    destruct (HasPrefix line "data: "); cbn [negb orb]; [|now split].
    cbn zeta. destruct (_ =? "[DONE]"); cbn [negb andb]; [discriminate|].
    destruct (Unmarshal _) as [chunk|e]; [intros _|discriminate].
    destruct (mistral.mistralStreamChunk_Choices chunk) as [|choice ?];
      [now split|].
    split; [now rewrite IHapp | constructor; [reflexivity | exact IHerr]].
Qed.

Lemma mistral_skip_anywhere (pre rest : list string) (line : string) :
  is_data line = false -> Stream (pre ++ line :: rest) = Stream (pre ++ rest).
Proof.
  intros Hline. induction pre as [|l pre IH]; cbn [app].
  - now apply mistral_non_data.
  - now apply mistral_cons_congr.
Qed.

End MistralFraming.

Section AnthropicFraming.

Variable Unmarshal : string -> result anthropic.anthropicStreamEvent.

Let Stream_loop := anthropic.Stream_loop Unmarshal.

Lemma anthropic_skip (line : string) (rest : list string)
    (st : anthropic.decoder) :
  skipped Unmarshal line -> Stream_loop (line :: rest) st = Stream_loop rest st.
Proof.
  unfold skipped, is_data, payload, Stream_loop.
  intros Hline. cbn [anthropic.Stream_loop].
  destruct (HasPrefix line "data: "); cbn [negb]; [|reflexivity].
  destruct Hline as [Hline | [e He]]; [discriminate | now rewrite He].
Qed.

Lemma anthropic_skip_anywhere (pre rest : list string) (line : string) :
  skipped Unmarshal line ->
  forall st, Stream_loop (pre ++ line :: rest) st = Stream_loop (pre ++ rest) st.
Proof.
  intros Hline. induction pre as [|l pre IH]; intros st; cbn [app].
  - now apply anthropic_skip.
  - unfold Stream_loop in *. cbn [anthropic.Stream_loop].
    destruct (negb (HasPrefix l "data: ")); [apply IH|].
    destruct (Unmarshal _) as [f|e]; [|apply IH].
    destruct (anthropic.on_event st f) as [sent st'|sent]; [|reflexivity].
    now rewrite IH.
Qed.

End AnthropicFraming.

(** C5, counterexample: the anthropic decoder passes over a data line
    whose payload does not decode, sends no error event for it and
    processes the next line; the openai decoder stops there. *)
Lemma anthropic_undecodable_frame_is_skipped :
  is_data (Sample.data Sample.doc_array) = true
  /\ Sample.anthropic_Unmarshal (payload (Sample.data Sample.doc_array))
     = Err Sample.array_error
  /\ anthropic.Stream_goroutine Sample.anthropic_Unmarshal
       [Sample.data Sample.doc_array; Sample.data Sample.doc_message_stop]
     = [anthropic.finish_event "stop"]
  /\ openai.Stream_goroutine Sample.openai_Unmarshal
       [Sample.data Sample.doc_array; Sample.data (Sample.doc_content "Hel")]
     = [openai.parse_error Sample.array_error].
Proof. vm_compute. repeat split. Qed.

(** C5, amended: in the openai and mistral decoders a data line that is
    not the [DONE] sentinel and whose payload does not decode makes the
    decoder send one error event and stop: when the loop reaches it, the
    events are those of the lines before it, none of them an error,
    followed by that one error event, whatever follows the line. The
    anthropic decoder passes over such a line with no event and goes on.
    In all three a line that is not a data line is passed over with no
    event. *)
Theorem undecodable_frames_and_framing_noise :
  (forall Unmarshal pre line rest e,
     forallb (goes_on Unmarshal) pre = true ->
     is_data line = true -> payload line <> "[DONE]" ->
     Unmarshal (payload line) = Err e ->
     openai.Stream_goroutine Unmarshal (pre ++ line :: rest)
     = openai.Stream_goroutine Unmarshal pre ++ [openai.parse_error e]
     /\ Forall (fun ev => has_error ev = false)
               (openai.Stream_goroutine Unmarshal pre))
  /\ (forall Unmarshal pre line rest e,
        forallb (goes_on Unmarshal) pre = true ->
        is_data line = true -> payload line <> "[DONE]" ->
        Unmarshal (payload line) = Err e ->
        mistral.Stream_goroutine Unmarshal (pre ++ line :: rest)
        = mistral.Stream_goroutine Unmarshal pre ++ [mistral.parse_error e]
        /\ Forall (fun ev => has_error ev = false)
                  (mistral.Stream_goroutine Unmarshal pre))
  /\ (forall Unmarshal pre line rest,
        is_data line = false ->
        openai.Stream_goroutine Unmarshal (pre ++ line :: rest)
        = openai.Stream_goroutine Unmarshal (pre ++ rest))
  /\ (forall Unmarshal pre line rest,
        is_data line = false ->
        mistral.Stream_goroutine Unmarshal (pre ++ line :: rest)
        = mistral.Stream_goroutine Unmarshal (pre ++ rest))
  /\ (forall Unmarshal pre line rest st,
        skipped Unmarshal line ->
        anthropic.Stream_loop Unmarshal (pre ++ line :: rest) st
        = anthropic.Stream_loop Unmarshal (pre ++ rest) st).
Proof.
  split; [|split; [|split; [|split]]].
  - intros Unmarshal pre line rest e Hpre Hline Hdone He.
    destruct (openai_goes_on_app Unmarshal pre (line :: rest) Hpre) as [-> Herr].
    now rewrite (openai_undecodable Unmarshal line rest e).
  - intros Unmarshal pre line rest e Hpre Hline Hdone He.
    destruct (mistral_goes_on_app Unmarshal pre (line :: rest) Hpre) as [-> Herr].
    now rewrite (mistral_undecodable Unmarshal line rest e).
  - intros Unmarshal pre line rest. apply openai_skip_anywhere.
  - intros Unmarshal pre line rest. apply mistral_skip_anywhere.
  - intros Unmarshal pre line rest st Hline. now apply anthropic_skip_anywhere.
Qed.

Lemma undecodable_frames_and_framing_noise_witness :
  openai.Stream_goroutine Sample.openai_Unmarshal
    ([Sample.data (Sample.doc_content "Hel")]
     ++ Sample.data Sample.doc_array
     :: [Sample.data Sample.doc_content_and_finish])
  = openai.Stream_goroutine Sample.openai_Unmarshal
      [Sample.data (Sample.doc_content "Hel")]
    ++ [openai.parse_error Sample.array_error]
  /\ anthropic.Stream_loop Sample.anthropic_Unmarshal
       ([] ++ Sample.data Sample.doc_array :: [Sample.data Sample.doc_message_stop])
       anthropic.decoder_init
     = anthropic.Stream_loop Sample.anthropic_Unmarshal
         ([] ++ [Sample.data Sample.doc_message_stop]) anthropic.decoder_init.
Proof.
  destruct undecodable_frames_and_framing_noise as (Hopenai & _ & _ & _ & Hanthropic).
  split.
  - apply (Hopenai Sample.openai_Unmarshal
             [Sample.data (Sample.doc_content "Hel")]
             (Sample.data Sample.doc_array)
             [Sample.data Sample.doc_content_and_finish] Sample.array_error);
      [reflexivity | reflexivity | discriminate | reflexivity].
  - apply Hanthropic. right. exists Sample.array_error. reflexivity.
Defined.

(** ** Tool-call indices of the anthropic decoder *)

Lemma Stream_loop_run
    (Unmarshal : string -> result anthropic.anthropicStreamEvent)
    (lines : list string) :
  forall st,
    anthropic.Stream_loop Unmarshal lines st
    = anthropic.run (anthropic.frames Unmarshal lines) st.
Proof.
  induction lines as [|line rest IH]; intros st;
    cbn [anthropic.Stream_loop anthropic.frames].
  - reflexivity.
  - destruct (negb (HasPrefix line "data: ")); [apply IH|].
    destruct (Unmarshal _) as [f|e]; [|apply IH].
    cbn [anthropic.run].
    destruct (anthropic.on_event st f) as [sent st'|sent]; [|reflexivity].
    now rewrite IH.
Qed.

Lemma frames_length
    (Unmarshal : string -> result anthropic.anthropicStreamEvent)
    (lines : list string) :
  (length (anthropic.frames Unmarshal lines) <= length lines)%nat.
Proof.
  induction lines as [|line rest IH]; cbn [anthropic.frames length].
  - lia.
  - destruct (negb (HasPrefix line "data: ")); [lia|].
    destruct (Unmarshal _); cbn [length]; lia.
Qed.

Lemma calls_app (xs ys : list StreamEvent) : calls (xs ++ ys) = calls xs ++ calls ys.
Proof. unfold calls. now rewrite map_app, concat_app. Qed.

Ltac case_string :=
  match goal with
  | |- context [String.eqb ?t ?c] =>
      destruct (String.eqb_spec t c); subst; cbn
  end.

(** What one frame contributes, and how it moves the counter. *)
Lemma on_event_fragments (st : anthropic.decoder)
    (f : anthropic.anthropicStreamEvent) (k : nat) :
  anthropic.currentToolCallIndex st = int_of_nat k ->
  match anthropic.on_event st f with
  | anthropic.Return sent => fragments k [f] = [] /\ is_stop f = true /\ calls sent = []
  | anthropic.Continue sent st' =>
      is_stop f = false
      /\ map id_index (calls sent) = fragments k [f]
      /\ anthropic.currentToolCallIndex st'
         = int_of_nat (match tool_start_block f with Some _ => S k | None => k end)
  end.
Proof.
  intros Hk.
  destruct f as [type index delta block message].
  unfold anthropic.on_event, fragments, is_stop, tool_start_block, arguments_index.
  cbn.
  case_string.
  - destruct delta as [delta|]; cbn; [|auto].
    repeat case_string; auto.
    + exfalso. congruence.
    + destruct index; cbn; auto.
  - case_string.
    + destruct block as [block|]; cbn; [|auto].
      case_string; [|auto].
      rewrite Hk, int_of_nat_succ. destruct index; cbn; auto.
    + case_string; [auto|].
      case_string; [|auto].
      destruct delta as [delta|]; cbn; [|auto].
      case_string; cbn; auto.
Qed.

Lemma fragments_cons (k : nat) (f : anthropic.anthropicStreamEvent)
    (rest : list anthropic.anthropicStreamEvent) :
  fragments k (f :: rest)
  = if is_stop f then []
    else fragments k [f]
         ++ fragments (match tool_start_block f with Some _ => S k | None => k end) rest.
Proof.
  cbn [fragments]. destruct (is_stop f); [reflexivity|].
  destruct (tool_start_block f); [reflexivity|].
  destruct (arguments_index f); reflexivity.
Qed.

Lemma run_fragments (fs : list anthropic.anthropicStreamEvent) :
  forall st k,
    anthropic.currentToolCallIndex st = int_of_nat k ->
    map id_index (calls (anthropic.run fs st)) = fragments k fs.
Proof.
  induction fs as [|f rest IH]; intros st k Hk.
  - reflexivity.
  - rewrite fragments_cons. cbn [anthropic.run].
    pose proof (on_event_fragments st f k Hk) as Hf.
    destruct (anthropic.on_event st f) as [sent st'|sent].
    + destruct Hf as (-> & Hsent & Hk').
      now rewrite calls_app, map_app, Hsent, (IH st' _ Hk').
    + destruct Hf as (_ & -> & ->). reflexivity.
Qed.

(** Without wire indices the fragments are the starts, numbered from the
    counter on. *)
Lemma fragments_numbered (fs : list anthropic.anthropicStreamEvent) :
  forallb no_wire_index fs = true ->
  forall k,
    map snd (fragments k fs)
    = map int_of_nat (seq k (length (fragments k fs))).
Proof.
  induction fs as [|f rest IH]; intros Hfs k.
  - reflexivity.
  - cbn [forallb] in Hfs. apply andb_prop in Hfs as [Hf Hrest].
    cbn [fragments]. destruct (is_stop f); [reflexivity|].
    unfold no_wire_index in Hf.
    destruct (tool_start_block f) as [block|].
    + destruct (anthropic.anthropicStreamEvent_Index f); [discriminate|].
      cbn [map snd length seq]. now rewrite (IH Hrest (S k)).
    + unfold arguments_index.
      destruct (anthropic.anthropicStreamEvent_Index f); [discriminate|].
      destruct (_ =? "content_block_delta"); [|now apply IH].
      destruct (anthropic.anthropicStreamEvent_Delta f) as [delta|]; [|now apply IH].
      destruct (_ =? "input_json_delta"); now apply IH.
Qed.

Lemma fragments_length (fs : list anthropic.anthropicStreamEvent) :
  forall k, (length (fragments k fs) <= length fs)%nat.
Proof.
  induction fs as [|f rest IH]; intros k; cbn [fragments length].
  - lia.
  - destruct (is_stop f); [cbn; lia|].
    destruct (tool_start_block f).
    + cbn [length]. specialize (IH (S k)). lia.
    + destruct (arguments_index f); cbn [length]; specialize (IH k); lia.
Qed.

Lemma map_int_of_nat_exact (k n : nat) :
  Z.of_nat (k + n) < 2 ^ 63 ->
  map int_of_nat (seq k n) = map Z.of_nat (seq k n).
Proof.
  intros Hbound. apply map_ext_in. intros i Hi. apply in_seq in Hi.
  apply int_of_nat_exact. lia.
Qed.

(** C7: the decoder fills its identifier table and never looks an
    identifier up. Two tool-call starts with the identifier "toolu_a" get
    the indices 0 and 1, so the fragments of one call do not carry one
    index; and the index 0, given to "toolu_a" from the counter, is given
    again to "toolu_b", whose frame carries the wire index 0. *)
Theorem anthropic_index_not_stable_nor_fresh :
  map id_index
    (calls (anthropic.Stream_goroutine Sample.anthropic_Unmarshal
              [Sample.data (Sample.doc_tool_start None "toolu_a" "lookup");
               Sample.data (Sample.doc_tool_start None "toolu_a" "lookup")]))
  = [("toolu_a", 0); ("toolu_a", 1)]
  /\ map id_index
       (calls (anthropic.Stream_goroutine Sample.anthropic_Unmarshal
                 [Sample.data (Sample.doc_tool_start None "toolu_a" "lookup");
                  Sample.data (Sample.doc_tool_start (Some "0") "toolu_b" "lookup")]))
     = [("toolu_a", 0); ("toolu_b", 0)].
Proof. vm_compute. split; reflexivity. Qed.

(** The identifiers and indices the anthropic decoder sends, frame by
    frame: a start fragment for each tool-use start frame before
    [message_stop], with the block's identifier and, as index, the
    frame's wire index when it has one and otherwise the value of the
    counter; an argument fragment for each argument delta that has a wire
    index, with that index and no identifier. In a stream of fewer than
    2^63 lines whose frames carry no wire index the fragments are the
    starts, numbered 0, 1, 2, ... in order. *)
Lemma anthropic_tool_call_indices
    (Unmarshal : string -> result anthropic.anthropicStreamEvent)
    (lines : list string) :
  let sent := calls (anthropic.Stream_goroutine Unmarshal lines) in
  map id_index sent = fragments 0 (anthropic.frames Unmarshal lines)
  /\ (forallb no_wire_index (anthropic.frames Unmarshal lines) = true ->
      Z.of_nat (length lines) < 2 ^ 63 ->
      map ToolCall_Index sent = map Z.of_nat (seq 0 (length sent))
      /\ NoDup (map ToolCall_Index sent)).
Proof.
  cbn zeta. unfold anthropic.Stream_goroutine. rewrite Stream_loop_run.
  assert (Hsent : map id_index
                    (calls (anthropic.run (anthropic.frames Unmarshal lines)
                              anthropic.decoder_init))
                  = fragments 0 (anthropic.frames Unmarshal lines))
    by now apply run_fragments.
  split; [exact Hsent|]. intros Hwire Hlen.
  assert (Hidx : map ToolCall_Index
                   (calls (anthropic.run (anthropic.frames Unmarshal lines)
                             anthropic.decoder_init))
                 = map Z.of_nat
                     (seq 0 (length (calls (anthropic.run
                                               (anthropic.frames Unmarshal lines)
                                               anthropic.decoder_init))))).
  { replace (length (calls _))
      with (length (fragments 0 (anthropic.frames Unmarshal lines)))
      by (rewrite <- Hsent; now rewrite length_map).
    rewrite <- map_int_of_nat_exact.
    - rewrite <- fragments_numbered by exact Hwire.
      rewrite <- Hsent, map_map. reflexivity.
    - pose proof (fragments_length (anthropic.frames Unmarshal lines) 0).
      pose proof (frames_length Unmarshal lines). lia. }
  split; [exact Hidx|].
  rewrite Hidx. apply NoDup_fmap_2; [intros x y; lia | apply NoDup_seq].
Qed.

Lemma anthropic_tool_call_indices_example :
  map ToolCall_Index
    (calls (anthropic.Stream_goroutine Sample.anthropic_Unmarshal
              [Sample.data (Sample.doc_tool_start None "toolu_a" "lookup");
               Sample.data (Sample.doc_tool_start None "toolu_b" "lookup")]))
  = [0; 1].
Proof.
  destruct (anthropic_tool_call_indices Sample.anthropic_Unmarshal
              [Sample.data (Sample.doc_tool_start None "toolu_a" "lookup");
               Sample.data (Sample.doc_tool_start None "toolu_b" "lookup")])
    as [_ Hnumbered].
  destruct Hnumbered as [Hidx _]; [reflexivity | reflexivity |].
  exact Hidx.
Qed.

(** * Further properties of the code *)

(** ** Draining a reader *)

Lemma Recv_n_closed (n : nat) (s : StreamReader) (events : channel) :
  done s = true -> Recv_n n s events = repeat closed_result n.
Proof.
  intros Hd. induction n as [|n IH]; cbn [Recv_n repeat].
  - reflexivity.
  - rewrite (Recv_done s events Hd). now rewrite IH.
Qed.

(** X1: a reader that has not seen the end of its channel returns the
    pending events one per [Recv], in order, each with its own error as
    the error result, an error event included: reading goes on after it.
    Once the channel is drained every further [Recv] returns the closed
    result. *)
Theorem Recv_n_drains (s : StreamReader) (events : channel) (k : nat) :
  done s = false ->
  Recv_n (length events + k) s events
  = map delivered events ++ repeat closed_result k.
Proof.
  revert s. induction events as [|ev rest IH]; intros s Hd.
  - cbn [length Nat.add map app]. destruct k as [|k]; [reflexivity|].
    cbn [Recv_n repeat]. unfold Recv. rewrite Hd.
    f_equal. now apply Recv_n_closed.
  - cbn [length Nat.add map app Recv_n]. unfold Recv. rewrite Hd.
    unfold delivered at 1.
    destruct (StreamEvent_Err ev) as [e|]; f_equal; now apply IH.
Qed.

Lemma Recv_n_drains_witness :
  Recv_n (2 + 1) (NewStreamReader None)
    [openai.parse_error Sample.array_error; anthropic.finish_event "stop"]
  = [delivered (openai.parse_error Sample.array_error);
     delivered (anthropic.finish_event "stop"); closed_result].
Proof.
  apply (Recv_n_drains (NewStreamReader None)
           [openai.parse_error Sample.array_error; anthropic.finish_event "stop"] 1).
  reflexivity.
Defined.

(** ** The decoders with the [DONE] sentinel *)

Lemma removelast_cons_without_error (ev : StreamEvent) (evs : list StreamEvent) :
  without_error ev -> Forall without_error (removelast evs) ->
  Forall without_error (removelast (ev :: evs)).
Proof.
  intros Hev Hevs. destruct evs as [|ev' evs]; [constructor|].
  change (removelast (ev :: ev' :: evs)) with (ev :: removelast (ev' :: evs)).
  now constructor.
Qed.

Lemma openai_error_last
    (Unmarshal : string -> result openai.openaiStreamChunk) (lines : list string) :
  Forall without_error (removelast (openai.Stream_goroutine Unmarshal lines)).
Proof.
  induction lines as [|line rest IH]; cbn [openai.Stream_goroutine].
  - constructor.
  - destruct (negb (HasPrefix line "data: ")); [exact IH|]. cbn zeta.
    destruct (_ =? "[DONE]"); [constructor|].
    destruct (Unmarshal _) as [chunk|e]; [|constructor].
    destruct (openai.openaiStreamChunk_Choices chunk) as [|choice ?]; [exact IH|].
    now apply removelast_cons_without_error.
Qed.

Lemma mistral_error_last
    (Unmarshal : string -> result mistral.mistralStreamChunk) (lines : list string) :
  Forall without_error (removelast (mistral.Stream_goroutine Unmarshal lines)).
Proof.
  induction lines as [|line rest IH]; cbn [mistral.Stream_goroutine].
  - constructor.
  - destruct (negb (HasPrefix line "data: ")); [exact IH|]. cbn zeta.
    destruct (_ =? "[DONE]"); [constructor|].
    destruct (Unmarshal _) as [chunk|e]; [|constructor].
    destruct (mistral.mistralStreamChunk_Choices chunk) as [|choice ?]; [exact IH|].
    now apply removelast_cons_without_error.
Qed.

Lemma ollama_error_last (Marshal : any -> result string)
    (resps : list ollama.api_ChatResponse) (chat_err : option error) :
  Forall without_error (removelast (ollama.Stream_goroutine Marshal resps chat_err)).
Proof.
  unfold ollama.Stream_goroutine.
  induction resps as [|resp rest IH]; cbn [map app].
  - destruct chat_err; constructor.
  - now apply removelast_cons_without_error.
Qed.

(** X2: in the streams of the openai, mistral and ollama producers only
    the last event can carry an error: an error event ends the stream,
    and there is at most one. *)
Theorem error_event_is_last :
  (forall Unmarshal lines,
     Forall without_error (removelast (openai.Stream_goroutine Unmarshal lines)))
  /\ (forall Unmarshal lines,
        Forall without_error (removelast (mistral.Stream_goroutine Unmarshal lines)))
  /\ (forall Marshal resps chat_err,
        Forall without_error
               (removelast (ollama.Stream_goroutine Marshal resps chat_err))).
Proof.
  split; [exact openai_error_last | split].
  - exact mistral_error_last.
  - exact ollama_error_last.
Qed.

Lemma openai_done (Unmarshal : string -> result openai.openaiStreamChunk)
    (rest : list string) :
  openai.Stream_goroutine Unmarshal (done_line :: rest) = [].
Proof. reflexivity. Qed.

Lemma mistral_done (Unmarshal : string -> result mistral.mistralStreamChunk)
    (rest : list string) :
  mistral.Stream_goroutine Unmarshal (done_line :: rest) = [].
Proof. reflexivity. Qed.

(** X3: when the openai or mistral decoder reaches the line
    [data: [DONE]] it stops without sending an event: the events are
    those of the lines before the sentinel, the lines after it are not
    read, and no finish reason is made up for the end of the stream. *)
Theorem done_sentinel_stops_silently :
  (forall Unmarshal pre rest,
     forallb (goes_on Unmarshal) pre = true ->
     openai.Stream_goroutine Unmarshal (pre ++ done_line :: rest)
     = openai.Stream_goroutine Unmarshal pre)
  /\ (forall Unmarshal pre rest,
        forallb (goes_on Unmarshal) pre = true ->
        mistral.Stream_goroutine Unmarshal (pre ++ done_line :: rest)
        = mistral.Stream_goroutine Unmarshal pre).
Proof.
  split; intros Unmarshal pre rest Hpre.
  - destruct (openai_goes_on_app Unmarshal pre (done_line :: rest) Hpre) as [-> _].
    rewrite openai_done. apply app_nil_r.
  - destruct (mistral_goes_on_app Unmarshal pre (done_line :: rest) Hpre) as [-> _].
    rewrite mistral_done. apply app_nil_r.
Qed.

Lemma done_sentinel_stops_silently_witness :
  openai.Stream_goroutine Sample.openai_Unmarshal
    ([Sample.data (Sample.doc_content "Hel")]
     ++ done_line :: [Sample.data Sample.doc_content_and_finish])
  = openai.Stream_goroutine Sample.openai_Unmarshal
      [Sample.data (Sample.doc_content "Hel")].
Proof.
  apply (proj1 done_sentinel_stops_silently Sample.openai_Unmarshal
           [Sample.data (Sample.doc_content "Hel")]
           [Sample.data Sample.doc_content_and_finish]).
  reflexivity.
Defined.

Lemma on_event_sends_at_most_one (st : anthropic.decoder)
    (f : anthropic.anthropicStreamEvent) :
  match anthropic.on_event st f with
  | anthropic.Continue sent _ => (length sent <= 1)%nat
  | anthropic.Return sent => (length sent <= 1)%nat
  end.
Proof.
  unfold anthropic.on_event.
  repeat match goal with
         | |- context [if ?b then _ else _] => destruct b
         | |- context [match ?o with Some _ => _ | None => _ end] => destruct o
         end; cbn [length]; lia.
Qed.

(** X4: each of the three line decoders sends at most one event per data
    line, and none for the other lines. *)
Theorem at_most_one_event_per_data_line (lines : list string) :
  (forall Unmarshal,
     (length (openai.Stream_goroutine Unmarshal lines)
      <= length (List.filter is_data lines))%nat)
  /\ (forall Unmarshal,
        (length (mistral.Stream_goroutine Unmarshal lines)
         <= length (List.filter is_data lines))%nat)
  /\ (forall Unmarshal st,
        (length (anthropic.Stream_loop Unmarshal lines st)
         <= length (List.filter is_data lines))%nat).
Proof.
  unfold is_data. split; [|split]; intros Unmarshal.
  - induction lines as [|line rest IH];
      cbn [openai.Stream_goroutine List.filter length]; [lia|].
    destruct (HasPrefix line "data: "); cbn [negb length]; [|exact IH].
    cbn zeta. destruct (_ =? "[DONE]"); [cbn; lia|].
    destruct (Unmarshal _) as [chunk|e]; [|cbn; lia].
    destruct (openai.openaiStreamChunk_Choices chunk); cbn [length]; lia.
  - induction lines as [|line rest IH];
      cbn [mistral.Stream_goroutine List.filter length]; [lia|].
    destruct (HasPrefix line "data: "); cbn [negb length]; [|exact IH].
    cbn zeta. destruct (_ =? "[DONE]"); [cbn; lia|].
    destruct (Unmarshal _) as [chunk|e]; [|cbn; lia].
    destruct (mistral.mistralStreamChunk_Choices chunk); cbn [length]; lia.
  - induction lines as [|line rest IH]; intros st;
      cbn [anthropic.Stream_loop List.filter length]; [lia|].
    destruct (HasPrefix line "data: "); cbn [negb length]; [|apply IH].
    destruct (Unmarshal _) as [f|e]; [|specialize (IH st); lia].
    pose proof (on_event_sends_at_most_one st f) as Hsent.
    destruct (anthropic.on_event st f) as [sent st'|sent].
    + rewrite length_app. specialize (IH st'). lia.
    + lia.
Qed.

(** ** The anthropic decoder: its state, its end and its text *)

Lemma on_event_same_counter (st st' : anthropic.decoder)
    (f : anthropic.anthropicStreamEvent) :
  anthropic.currentToolCallIndex st = anthropic.currentToolCallIndex st' ->
  match anthropic.on_event st f, anthropic.on_event st' f with
  | anthropic.Continue sent st1, anthropic.Continue sent' st1' =>
      sent = sent'
      /\ anthropic.currentToolCallIndex st1 = anthropic.currentToolCallIndex st1'
  | anthropic.Return sent, anthropic.Return sent' => sent = sent'
  | _, _ => False
  end.
Proof.
  intros Hc. unfold anthropic.on_event. rewrite Hc.
  repeat match goal with
         | |- context [if ?b then _ else _] => destruct b
         | |- context [match ?o with Some _ => _ | None => _ end] => destruct o
         end; cbn; auto.
Qed.

(** X5: what the anthropic decoder sends depends on its state only
    through the counter: the identifier table it fills is never read.
    Two runs from states with the same counter send the same events,
    whatever the tables hold. *)
Theorem anthropic_table_is_never_read
    (Unmarshal : string -> result anthropic.anthropicStreamEvent)
    (lines : list string) (st st' : anthropic.decoder) :
  anthropic.currentToolCallIndex st = anthropic.currentToolCallIndex st' ->
  anthropic.Stream_loop Unmarshal lines st
  = anthropic.Stream_loop Unmarshal lines st'.
Proof.
  revert st st'. induction lines as [|line rest IH]; intros st st' Hc;
    cbn [anthropic.Stream_loop].
  - reflexivity.
  - destruct (negb (HasPrefix line "data: ")); [now apply IH|].
    destruct (Unmarshal _) as [f|e]; [|now apply IH].
    pose proof (on_event_same_counter st st' f Hc) as Hf.
    destruct (anthropic.on_event st f) as [sent st1|sent],
             (anthropic.on_event st' f) as [sent' st1'|sent']; try contradiction.
    + destruct Hf as [-> Hc1]. f_equal. now apply IH.
    + exact Hf.
Qed.

Lemma anthropic_table_is_never_read_witness :
  anthropic.Stream_loop Sample.anthropic_Unmarshal
    [Sample.data (Sample.doc_tool_start None "toolu_a" "lookup")]
    anthropic.decoder_init
  = anthropic.Stream_loop Sample.anthropic_Unmarshal
      [Sample.data (Sample.doc_tool_start None "toolu_a" "lookup")]
      {| anthropic.currentToolCallIndex := 0;
         anthropic.toolCallIndices := {["toolu_a" := 7]} |}.
Proof.
  apply anthropic_table_is_never_read. reflexivity.
Defined.

Lemma on_event_stop (st : anthropic.decoder) (f : anthropic.anthropicStreamEvent) :
  if is_stop f
  then anthropic.on_event st f = anthropic.Return [anthropic.finish_event "stop"]
  else exists sent st', anthropic.on_event st f = anthropic.Continue sent st'.
Proof.
  destruct f as [type index delta block message].
  unfold is_stop, anthropic.on_event. cbn.
  destruct (String.eqb_spec type "message_stop") as [->|Hstop]; [reflexivity|].
  repeat match goal with
         | |- context [if ?b then _ else _] => destruct b
         | |- context [match ?o with Some _ => _ | None => _ end] => destruct o
         end; eauto.
Qed.

(** X6: a [message_stop] frame ends the anthropic stream with the finish
    reason "stop", whatever stop reason was reported before: when no
    earlier frame is a [message_stop], the events are those of the
    earlier lines followed by one finish event "stop", and the lines
    after it are not read. *)
Theorem anthropic_message_stop_ends_stream
    (Unmarshal : string -> result anthropic.anthropicStreamEvent)
    (pre rest : list string) (line : string)
    (f : anthropic.anthropicStreamEvent) (st : anthropic.decoder) :
  forallb not_stop (anthropic.frames Unmarshal pre) = true ->
  is_data line = true ->
  Unmarshal (payload line) = Ok f ->
  is_stop f = true ->
  anthropic.Stream_loop Unmarshal (pre ++ line :: rest) st
  = anthropic.Stream_loop Unmarshal pre st ++ [anthropic.finish_event "stop"].
Proof.
  unfold is_data, payload. intros Hpre Hline Hf Hstop. revert st Hpre.
  induction pre as [|l pre IH]; intros st Hpre;
    cbn [app anthropic.Stream_loop anthropic.frames] in *.
  - rewrite Hline, Hf. cbn [negb].
    pose proof (on_event_stop st f) as Hon. rewrite Hstop in Hon.
    now rewrite Hon.
  - destruct (negb (HasPrefix l "data: ")); [now apply IH|].
    destruct (Unmarshal (TrimPrefix l "data: ")) as [g|e]; [|now apply IH].
    cbn [forallb] in Hpre. apply andb_prop in Hpre as [Hg Hpre].
    pose proof (on_event_stop st g) as Hon.
    unfold not_stop in Hg. apply negb_true_iff in Hg. rewrite Hg in Hon.
    destruct Hon as (sent & st' & ->).
    rewrite (IH st' Hpre). now rewrite app_assoc.
Qed.

Lemma anthropic_message_stop_ends_stream_witness :
  anthropic.Stream_loop Sample.anthropic_Unmarshal
    ([Sample.data Sample.doc_capped]
     ++ Sample.data Sample.doc_message_stop
     :: [Sample.data (Sample.doc_tool_start None "toolu_a" "lookup")])
    anthropic.decoder_init
  = [anthropic.finish_event "max_tokens"; anthropic.finish_event "stop"].
Proof.
  apply (anthropic_message_stop_ends_stream Sample.anthropic_Unmarshal
           [Sample.data Sample.doc_capped]
           [Sample.data (Sample.doc_tool_start None "toolu_a" "lookup")]
           (Sample.data Sample.doc_message_stop) Sample.message_stop
           anthropic.decoder_init); reflexivity.
Defined.

Lemma append_assoc (a b c : string) : (a +:+ b) +:+ c = a +:+ (b +:+ c).
Proof.
  induction a as [|ch a IH]; [reflexivity|].
  change (String ch ((a +:+ b) +:+ c) = String ch (a +:+ (b +:+ c))).
  now rewrite IH.
Qed.

Lemma append_nil_r (a : string) : a +:+ "" = a.
Proof.
  induction a as [|ch a IH]; [reflexivity|].
  change (String ch (a +:+ "") = String ch a). now rewrite IH.
Qed.

Lemma content_of_app (xs ys : list StreamEvent) :
  content_of (xs ++ ys) = content_of xs +:+ content_of ys.
Proof.
  unfold content_of, join. induction xs as [|x xs IH]; cbn [map app fold_right].
  - reflexivity.
  - rewrite IH. symmetry. apply append_assoc.
Qed.

Lemma on_event_text (st : anthropic.decoder) (f : anthropic.anthropicStreamEvent) :
  match anthropic.on_event st f with
  | anthropic.Continue sent _ => content_of sent = frame_text f
  | anthropic.Return sent => content_of sent = ""
  end.
Proof.
  destruct f as [type index delta block message].
  unfold anthropic.on_event, frame_text, content_of, join. cbn.
  case_string.
  - destruct delta as [delta|]; cbn; [|reflexivity].
    case_string; [apply append_nil_r|].
    case_string; [|reflexivity]. now destruct index.
  - repeat match goal with
           | |- context [if ?b then _ else _] => destruct b
           | |- context [match ?o with Some _ => _ | None => _ end] => destruct o
           end; reflexivity.
Qed.

Lemma run_text (fs : list anthropic.anthropicStreamEvent) :
  forall st, content_of (anthropic.run fs st) = join (map frame_text (until_stop fs)).
Proof.
  induction fs as [|f rest IH]; intros st; cbn [anthropic.run until_stop].
  - reflexivity.
  - pose proof (on_event_text st f) as Htext.
    pose proof (on_event_stop st f) as Hstop.
    destruct (is_stop f).
    + rewrite Hstop in *. exact Htext.
    + destruct Hstop as (sent & st' & Hon). rewrite Hon in *.
      rewrite content_of_app, Htext, IH. reflexivity.
Qed.

(** X7: the content a consumer gets by concatenating the content of the
    events of an anthropic stream, in order, is the concatenation of the
    texts of the text deltas decoded before the first [message_stop]:
    no text is lost, repeated or reordered, and no other frame adds
    content. *)
Theorem anthropic_stream_content
    (Unmarshal : string -> result anthropic.anthropicStreamEvent)
    (lines : list string) :
  content_of (anthropic.Stream_goroutine Unmarshal lines)
  = join (map frame_text (until_stop (anthropic.frames Unmarshal lines))).
Proof.
  unfold anthropic.Stream_goroutine. rewrite Stream_loop_run. apply run_text.
Qed.

(** ** The anthropic request mapper *)

Section AnthropicRequest.

Variable Unmarshal_any : string -> result any.

Lemma add_message_inline (s : string) (ms : list anthropic.anthropicMessage)
    (m : Message) :
  Forall inline_ok ms ->
  Forall inline_ok (snd (anthropic.add_message Unmarshal_any (s, ms) m))
  /\ (length (snd (anthropic.add_message Unmarshal_any (s, ms) m))
      <= length ms + (if not_system m then 1 else 0))%nat.
Proof.
  intros Hms. unfold anthropic.add_message, not_system, is_system.
  destruct (Message_Role m =? RoleSystem); cbn [snd negb]; [split; [exact Hms | lia]|].
  destruct (Message_Role m =? RoleUser); cbn [snd].
  { split; [|rewrite length_app; cbn; lia].
    apply Forall_app; split; [exact Hms|].
    apply List.Forall_cons; [|apply List.Forall_nil].
    split; cbn; [now left | discriminate]. }
  destruct (Message_Role m =? RoleAssistant).
  { destruct (anthropic.assistant_content Unmarshal_any m) as [|c cs] eqn:Hc;
      cbn [snd]; [split; [exact Hms | lia]|].
    split; [|rewrite length_app; cbn; lia].
    apply Forall_app; split; [exact Hms|].
    apply List.Forall_cons; [|apply List.Forall_nil].
    split; cbn; [now right | discriminate]. }
  destruct (Message_Role m =? RoleTool); cbn [snd]; [|split; [exact Hms | lia]].
  split; [|rewrite length_app; cbn; lia].
  apply Forall_app; split; [exact Hms|].
  apply List.Forall_cons; [|apply List.Forall_nil].
  split; cbn; [now left | discriminate].
Qed.

Lemma fold_add_message_inline (msgs : list Message) :
  forall s ms,
    Forall inline_ok ms ->
    Forall inline_ok (snd (fold_left (anthropic.add_message Unmarshal_any) msgs (s, ms)))
    /\ (length (snd (fold_left (anthropic.add_message Unmarshal_any) msgs (s, ms)))
        <= length ms + length (List.filter not_system msgs))%nat.
Proof.
  induction msgs as [|m msgs IH]; intros s ms Hms; cbn [fold_left List.filter].
  - split; [exact Hms | cbn; lia].
  - destruct (add_message_inline s ms m Hms) as [Hok Hlen].
    destruct (anthropic.add_message Unmarshal_any (s, ms) m) as [s1 ms1].
    cbn [snd] in Hok, Hlen.
    destruct (IH s1 ms1 Hok) as [IHok IHlen]. split; [exact IHok|].
    destruct (not_system m); cbn [length]; lia.
Qed.

End AnthropicRequest.

Lemma add_message_inline_of (Unmarshal_any : string -> result any)
    (s : string) (ms : list anthropic.anthropicMessage) (m : Message) :
  snd (anthropic.add_message Unmarshal_any (s, ms) m)
  = ms ++ inline_of Unmarshal_any m.
Proof.
  unfold anthropic.add_message, inline_of, anthropic.assistant_content,
    RoleSystem, RoleUser, RoleAssistant, RoleTool.
  destruct (String.eqb_spec (Message_Role m) "system") as [->|_];
    [cbn; now rewrite app_nil_r|].
  destruct (String.eqb_spec (Message_Role m) "user") as [_|_]; [reflexivity|].
  destruct (String.eqb_spec (Message_Role m) "assistant") as [->|_].
  - cbn. destruct (Message_Content m =? ""), (Message_ToolCalls m) as [|tc tcs];
      cbn; now rewrite ?app_nil_r.
  - destruct (String.eqb_spec (Message_Role m) "tool") as [_|_];
      cbn; now rewrite ?app_nil_r.
Qed.

Lemma fold_add_message_inline_of (Unmarshal_any : string -> result any)
    (msgs : list Message) :
  forall s ms,
    snd (fold_left (anthropic.add_message Unmarshal_any) msgs (s, ms))
    = ms ++ concat (map (inline_of Unmarshal_any) msgs).
Proof.
  induction msgs as [|m msgs IH]; intros s ms; cbn [fold_left map concat].
  - now rewrite app_nil_r.
  - pose proof (add_message_inline_of Unmarshal_any s ms m) as Hm.
    destruct (anthropic.add_message Unmarshal_any (s, ms) m) as [s1 ms1].
    cbn [snd] in Hm. subst ms1. rewrite IH. now rewrite app_assoc.
Qed.

(** X8: the inline messages of an anthropic request are, in the order of
    the request, what [inline_of] makes of each message on its own: a
    user message becomes a user message with one text block, a tool
    result becomes a user message with one tool-result block, an
    assistant message becomes an assistant message with its blocks and
    is left out when it has neither content nor tool calls, and a system
    message or a message with an unknown role gives no inline message.
    So every inline message has the role "user" or "assistant" and at
    least one content block, and there are at most as many inline
    messages as messages that are not system messages. *)
Theorem anthropic_inline_messages
    (Unmarshal_any : string -> result any) (req : ChatRequest) (model : string) :
  let messages :=
    anthropic.Request_Messages
      (anthropic.toAnthropicRequest Unmarshal_any req model) in
  messages = concat (map (inline_of Unmarshal_any) (ChatRequest_Messages req))
  /\ Forall inline_ok messages
  /\ (length messages
      <= length (List.filter not_system (ChatRequest_Messages req)))%nat.
Proof.
  cbn zeta. rewrite messages_of_request. split.
  - now rewrite fold_add_message_inline_of.
  - destruct (fold_add_message_inline Unmarshal_any (ChatRequest_Messages req) "" [])
      as [Hok Hlen]; [constructor|].
    split; [exact Hok | cbn in Hlen; lia].
Qed.

(** ** The anthropic response mapper *)

Section AnthropicResponse.

Variable Unmarshal_any : string -> result any.
Variable Marshal : any -> result string.

Lemma add_content_spec (cs : list anthropic.anthropicContent) :
  forall i content toolCalls,
    let r := anthropic.add_content Marshal i cs content toolCalls in
    fst r = content +:+ join (map anthropic.anthropicContent_Text (List.filter is_text cs))
    /\ exists added,
         snd r = toolCalls ++ added
         /\ map ToolCall_Index added = map int_of_nat (tool_use_positions i cs)
         /\ map ToolCall_ID added
            = map anthropic.anthropicContent_ID (List.filter is_tool_use cs)
         /\ map (fun tc => FunctionCall_Name (ToolCall_Function tc)) added
            = map anthropic.anthropicContent_Name (List.filter is_tool_use cs)
         /\ Forall (fun tc => ToolCall_Type tc = "function") added.
Proof.
  unfold is_text, is_tool_use.
  induction cs as [|c rest IH]; intros i content toolCalls;
    cbn [anthropic.add_content List.filter tool_use_positions].
  - cbn. split; [symmetry; apply append_nil_r|].
    exists []. rewrite app_nil_r. repeat split; constructor.
  - unfold is_tool_use.
    destruct (String.eqb_spec (anthropic.anthropicContent_Type c) "text") as [Ht|Ht].
    + rewrite Ht. cbn [String.eqb map].
      replace ("text" =? "tool_use") with false by reflexivity.
      destruct (IH (S i) (content +:+ anthropic.anthropicContent_Text c) toolCalls)
        as [Hfst Hsnd].
      split; [|exact Hsnd]. cbn zeta in *. rewrite Hfst.
      unfold join. cbn [fold_right]. apply append_assoc.
    + destruct (anthropic.anthropicContent_Type c =? "tool_use").
      * match goal with
        | |- context [anthropic.add_content _ _ _ _ (toolCalls ++ [?tc])] =>
            destruct (IH (S i) content (toolCalls ++ [tc])) as [Hfst (added & Hsnd & Hidx & Hid & Hname & Hty)];
            split; [exact Hfst|]; exists (tc :: added)
        end.
        cbn [map]. rewrite Hsnd, <- app_assoc, Hidx, Hid, Hname.
        repeat split. now constructor.
      * apply IH.
Qed.

Lemma assistant_content_round_trip (msg : Message) :
  forall i content toolCalls,
    anthropic.add_content Marshal i
      (anthropic.assistant_content Unmarshal_any msg) content toolCalls
    = (content +:+ Message_Content msg,
       toolCalls
       ++ imap (fun j tc =>
                  {| ToolCall_ID := ToolCall_ID tc;
                     ToolCall_Type := "function";
                     ToolCall_Function :=
                       {| FunctionCall_Name := FunctionCall_Name (ToolCall_Function tc);
                          FunctionCall_Arguments :=
                            reencoded Unmarshal_any Marshal tc |};
                     ToolCall_Index :=
                       int_of_nat
                         (i + (if Message_Content msg =? "" then 0 else 1) + j) |})
            (Message_ToolCalls msg)).
Proof.
  intros i content toolCalls. unfold anthropic.assistant_content.
  assert (Hcalls : forall tcs k acc,
             anthropic.add_content Marshal k
               (map (fun tc =>
                       anthropic.content_tool_use (ToolCall_ID tc)
                         (FunctionCall_Name (ToolCall_Function tc))
                         (anthropic.tool_input Unmarshal_any tc)) tcs)
               (content +:+ Message_Content msg) acc
             = (content +:+ Message_Content msg,
                acc ++ imap (fun j tc =>
                  {| ToolCall_ID := ToolCall_ID tc;
                     ToolCall_Type := "function";
                     ToolCall_Function :=
                       {| FunctionCall_Name := FunctionCall_Name (ToolCall_Function tc);
                          FunctionCall_Arguments :=
                            reencoded Unmarshal_any Marshal tc |};
                     ToolCall_Index := int_of_nat (k + j) |}) tcs)).
  { induction tcs as [|tc tcs IH]; intros k acc; cbn [map anthropic.add_content imap].
    - now rewrite app_nil_r.
    - cbn. rewrite IH, <- app_assoc. cbn [app]. do 3 f_equal.
      + unfold reencoded. now rewrite Nat.add_0_r.
      + apply imap_ext. intros j tc' _. cbn. do 2 f_equal. lia. }
  destruct (Message_Content msg =? "") eqn:Hc.
  - apply String.eqb_eq in Hc. cbn [app].
    specialize (Hcalls (Message_ToolCalls msg) i toolCalls).
    rewrite Hc, append_nil_r in *. rewrite Hcalls. do 2 f_equal.
    apply imap_ext. intros j tc _. do 2 f_equal. lia.
  - cbn [app anthropic.add_content]. cbn.
    rewrite (Hcalls (Message_ToolCalls msg) (S i) toolCalls). do 2 f_equal.
    apply imap_ext. intros j tc _. do 2 f_equal. lia.
Qed.

End AnthropicResponse.

(** X9: the anthropic response mapper returns one choice, whose message
    is from the assistant; its content is the concatenation of the texts
    of the text blocks, in order, and it has one tool call of type
    "function" for each tool-use block, in order, with the block's
    identifier and name and, as index, the position of the block among
    all content blocks of the response. *)
Theorem anthropic_response_message
    (Marshal : any -> result string) (resp : anthropic.anthropicMessageResponse) :
  let blocks := anthropic.Response_Content resp in
  exists msg,
    ChatResponse_Choices (anthropic.toProviderResponse Marshal resp)
    = [{| Choice_Index := 0; Choice_Message := msg;
          Choice_FinishReason :=
            anthropic.response_finishReason (anthropic.Response_StopReason resp) |}]
    /\ Message_Role msg = RoleAssistant
    /\ Message_Content msg
       = join (map anthropic.anthropicContent_Text (List.filter is_text blocks))
    /\ map ToolCall_Index (Message_ToolCalls msg)
       = map int_of_nat (tool_use_positions 0 blocks)
    /\ map ToolCall_ID (Message_ToolCalls msg)
       = map anthropic.anthropicContent_ID (List.filter is_tool_use blocks)
    /\ map (fun tc => FunctionCall_Name (ToolCall_Function tc)) (Message_ToolCalls msg)
       = map anthropic.anthropicContent_Name (List.filter is_tool_use blocks)
    /\ Forall (fun tc => ToolCall_Type tc = "function") (Message_ToolCalls msg).
Proof.
  cbn zeta. unfold anthropic.toProviderResponse.
  destruct (add_content_spec Marshal (anthropic.Response_Content resp) 0 "" [])
    as [Hfst (added & Hsnd & Hidx & Hid & Hname & Hty)].
  destruct (anthropic.add_content _ _ _ _ _) as [content toolCalls].
  cbn [fst snd app] in Hfst, Hsnd. subst content toolCalls.
  eexists. split; [reflexivity|]. cbn. auto 10.
Qed.

Lemma map_imap_same {A B C} (h : B -> C) (h' : A -> C) (l : list A) :
  forall g : nat -> A -> B,
    (forall j x, h (g j x) = h' x) -> map h (imap g l) = map h' l.
Proof.
  induction l as [|x l IH]; intros g Hg; cbn [imap map].
  - reflexivity.
  - rewrite Hg. f_equal. apply IH. intros j y. apply Hg.
Qed.

Lemma map_imap_position {A B C} (h : B -> C) (k : nat -> C) (l : list A) :
  forall (g : nat -> A -> B) (i : nat),
    (forall j x, h (g j x) = k (i + j)%nat) ->
    map h (imap g l) = map k (seq i (length l)).
Proof.
  induction l as [|x l IH]; intros g i Hg; cbn [imap map length seq].
  - reflexivity.
  - rewrite Hg, Nat.add_0_r. f_equal. apply IH. intros j y. cbn.
    rewrite Hg. f_equal. lia.
Qed.

(** X10: an assistant message sent through the anthropic request mapper
    and read back by the response mapper keeps its content and the
    identifiers and names of its tool calls, in order. The arguments come
    back decoded and encoded again, hence unchanged when they are not
    empty and decoding and encoding give the same text back. The index
    of a tool call is not kept: it becomes the position of its block, so
    the calls are numbered from 0, or from 1 when the message has
    content. *)
Theorem anthropic_assistant_round_trip
    (Unmarshal_any : string -> result any) (Marshal : any -> result string)
    (msg : Message) :
  let calls := Message_ToolCalls msg in
  let first := if Message_Content msg =? "" then 0%nat else 1%nat in
  exists back,
    first_message
      (anthropic.toProviderResponse Marshal
         (response_with (anthropic.assistant_content Unmarshal_any msg)))
    = Some back
    /\ Message_Content back = Message_Content msg
    /\ map ToolCall_ID (Message_ToolCalls back) = map ToolCall_ID calls
    /\ map (fun tc => FunctionCall_Name (ToolCall_Function tc)) (Message_ToolCalls back)
       = map (fun tc => FunctionCall_Name (ToolCall_Function tc)) calls
    /\ map (fun tc => FunctionCall_Arguments (ToolCall_Function tc))
           (Message_ToolCalls back)
       = map (reencoded Unmarshal_any Marshal) calls
    /\ map ToolCall_Index (Message_ToolCalls back)
       = map int_of_nat (seq first (length calls))
    /\ (Forall (stable_arguments Unmarshal_any Marshal) calls ->
        map (fun tc => FunctionCall_Arguments (ToolCall_Function tc))
            (Message_ToolCalls back)
        = map (fun tc => FunctionCall_Arguments (ToolCall_Function tc)) calls).
Proof.
  cbn zeta. unfold anthropic.toProviderResponse, first_message, response_with.
  cbn [anthropic.Response_Content].
  rewrite (assistant_content_round_trip Unmarshal_any Marshal msg 0 "" []).
  cbn [app ChatResponse_Choices]. eexists. split; [reflexivity|].
  cbn [Message_Content Message_ToolCalls].
  assert (Hargs : map (fun tc => FunctionCall_Arguments (ToolCall_Function tc))
                      (imap (fun j tc =>
                         {| ToolCall_ID := ToolCall_ID tc;
                            ToolCall_Type := "function";
                            ToolCall_Function :=
                              {| FunctionCall_Name :=
                                   FunctionCall_Name (ToolCall_Function tc);
                                 FunctionCall_Arguments :=
                                   reencoded Unmarshal_any Marshal tc |};
                            ToolCall_Index :=
                              int_of_nat
                                (0 + (if Message_Content msg =? "" then 0 else 1) + j) |})
                         (Message_ToolCalls msg))
                  = map (reencoded Unmarshal_any Marshal) (Message_ToolCalls msg))
    by now apply map_imap_same.
  split; [reflexivity|].
  split; [now apply map_imap_same|].
  split; [now apply map_imap_same|].
  split; [exact Hargs|].
  split; [now apply map_imap_position|].
  intros Hstable. etransitivity; [exact Hargs|].
  apply map_ext_in. intros tc Htc.
  rewrite List.Forall_forall in Hstable.
  destruct (Hstable tc Htc) as (Hne & v & Hv & Hm).
  unfold reencoded, anthropic.tool_input.
  apply String.eqb_neq in Hne. now rewrite Hne, Hv, Hm.
Qed.

Lemma anthropic_assistant_round_trip_witness :
  exists back,
    first_message
      (anthropic.toProviderResponse Sample2.marshal_arguments
         (response_with
            (anthropic.assistant_content Sample2.unmarshal_arguments
               Sample2.assistant_call)))
    = Some back
    /\ map (fun tc => FunctionCall_Arguments (ToolCall_Function tc))
           (Message_ToolCalls back)
       = [Sample2.doc_arguments]
    /\ map ToolCall_Index (Message_ToolCalls back) = [0].
Proof.
  destruct (anthropic_assistant_round_trip Sample2.unmarshal_arguments
              Sample2.marshal_arguments Sample2.assistant_call)
    as (back & Hback & _ & _ & _ & _ & Hindex & Hstable).
  exists back. split; [exact Hback|]. split; [|exact Hindex].
  apply Hstable. constructor; [|constructor].
  split; [discriminate|]. exists Sample2.arguments_value. split; reflexivity.
Defined.

(** ** The openai and mistral mappers *)

Lemma with_function_type_typed (tc : ToolCall) :
  typed tc -> with_function_type tc = tc.
Proof.
  unfold typed, with_function_type. intros Ht. apply String.eqb_neq in Ht.
  rewrite Ht. now destruct tc.
Qed.

Lemma with_function_types_typed (msg : Message) :
  Forall typed (Message_ToolCalls msg) -> with_function_types msg = msg.
Proof.
  intros Ht. unfold with_function_types.
  replace (map with_function_type (Message_ToolCalls msg))
    with (Message_ToolCalls msg); [now destruct msg|].
  induction Ht as [|tc tcs Htc _ IH]; cbn [map]; [reflexivity|].
  now rewrite with_function_type_typed, <- IH.
Qed.

Lemma openai_tool_call_round_trip (tc : ToolCall) :
  openai.of_openaiToolCall (openai.to_openaiToolCall tc) = with_function_type tc.
Proof.
  unfold openai.of_openaiToolCall, openai.to_openaiToolCall, with_function_type,
    openai.default_type. cbn.
  destruct tc as [id type [name args] index]. cbn.
  destruct (String.eqb_spec type "") as [->|Ht]; [reflexivity|].
  apply String.eqb_neq in Ht. now rewrite Ht.
Qed.

Lemma mistral_tool_call_round_trip (tc : ToolCall) :
  mistral.of_mistralToolCall (mistral.to_mistralToolCall tc) = with_function_type tc.
Proof.
  unfold mistral.of_mistralToolCall, mistral.to_mistralToolCall, with_function_type,
    mistral.default_type. cbn.
  destruct tc as [id type [name args] index]. cbn.
  destruct (String.eqb_spec type "") as [->|Ht]; [reflexivity|].
  apply String.eqb_neq in Ht. now rewrite Ht.
Qed.

(** X11: a message that is not a tool result, written by the openai or
    mistral request mapper and read back by the response mapper, comes
    back with its role, content, name, tool-call identifier and tool
    calls; the only change is that a tool call with no type gets the type
    "function". A message whose tool calls all have a type comes back
    unchanged. *)
Theorem openai_mistral_message_round_trip (msg : Message) :
  Message_Role msg <> RoleTool ->
  (exists m,
     openai.to_wireMessage msg = openai.of_openaiMessage m
     /\ openai_read m = with_function_types msg)
  /\ (exists m,
        mistral.to_wireMessage msg = mistral.of_mistralMessage m
        /\ mistral_read m = with_function_types msg)
  /\ (Forall typed (Message_ToolCalls msg) -> with_function_types msg = msg).
Proof.
  intros Hrole. apply String.eqb_neq in Hrole.
  split; [|split; [|apply with_function_types_typed]].
  - unfold openai.to_wireMessage. rewrite Hrole. eexists. split; [reflexivity|].
    unfold openai_read, openai.of_openaiChoice, with_function_types. cbn.
    f_equal.
    + now destruct (String.eqb_spec (Message_Content msg) "").
    + rewrite map_map. apply map_ext. exact openai_tool_call_round_trip.
  - unfold mistral.to_wireMessage. rewrite Hrole. eexists. split; [reflexivity|].
    unfold mistral_read, mistral.of_mistralChoice, with_function_types. cbn.
    f_equal.
    + now destruct (String.eqb_spec (Message_Content msg) "").
    + rewrite map_map. apply map_ext. exact mistral_tool_call_round_trip.
Qed.

Lemma openai_mistral_message_round_trip_witness :
  openai_read
    {| openai.openaiMessage_Role := RoleAssistant;
       openai.openaiMessage_Content := None;
       openai.openaiMessage_ToolCalls :=
         [openai.to_openaiToolCall Sample2.lookup_call];
       openai.openaiMessage_ToolCallID := "";
       openai.openaiMessage_Name := "" |}
  = Sample2.assistant_call.
Proof.
  destruct (openai_mistral_message_round_trip Sample2.assistant_call)
    as [(m & Hwire & Hread) [_ Hsame]]; [discriminate|].
  injection Hwire as <-. rewrite <- Hsame; [exact Hread|].
  constructor; [discriminate | constructor].
Defined.

Lemma openai_wire_message (msg : Message) :
  openai_wire (openai.to_wireMessage msg) = message_wire msg.
Proof.
  unfold openai.to_wireMessage, openai_wire, message_wire.
  destruct (Message_Role msg =? RoleTool); cbn; [reflexivity|].
  now destruct (String.eqb_spec (Message_Content msg) "") as [->|].
Qed.

Lemma mistral_wire_message (msg : Message) :
  mistral_wire (mistral.to_wireMessage msg) = message_wire msg.
Proof.
  unfold mistral.to_wireMessage, mistral_wire, message_wire.
  destruct (Message_Role msg =? RoleTool); cbn; [reflexivity|].
  now destruct (String.eqb_spec (Message_Content msg) "") as [->|].
Qed.

(** X12: the openai and mistral request mappers send every message of the
    request, system messages included, as one wire message, in order and
    with its role, its content and its tool-call identifier; none is
    dropped, merged or moved to another field. *)
Theorem openai_mistral_messages_inline (req : ChatRequest) (model : string) :
  map openai_wire (openai.Request_Messages (openai.toOpenAIRequest req model))
  = map message_wire (ChatRequest_Messages req)
  /\ map mistral_wire (mistral.Request_Messages (mistral.toMistralRequest req model))
     = map message_wire (ChatRequest_Messages req).
Proof.
  cbn. rewrite !map_map. split; apply map_ext.
  - exact openai_wire_message.
  - exact mistral_wire_message.
Qed.

(** ** The ollama mappers *)

Section OllamaCalls.

Variable Marshal : any -> result string.

Lemma convert_calls_numbered (tcs : list ollama.api_ToolCall) :
  forall i,
    length (ollama.convert_calls Marshal i tcs) = length tcs
    /\ map ToolCall_Index (ollama.convert_calls Marshal i tcs)
       = map int_of_nat (seq i (length tcs))
    /\ map ToolCall_ID (ollama.convert_calls Marshal i tcs)
       = map call_id (seq i (length tcs)).
Proof.
  induction tcs as [|tc rest IH]; intros i; cbn [ollama.convert_calls length seq map].
  - auto.
  - destruct (IH (S i)) as (Hlen & Hidx & Hid).
    rewrite Hlen, Hidx, Hid. auto.
Qed.

Lemma convert_calls_from_zero (tcs : list ollama.api_ToolCall) :
  numbered_from_zero (ollama.convert_calls Marshal 0 tcs).
Proof.
  destruct (convert_calls_numbered tcs 0) as (Hlen & Hidx & Hid).
  unfold numbered_from_zero. now rewrite Hlen.
Qed.

Lemma callback_finish (resp : ollama.api_ChatResponse) :
  let r := StreamEvent_FinishReason (ollama.callback_event Marshal resp) in
  if ollama.api_ChatResponse_Done resp then unified_reason r else r = "".
Proof.
  unfold ollama.callback_event, unified_reason. cbn.
  destruct (ollama.api_ChatResponse_Done resp); [|reflexivity].
  destruct (_ =? "length"); [auto|].
  destruct (ollama.convert_calls _ _ _); auto.
Qed.

End OllamaCalls.

(** X13: the ollama mappers never pass a vendor reason through. The
    response mapper's only choice has the finish reason "length" when the
    done reason is "length", else "tool_calls" when the response has tool
    calls, else "stop", whatever the done reason says; a streamed event
    has one of these three exactly when its response is done, and the
    empty reason otherwise. *)
Theorem ollama_finish_reasons
    (Marshal : any -> result string) (now : int64)
    (resp : ollama.api_ChatResponse) (model : string) :
  (exists r,
     finish_reasons (ollama.toProviderResponse Marshal now resp model) = [r]
     /\ unified_reason r
     /\ (r = FinishReasonLength <-> ollama.api_ChatResponse_DoneReason resp = "length")
     /\ (r = FinishReasonToolCalls <->
         ollama.api_ChatResponse_DoneReason resp <> "length" /\ ollama_calls resp <> []))
  /\ (let r := StreamEvent_FinishReason (ollama.callback_event Marshal resp) in
      if ollama.api_ChatResponse_Done resp then unified_reason r else r = "").
Proof.
  split; [|apply callback_finish].
  unfold finish_reasons, ollama.toProviderResponse, unified_reason, ollama_calls. cbn.
  eexists. split; [reflexivity|].
  destruct (String.eqb_spec (ollama.api_ChatResponse_DoneReason resp) "length")
    as [Hlen|Hlen].
  - split; [auto|]. split; [tauto|]. split; [discriminate | tauto].
  - destruct (ollama.api_Message_ToolCalls (ollama.api_ChatResponse_Message resp))
      as [|tc tcs]; cbn [ollama.convert_calls].
    + split; [auto|]. split; [split; [discriminate | tauto]|].
      split; [discriminate | tauto].
    + split; [auto|]. split; [split; [discriminate | tauto]|].
      split; [intros _; split; [exact Hlen | discriminate] | reflexivity].
Qed.

(** X14: the ollama mappers number the tool calls of each response from
    0 and name them call_0, call_1, ... by position, in the response
    mapper and in every streamed event alike: in a stream, the calls of
    two events share indices and identifiers. *)
Theorem ollama_tool_calls_numbered_per_response
    (Marshal : any -> result string) (now : int64)
    (resp : ollama.api_ChatResponse) (model : string)
    (resps : list ollama.api_ChatResponse) (chat_err : option error) :
  (exists msg,
     first_message (ollama.toProviderResponse Marshal now resp model) = Some msg
     /\ length (Message_ToolCalls msg) = length (ollama_calls resp)
     /\ numbered_from_zero (Message_ToolCalls msg))
  /\ Forall (fun ev => numbered_from_zero (Delta_ToolCalls (StreamEvent_Delta ev)))
            (ollama.Stream_goroutine Marshal resps chat_err)
  /\ length (ollama.Stream_goroutine Marshal resps chat_err)
     = (length resps + match chat_err with Some _ => 1 | None => 0 end)%nat.
Proof.
  split; [|split].
  - eexists. split; [reflexivity|]. cbn. split.
    + apply convert_calls_numbered.
    + apply convert_calls_from_zero.
  - unfold ollama.Stream_goroutine. apply Forall_app. split.
    + apply List.Forall_forall. intros ev Hev.
      apply List.in_map_iff in Hev as [r [<- _]]. cbn.
      apply convert_calls_from_zero.
    + destruct chat_err; repeat constructor.
  - unfold ollama.Stream_goroutine. rewrite length_app, length_map.
    now destruct chat_err.
Qed.

(** ** The ollama provider's configuration *)

(** X15: [WithBaseURL] and [WithModel] on the ollama provider commute:
    in either order they return the receiver and leave it with both
    fields set and its HTTP client as it was, and in either order they
    panic on a receiver that is not allocated. Setting a field twice
    keeps the last value. *)
Theorem ollama_setters_commute
    (o : ollama.ref) (h : ollama.heap) (url m url' : string) :
  and_then (ollama.WithBaseURL o url h) (fun o' h' => ollama.WithModel o' m h')
  = and_then (ollama.WithModel o m h) (fun o' h' => ollama.WithBaseURL o' url h')
  /\ and_then (ollama.WithBaseURL o url h)
              (fun o' h' => ollama.WithModel o' m h')
     = match h !! o with
       | Some v =>
           Returns (o, <[o := {| ollama.baseURL := url; ollama.model := m;
                                 ollama.httpClient := ollama.httpClient v |}]> h)
       | None => Panics "nil pointer dereference"
       end
  /\ and_then (ollama.WithBaseURL o url h)
              (fun o' h' => ollama.WithBaseURL o' url' h')
     = ollama.WithBaseURL o url' h.
Proof.
  unfold and_then, ollama.WithBaseURL, ollama.WithModel.
  destruct (h !! o) as [v|] eqn:Hv; cbn [bind]; [|auto].
  rewrite !lookup_insert_eq, !insert_insert_eq. cbn. auto.
Qed.

(** X16: the model of the request the ollama [Chat] and [Stream] build is
    the request's model when it is not empty, and otherwise the model of
    the provider as configured last: the default "llama3.2" on a new
    provider, the argument of [WithModel] after it, the empty string
    included. *)
Theorem ollama_effective_model
    (Unmarshal_map : string -> result any) (Sprint : any -> string)
    (req : ChatRequest) (stream : bool) (h : ollama.heap)
    (fresh : ollama.ref) (client : positive) (m : string) :
  let '(o, h0) := ollama.New fresh client h in
  (exists r,
     ollama.chatReq Unmarshal_map Sprint o h0 req stream = Returns r
     /\ ollama.api_ChatRequest_Model r
        = (if ChatRequest_Model req =? "" then "llama3.2" else ChatRequest_Model req)
     /\ ollama.api_ChatRequest_Stream r = Some stream)
  /\ (exists r,
        bind (ollama.WithModel o m h0)
             (fun '(o', h') => ollama.chatReq Unmarshal_map Sprint o' h' req stream)
        = Returns r
        /\ ollama.api_ChatRequest_Model r
           = (if ChatRequest_Model req =? "" then m else ChatRequest_Model req)).
Proof.
  unfold ollama.New, ollama.WithModel, ollama.chatReq.
  rewrite lookup_insert_eq. cbn [bind]. rewrite lookup_insert_eq.
  split; eexists; (split; [reflexivity|]); cbn; auto.
Qed.

(** ** Package tool *)

(** X17: [Run] on a tool that was given no handler fails with the
    no-handler error whatever the arguments are, unparsable ones
    included; on a tool with a handler, arguments that do not parse give
    the parse error and the handler has no part in the result; arguments
    that parse give what the handler set last returns on them. *)
Theorem tool_Run
    (Unmarshal_map : string -> result tool.Args) (n desc argsJSON : string)
    (ps : list tool.ParamBuilder) (t : tool.Tool) (h h' : tool.Handler) :
  tool.Run Unmarshal_map (tool.Input (tool.Description (tool.New n) desc) ps) argsJSON
  = Err (no_handler n)
  /\ tool.Run Unmarshal_map (tool.Execute (tool.Execute t h') h) argsJSON
     = tool.Run Unmarshal_map (tool.Execute t h) argsJSON
  /\ match Unmarshal_map argsJSON with
     | Err e =>
         tool.Run Unmarshal_map (tool.Execute t h) argsJSON
         = Err (errorw "failed to parse arguments: %w" e)
         /\ tool.Run Unmarshal_map (tool.Execute t h) argsJSON
            = tool.Run Unmarshal_map (tool.Execute t h') argsJSON
     | Ok raw => tool.Run Unmarshal_map (tool.Execute t h) argsJSON = h raw
     end.
Proof.
  unfold tool.Run. cbn.
  destruct (Unmarshal_map argsJSON); auto.
Qed.

Lemma Strings_of_slice (a : tool.Args) (key : string) (v : list any) :
  tool.index a key = Some (any_slice v) ->
  tool.Strings a key = map string_or_empty v.
Proof. unfold tool.Strings. now intros ->. Qed.

(** X18: on a key that is absent the accessors [String], [Float], [Bool],
    [Strings] and [Object] of [Args] return their zero value, [Has] is
    false and [Raw] is nil; on a key whose value is null these accessors
    return the same zero values and [Raw] is nil again, but [Has] is
    true. [Strings] on an array returns one string per element, in order:
    the element when it is a string, the empty string when it is not.
    ([Int] is not covered.) *)
Theorem tool_Args_accessors (a : tool.Args) (key : string) :
  (tool.index a key = None ->
   zero_values a key /\ tool.Has a key = false /\ tool.Raw a key = any_nil)
  /\ (tool.index a key = Some any_nil ->
      zero_values a key /\ tool.Has a key = true /\ tool.Raw a key = any_nil)
  /\ (forall v,
        tool.index a key = Some (any_slice v) ->
        tool.Strings a key = map string_or_empty v
        /\ length (tool.Strings a key) = length v).
Proof.
  unfold zero_values, tool.String, tool.Float, tool.Bool, tool.Strings,
    tool.Object, tool.Has, tool.Raw.
  split; [|split].
  - intros ->. auto 10.
  - intros ->. auto 10.
  - intros v ->. split; [reflexivity | apply length_map].
Qed.

Lemma tool_Args_accessors_witness :
  tool.Strings [("tags", any_slice [any_string "a"; any_float64 0; any_string "b"])]
    "tags"
  = ["a"; ""; "b"]
  /\ tool.Has [("cursor", any_nil)] "cursor" = true
  /\ tool.Has [("cursor", any_nil)] "limit" = false.
Proof.
  split; [|split].
  - apply (proj1 (proj2 (proj2 (tool_Args_accessors
                                  [("tags", any_slice [any_string "a"; any_float64 0;
                                                       any_string "b"])] "tags"))
                        [any_string "a"; any_float64 0; any_string "b"] eq_refl)).
  - apply (proj1 (proj2 (tool_Args_accessors [("cursor", any_nil)] "cursor"))).
    reflexivity.
  - apply (proj1 (tool_Args_accessors [("cursor", any_nil)] "limit")).
    reflexivity.
Defined.

(** ** Calls over HTTP *)

Lemma chat_steps_outcome {W : Type} (built : result http.Request)
    (send : http.Request -> result http.Response)
    (Unmarshal : string -> result W) (to_response : W -> ChatResponse) :
  chat_outcome built send Unmarshal to_response
    (chat_steps built send Unmarshal to_response).
Proof.
  unfold chat_outcome, chat_steps, http.StatusOK.
  destruct built as [httpReq|e0].
  2:{ split; [|repeat split; intros; congruence].
      intros r. split; [discriminate|].
      intros (h & resp & body & wire & Hb & _). discriminate Hb. }
  destruct (send httpReq) as [resp|e1] eqn:Hsend.
  2:{ split; [|repeat split; intros; congruence].
      intros r. split; [discriminate|].
      intros (h & resp & body & wire & [= <-] & Hs & _). congruence. }
  destruct (http.Response_ReadAll resp) as [body [e2|]] eqn:Hread.
  { split; [|repeat split; intros; congruence].
    intros r. split; [discriminate|].
    intros (h & resp' & body' & wire & [= <-] & Hs & Hr & _). congruence. }
  destruct (Z.eqb_spec (http.Response_StatusCode resp) 200) as [Hst|Hst];
    cbn [negb].
  2:{ split; [|repeat split; intros; congruence].
      intros r. split; [discriminate|].
      intros (h & resp' & body' & wire & [= <-] & Hs & Hr & Hst' & _). congruence. }
  destruct (Unmarshal body) as [wire|e3] eqn:Hwire.
  - split; [|repeat split; intros; congruence].
    intros r. split.
    + intros [= <-]. now exists httpReq, resp, body, wire.
    + intros (h & resp' & body' & wire' & [= <-] & Hs & Hr & _ & Hw & ->).
      congruence.
  - split; [|repeat split; intros; congruence].
    intros r. split; [discriminate|].
    intros (h & resp' & body' & wire & [= <-] & Hs & Hr & _ & Hw & _). congruence.
Qed.

(** X19: [Chat] of the openai, mistral and anthropic providers returns a
    response exactly when the request was built, the transport answered
    it with status 200, the body was read without error and it decoded;
    the response is then the response mapper's image of the decoded body.
    Otherwise it returns the error of the first step that failed: the
    error of building the request; the send error; the read error,
    whatever the status; the API error carrying the status and the body
    when the body was read and the status is not 200, whether or not the
    body would decode; the decode error. *)
Theorem Chat_answers
    (parse_url : string -> result string)
    (Do : positive -> http.Request -> result http.Response)
    (Marshal_o : openai.openaiChatCompletionRequest -> result string)
    (Unmarshal_o : string -> result openai.openaiChatCompletionResponse)
    (o : openai.openai)
    (Marshal_m : mistral.mistralChatCompletionRequest -> result string)
    (Unmarshal_m : string -> result mistral.mistralChatCompletionResponse)
    (m : mistral.mistral)
    (Unmarshal_any : string -> result any)
    (Marshal_a : anthropic.anthropicMessageRequest -> result string)
    (Marshal : any -> result string)
    (Unmarshal_a : string -> result anthropic.anthropicMessageResponse)
    (a : anthropic.anthropic)
    (req : ChatRequest) :
  chat_outcome
    (openai.new_request Marshal_o parse_url o (openai.Chat_wire o req) false)
    (Do (openai.httpClient o)) Unmarshal_o openai.toProviderResponse
    (openai.Chat Marshal_o parse_url Do Unmarshal_o o req)
  /\ chat_outcome
       (mistral.new_request Marshal_m parse_url m (mistral.Chat_wire m req) false)
       (Do (mistral.httpClient m)) Unmarshal_m mistral.toProviderResponse
       (mistral.Chat Marshal_m parse_url Do Unmarshal_m m req)
  /\ chat_outcome
       (anthropic.new_request Marshal_a parse_url a
          (anthropic.Chat_wire Unmarshal_any a req) false)
       (Do (anthropic.httpClient a)) Unmarshal_a
       (anthropic.toProviderResponse Marshal)
       (anthropic.Chat Unmarshal_any Marshal_a Marshal parse_url Do Unmarshal_a a req).
Proof.
  split; [|split].
  - replace (openai.Chat Marshal_o parse_url Do Unmarshal_o o req)
      with (chat_steps
              (openai.new_request Marshal_o parse_url o (openai.Chat_wire o req) false)
              (Do (openai.httpClient o)) Unmarshal_o openai.toProviderResponse);
      [apply chat_steps_outcome|].
    unfold chat_steps, openai.Chat.
    destruct (openai.new_request _ _ _ _ _) as [httpReq|]; [|reflexivity].
    destruct (Do _ httpReq) as [resp|]; [|reflexivity].
    now destruct (http.Response_ReadAll resp) as [body [e|]].
  - replace (mistral.Chat Marshal_m parse_url Do Unmarshal_m m req)
      with (chat_steps
              (mistral.new_request Marshal_m parse_url m (mistral.Chat_wire m req) false)
              (Do (mistral.httpClient m)) Unmarshal_m mistral.toProviderResponse);
      [apply chat_steps_outcome|].
    unfold chat_steps, mistral.Chat.
    destruct (mistral.new_request _ _ _ _ _) as [httpReq|]; [|reflexivity].
    destruct (Do _ httpReq) as [resp|]; [|reflexivity].
    now destruct (http.Response_ReadAll resp) as [body [e|]].
  - replace (anthropic.Chat Unmarshal_any Marshal_a Marshal parse_url Do Unmarshal_a a req)
      with (chat_steps
              (anthropic.new_request Marshal_a parse_url a
                 (anthropic.Chat_wire Unmarshal_any a req) false)
              (Do (anthropic.httpClient a)) Unmarshal_a
              (anthropic.toProviderResponse Marshal));
      [apply chat_steps_outcome|].
    unfold chat_steps, anthropic.Chat.
    destruct (anthropic.new_request _ _ _ _ _) as [httpReq|]; [|reflexivity].
    destruct (Do _ httpReq) as [resp|]; [|reflexivity].
    now destruct (http.Response_ReadAll resp) as [body [e|]].
Qed.

Lemma Chat_answers_witness :
  openai.Chat Transport.marshal_braces Transport.parse_as_written
    (Transport.answers 529 "overloaded" ["overloaded"])
    (fun _ => Ok Sample.openai_response) (openai.New 1) (Sample.request [])
  = Err (api_error 529 "overloaded")
  /\ openai.Chat Transport.marshal_braces Transport.parse_as_written
       (Transport.answers 200 "{}" ["{}"])
       (fun _ => Ok Sample.openai_response) (openai.New 1) (Sample.request [])
     = Ok (openai.toProviderResponse Sample.openai_response).
Proof.
  split.
  - destruct (proj1 (Chat_answers Transport.parse_as_written
                       (Transport.answers 529 "overloaded" ["overloaded"])
                       Transport.marshal_braces (fun _ => Ok Sample.openai_response)
                       (openai.New 1)
                       Transport.marshal_braces (fun _ => Err Sample.array_error)
                       (mistral.New 1)
                       Sample.unmarshal_none Transport.marshal_braces
                       Sample.marshal_null (fun _ => Err Sample.array_error)
                       (anthropic.New 1) (Sample.request [])))
      as (_ & _ & _ & _ & Hstatus & _).
    eapply Hstatus
      with (resp := {| http.Response_StatusCode := 529;
                       http.Response_ReadAll := ("overloaded", None);
                       http.Response_Lines := ["overloaded"] |})
           (body := "overloaded");
      [reflexivity | reflexivity | reflexivity | discriminate].
  - destruct (proj1 (Chat_answers Transport.parse_as_written
                       (Transport.answers 200 "{}" ["{}"])
                       Transport.marshal_braces (fun _ => Ok Sample.openai_response)
                       (openai.New 1)
                       Transport.marshal_braces (fun _ => Err Sample.array_error)
                       (mistral.New 1)
                       Sample.unmarshal_none Transport.marshal_braces
                       Sample.marshal_null (fun _ => Err Sample.array_error)
                       (anthropic.New 1) (Sample.request [])))
      as (Hok & _).
    apply Hok. do 4 eexists. repeat split; reflexivity.
Defined.

Lemma new_reader_delivers_all
    (hook : option (resources -> outcome resources)) (events : channel) :
  delivers_all (NewStreamReader hook) events.
Proof. intros k. now apply Recv_n_drains. Qed.

(** X20: when [Stream] of a provider returns a reader, the transport
    answered with status 200 (for the three HTTP providers), the channel
    holds the events of the decoder over the lines of the answer, and the
    reader hands each of them to the consumer, in order, before it
    reports the stream closed. *)
Theorem Stream_reader_delivers_the_decoder_events
    (parse_url : string -> result string)
    (Do : positive -> http.Request -> result http.Response)
    (s : StreamReader) (events : channel) :
  (forall Marshal_request Unmarshal_chunk o req,
     openai.Stream_call Marshal_request parse_url Do Unmarshal_chunk o req
     = Ok (s, events) ->
     exists httpReq resp,
       Do (openai.httpClient o) httpReq = Ok resp
       /\ http.Response_StatusCode resp = 200
       /\ events = openai.Stream_goroutine Unmarshal_chunk (http.Response_Lines resp)
       /\ delivers_all s events)
  /\ (forall Marshal_request Unmarshal_chunk m req,
        mistral.Stream_call Marshal_request parse_url Do Unmarshal_chunk m req
        = Ok (s, events) ->
        exists httpReq resp,
          Do (mistral.httpClient m) httpReq = Ok resp
          /\ http.Response_StatusCode resp = 200
          /\ events = mistral.Stream_goroutine Unmarshal_chunk (http.Response_Lines resp)
          /\ delivers_all s events)
  /\ (forall Unmarshal_any Marshal_request Unmarshal_event a req,
        anthropic.Stream_call Unmarshal_any Marshal_request parse_url Do
          Unmarshal_event a req
        = Ok (s, events) ->
        exists httpReq resp,
          Do (anthropic.httpClient a) httpReq = Ok resp
          /\ http.Response_StatusCode resp = 200
          /\ events
             = anthropic.Stream_goroutine Unmarshal_event (http.Response_Lines resp)
          /\ delivers_all s events)
  /\ (forall Marshal url_ok resps chat_err,
        ollama.Stream Marshal url_ok resps chat_err = Ok (s, events) ->
        events = ollama.Stream_goroutine Marshal resps chat_err
        /\ delivers_all s events).
Proof.
  split; [|split; [|split]].
  - intros Marshal_request Unmarshal_chunk o req. unfold openai.Stream_call.
    destruct (openai.new_request _ _ _ _ _) as [httpReq|]; [|discriminate].
    destruct (Do _ httpReq) as [resp|] eqn:Hdo; [|discriminate].
    unfold openai.Stream.
    destruct (Z.eqb_spec (http.Response_StatusCode resp) 200) as [Hst|];
      cbn [negb]; [|discriminate].
    intros [= <- <-]. exists httpReq, resp.
    repeat split; auto using new_reader_delivers_all.
  - intros Marshal_request Unmarshal_chunk m req. unfold mistral.Stream_call.
    destruct (mistral.new_request _ _ _ _ _) as [httpReq|]; [|discriminate].
    destruct (Do _ httpReq) as [resp|] eqn:Hdo; [|discriminate].
    unfold mistral.Stream.
    destruct (Z.eqb_spec (http.Response_StatusCode resp) 200) as [Hst|];
      cbn [negb]; [|discriminate].
    intros [= <- <-]. exists httpReq, resp.
    repeat split; auto using new_reader_delivers_all.
  - intros Unmarshal_any Marshal_request Unmarshal_event a req.
    unfold anthropic.Stream_call.
    destruct (anthropic.new_request _ _ _ _ _) as [httpReq|]; [|discriminate].
    destruct (Do _ httpReq) as [resp|] eqn:Hdo; [|discriminate].
    unfold anthropic.Stream.
    destruct (Z.eqb_spec (http.Response_StatusCode resp) 200) as [Hst|];
      cbn [negb]; [|discriminate].
    intros [= <- <-]. exists httpReq, resp.
    repeat split; auto using new_reader_delivers_all.
  - intros Marshal url_ok resps chat_err. unfold ollama.Stream.
    destruct url_ok; [|discriminate].
    intros [= <- <-]. split; auto using new_reader_delivers_all.
Qed.

Lemma Stream_reader_delivers_the_decoder_events_witness :
  let sent := openai.Stream_goroutine Sample.openai_Unmarshal Transport.two_chunks in
  let parts :=
    ollama.Stream_goroutine Sample.marshal_null
      [Transport.ollama_part "Hel"; Transport.ollama_part "lo"] None in
  (length sent = 2%nat
   /\ delivers_all (NewStreamReader (Some (fun w => Returns (Body_Close w)))) sent)
  /\ (length parts = 2%nat
      /\ delivers_all (NewStreamReader (Some ollama.close_done)) parts).
Proof.
  cbn zeta. split; (split; [reflexivity|]).
  - destruct (proj1 (Stream_reader_delivers_the_decoder_events
                       Transport.parse_as_written
                       (Transport.answers 200 "" Transport.two_chunks)
                       (NewStreamReader (Some (fun w => Returns (Body_Close w))))
                       (openai.Stream_goroutine Sample.openai_Unmarshal
                          Transport.two_chunks))
                Transport.marshal_braces Sample.openai_Unmarshal (openai.New 1)
                (Sample.request [Sample.message RoleUser "2+2?"]) eq_refl)
      as (httpReq & resp & _ & _ & _ & Hall).
    exact Hall.
  - apply (proj2 (proj2 (proj2
             (Stream_reader_delivers_the_decoder_events
                Transport.parse_as_written
                (Transport.answers 200 "" [])
                (NewStreamReader (Some ollama.close_done))
                (ollama.Stream_goroutine Sample.marshal_null
                   [Transport.ollama_part "Hel"; Transport.ollama_part "lo"] None))))
             Sample.marshal_null (Ok tt)
             [Transport.ollama_part "Hel"; Transport.ollama_part "lo"] None).
    reflexivity.
Defined.

(** X21: the HTTP request of a call is a POST whose URL is the one
    [url.Parse] makes of the base URL set last followed by the vendor's
    path, its body is the encoded wire request, and it carries the key
    set last: as [Authorization: Bearer key] for openai and mistral, as
    [x-api-key: key] with no [Authorization] header for anthropic. The
    [Accept] header is set for [Stream] only. *)
Theorem new_request_target_and_key
    (parse_url : string -> result string) (url key : string) (streaming : bool)
    (r : http.Request) :
  (forall Marshal_request o w,
     openai.new_request Marshal_request parse_url
       (openai.WithAPIKey (openai.WithBaseURL o url) key) w streaming = Ok r ->
     http.Request_Method r = "POST"
     /\ parse_url (url +:+ "/v1/chat/completions") = Ok (http.Request_URL r)
     /\ Marshal_request w = Ok (http.Request_Body r)
     /\ http.Header_Get "Authorization" r = Some ("Bearer " +:+ key)
     /\ http.Header_Get "Accept" r
        = (if streaming then Some "text/event-stream" else None))
  /\ (forall Marshal_request m w,
        mistral.new_request Marshal_request parse_url
          (mistral.WithAPIKey (mistral.WithBaseURL m url) key) w streaming = Ok r ->
        http.Request_Method r = "POST"
        /\ parse_url (url +:+ "/v1/chat/completions") = Ok (http.Request_URL r)
        /\ Marshal_request w = Ok (http.Request_Body r)
        /\ http.Header_Get "Authorization" r = Some ("Bearer " +:+ key)
        /\ http.Header_Get "Accept" r
           = (if streaming then Some "text/event-stream" else None))
  /\ (forall Marshal_request a w,
        anthropic.new_request Marshal_request parse_url
          (anthropic.WithAPIKey (anthropic.WithBaseURL a url) key) w streaming = Ok r ->
        http.Request_Method r = "POST"
        /\ parse_url (url +:+ "/v1/messages") = Ok (http.Request_URL r)
        /\ Marshal_request w = Ok (http.Request_Body r)
        /\ http.Header_Get "x-api-key" r = Some key
        /\ http.Header_Get "anthropic-version" r = Some "2023-06-01"
        /\ http.Header_Get "Authorization" r = None
        /\ http.Header_Get "Accept" r
           = (if streaming then Some "text/event-stream" else None)).
Proof.
  unfold http.Header_Get. split; [|split].
  - intros Marshal_request o w.
    unfold openai.new_request, http.NewRequestWithContext. cbn.
    destruct (Marshal_request w) as [body|]; [|discriminate].
    destruct (parse_url _) as [u|]; [|discriminate].
    intros [= <-]. destruct streaming; cbn; repeat split; reflexivity.
  - intros Marshal_request m w.
    unfold mistral.new_request, http.NewRequestWithContext. cbn.
    destruct (Marshal_request w) as [body|]; [|discriminate].
    destruct (parse_url _) as [u|]; [|discriminate].
    intros [= <-]. destruct streaming; cbn; repeat split; reflexivity.
  - intros Marshal_request a w.
    unfold anthropic.new_request, http.NewRequestWithContext. cbn.
    destruct (Marshal_request w) as [body|]; [|discriminate].
    destruct (parse_url _) as [u|]; [|discriminate].
    intros [= <-]. destruct streaming; cbn; repeat split; reflexivity.
Qed.

Lemma new_request_target_and_key_witness :
  match anthropic.new_request Transport.marshal_braces Transport.parse_as_written
          (anthropic.WithAPIKey
             (anthropic.WithBaseURL (anthropic.New 1) "http://localhost:8080")
             "sk-test")
          (anthropic.Stream_wire Sample.unmarshal_none (anthropic.New 1)
             (Sample.request []))
          true with
  | Ok r =>
      http.Header_Get "x-api-key" r = Some "sk-test"
      /\ http.Header_Get "Authorization" r = None
      /\ http.Header_Get "Accept" r = Some "text/event-stream"
  | Err _ => False
  end.
Proof.
  destruct (anthropic.new_request _ _ _ _ _) as [r|e] eqn:Hr.
  - destruct (proj2 (proj2 (new_request_target_and_key Transport.parse_as_written
                              "http://localhost:8080" "sk-test" true r))
                _ _ _ Hr) as (_ & _ & _ & Hkey & _ & Hauth & Haccept).
    repeat split; assumption.
  - vm_compute in Hr. discriminate Hr.
Defined.

(** ** The wire request of a call *)

(** X22: the model a call puts on the wire is the request's model when
    it is not empty and otherwise the model set last on the provider, for
    [Chat] and [Stream] alike. [Stream] always asks for streaming.
    [Chat] of openai and mistral forwards the request's own stream flag,
    while [Chat] of anthropic never asks for streaming, whatever the
    request says. *)
Theorem wire_model_and_stream_flag
    (Unmarshal_any : string -> result any) (req : ChatRequest) (model : string)
    (o : openai.openai) (m : mistral.mistral) (a : anthropic.anthropic) :
  let effective := if ChatRequest_Model req =? "" then model else ChatRequest_Model req in
  (openai.Request_Model (openai.Chat_wire (openai.WithModel o model) req) = effective
   /\ openai.Request_Model (openai.Stream_wire (openai.WithModel o model) req) = effective
   /\ openai.Request_Stream (openai.Chat_wire o req) = ChatRequest_Stream req
   /\ openai.Request_Stream (openai.Stream_wire o req) = true)
  /\ (mistral.Request_Model (mistral.Chat_wire (mistral.WithModel m model) req) = effective
      /\ mistral.Request_Model (mistral.Stream_wire (mistral.WithModel m model) req)
         = effective
      /\ mistral.Request_Stream (mistral.Chat_wire m req) = ChatRequest_Stream req
      /\ mistral.Request_Stream (mistral.Stream_wire m req) = true)
  /\ (anthropic.Request_Model
        (anthropic.Chat_wire Unmarshal_any (anthropic.WithModel a model) req)
      = effective
      /\ anthropic.Request_Model
           (anthropic.Stream_wire Unmarshal_any (anthropic.WithModel a model) req)
         = effective
      /\ anthropic.Request_Stream (anthropic.Chat_wire Unmarshal_any a req) = false
      /\ anthropic.Request_Stream (anthropic.Stream_wire Unmarshal_any a req) = true).
Proof.
  cbn zeta. split; [|split]; [repeat split | repeat split |].
  unfold anthropic.Stream_wire, anthropic.Chat_wire, anthropic.toAnthropicRequest.
  cbn [anthropic.model anthropic.WithModel].
  repeat match goal with
         | |- context [fold_left ?f ?l ?i] =>
             let s := fresh "s" in
             let ms := fresh "ms" in
             destruct (fold_left f l i) as [s ms]
         end.
  repeat split.
Qed.

(** ** The ollama tool converter *)

Lemma fold_properties_lookup (props : list (string * any)) (name : string)
    (p : ollama.api_ToolProperty) :
  fold_right
    (fun '(name, prop) (properties : gmap string ollama.api_ToolProperty) =>
       match prop with
       | any_map pm => <[name := property_of pm]> properties
       | _ => properties
       end) ∅ props !! name = Some p ->
  exists pm, In (name, any_map pm) props /\ p = property_of pm.
Proof.
  induction props as [|[k v] props IH]; cbn [fold_right].
  - rewrite lookup_empty. discriminate.
  - destruct v as [| | | | |pm]; try (intros H; destruct (IH H) as (pm' & Hin & ->);
      exists pm'; split; [now right | reflexivity]).
    destruct (decide (k = name)) as [->|Hne].
    + rewrite lookup_insert_eq. intros [= <-]. exists pm. split; [now left | reflexivity].
    + rewrite lookup_insert_ne by exact Hne. intros H.
      destruct (IH H) as (pm' & Hin & ->). exists pm'. split; [now right | reflexivity].
Qed.

(** X23: the ollama tool converter returns one tool per declared tool,
    in order, with its name and description, always of type "function"
    with parameters of type "object". Every property of a converted tool
    comes from a member of the schema's "properties" object whose value
    is itself an object, and has that member's "type" and "description"
    strings (empty when absent or not strings); when the schema has no
    "properties" object the converted tool has no property, and when it
    has no "required" array it requires nothing. *)
Theorem ollama_convertTools
    (Sprint : any -> string) (tools : list Tool) (parameters : list (string * any)) :
  map tool_head (ollama.convertTools Sprint tools) = map declared_head tools
  /\ (forall name p,
        ollama.convert_properties parameters !! name = Some p ->
        exists props pm,
          ollama.lookup_key "properties" parameters = Some (any_map props)
          /\ In (name, any_map pm) props /\ p = property_of pm)
  /\ (ollama.lookup_key "properties" parameters = None ->
      ollama.convert_properties parameters = ∅)
  /\ (ollama.lookup_key "required" parameters = None ->
      ollama.convert_required Sprint parameters = []).
Proof.
  split; [|split; [|split]].
  - unfold ollama.convertTools. rewrite map_map. now apply map_ext.
  - intros name p. unfold ollama.convert_properties.
    destruct (ollama.lookup_key "properties" parameters) as [v|];
      [|rewrite lookup_empty; discriminate].
    destruct v as [| | | | |props]; try (rewrite lookup_empty; discriminate).
    intros H. destruct (fold_properties_lookup props name p H) as (pm & Hin & ->).
    now exists props, pm.
  - unfold ollama.convert_properties. now intros ->.
  - unfold ollama.convert_required. now intros ->.
Qed.

Lemma ollama_convertTools_witness :
  ollama.convert_properties
    [("type", any_string "object");
     ("properties",
      any_map [("city", any_map [("type", any_string "string")]);
               ("days", any_float64 0)])]
  !! "days" = None
  /\ ollama.convert_required (fun _ => "") [("type", any_string "object")] = [].
Proof.
  split.
  - destruct (ollama.convert_properties _ !! "days") as [p|] eqn:Hp; [|reflexivity].
    destruct (proj1 (proj2 (ollama_convertTools (fun _ => "") [] _)) _ _ Hp)
      as (props & pm & Hprops & Hin & _).
    injection Hprops as <-.
    destruct Hin as [Hin | [Hin | []]]; discriminate Hin.
  - apply (proj2 (proj2 (proj2 (ollama_convertTools (fun _ => "") []
                                   [("type", any_string "object")])))).
    reflexivity.
Defined.
